(* ===== verification/_CoqProject ===== *)
-Q . S2P
Prelude.v
JsNumber.v
JsObject.v
GeoJson.v
Bands.v
BandsExact.v
Paint.v
MapLibre.v
App.v
Animation.v
AnimationExact.v
Binary64.v
Binary64Avg.v
Binary64Floor.v
Preprocess.v
NumberString.v
Controls.v
Interleaving.v
Popups.v
Load.v
Page.v
PageBinary64.v
PageText.v
Lifecycle.v
Scenario.v
Witnesses.v
