(* ===== verification/Prelude.v ===== *)
(** * County stripes: a verification development for [src/script.js]

    ** The program

    [src/script.js] is the script of a web page that draws the counties of
    the United States on a MapLibre map, coloured by area, population or
    population density, and an alternative view in which the counties are
    replaced by vertical "longitude bands", each coloured by the average of
    the metric over the counties whose centroid falls in it.  The script has
    no modules; its parts are the statements of one [load] handler:

    - the preprocessing of the input file (lines 30-39), which stores the
      area, the centroid longitude, the population and the density of each
      county in its properties;
    - [createLongitudeBands] (lines 42-80), which groups the counties by
      [Math.floor(lon / width) * width] in an object and turns each group
      into a rectangle with the average of its strictly positive values;
    - the tables of paint expressions and of the legend (lines 83-99 and
      204-213), the sources and the layers (lines 102-131);
    - the handlers: pointer (134-146), popups (150-193), the view toggle
      (229-246), the colour-mode select (248-255) and the band-width slider
      with its animation (257-273).

    The handlers share the variables [counties], [bandWidth], [colorMode],
    [activePopup] and [mode], the map widget and the animation-frame queue of
    the browser.

    ** The files

    - [Prelude] (this file): the lemmas on lists the components share, among
      them the partition of a list by a key, and the rewrite database [js].
    - [JsNumber]: the interface [Number] of the numeric operations the script
      uses, with two instances: [binary64], the numbers the script computes
      with (Rocq's primitive floats, the same IEEE-754 format and rounding),
      and [exact], the rationals.  A number used as a property key is
      represented by [num_canon], the number its string reads back as.
    - [JsObject]: an object used as a dictionary: creation order, assignment,
      and the order of [Object.entries] (array-index keys first).
    - [GeoJson]: the records of the data: input features, counties, bands.
      The population of an input feature is any JSON value (an array or an
      object by the string it converts to); the two names are text or
      absent.
    - [Bands]: [createLongitudeBands], one definition per loop body, and its
      specification [bands_spec] by groups ([members]).
    - [BandsExact]: the band of a county in exact arithmetic.
    - [Paint]: [countyPaints], [bandPaints], [legendStops], [legendColors].
    - [MapLibre]: the part of the map widget's state the script writes, with
      one function per method the script calls (modelled from the
      specification's adapter interface, not from code).
    - [App]: the record [State] of the variables, DOM elements and queue the
      handlers share.
    - [Animation]: the slider handler [slider_input], the closure
      [animateStep] and the frames that run the queued callbacks.
    - [AnimationExact]: the widths an animation goes through, in exact
      arithmetic.
    - [Binary64]: runs of the aggregation and of the animation in binary64.
    - [Binary64Avg]: the class and sign of a band's average in binary64,
      followed through the rounding of [SpecFloat], and the average of a
      band that holds an infinite value.
    - [Binary64Floor]: the value of a binary64 as a rational, and
      [Math.floor] on the bits of a binary64 against the floor of the
      rationals.
    - [Preprocess]: the preprocessing in binary64, with
      [parseFloat(x.toFixed(d))] computed from the bits of [x].
    - [NumberString]: [toFixed], [parseFloat] and [Number(...)] on strings,
      from ECMAScript: the digits of an integer, the grammar of decimal
      literals as a parser, the value of a decimal as the nearest binary64.
    - [Controls]: [updateLegend], [toggle_click], [select_change]; a handler
      returns or throws ([Outcome]).
    - [Interleaving]: a change of colour mode between two frames of an
      animation.
    - [Popups]: [showPopup] and the click and hover handlers.
    - [Load]: the state the [load] handler leaves.
    - [Page]: the events, their dispatch [handle], the states [reachable]
      from [load], and the invariants of those states.
    - [PageBinary64]: the invariant of the band source joined with
      [Binary64Avg].
    - [PageText]: the html of the legend and of the popups and the label of
      the slider, as the template strings build them; [toLocaleString] is
      the class [NumberFormat].
    - [Lifecycle]: the top level of the script (lines 1-17: the options of
      the map and its attribution control, whose html is the string the
      script writes) and a description of the phases of the asynchronous
      [load] handler as a step relation: before [load], waiting for the
      file, waiting for its parsing, failed, running.
    - [Scenario]: the whole page, preprocessing included, run in binary64
      on a file of three counties, with the texts it shows.
    - [Witnesses]: every theorem that has hypotheses, applied to a concrete
      page.

    Components written against [Number] are proved once for both instances;
    the theorems of [BandsExact] and [AnimationExact] say what the algorithm
    does when no operation rounds, and [Binary64] shows by computation where
    the script's own arithmetic departs from that.

    ** What is proved

    - Aggregation ([Bands]): [createLongitudeBands] refines [bands_spec]: one
      band per key that has a county, the bands partition the counties, the
      average is the sum of the strictly positive values over their number or
      0, every rectangle spans latitudes 25 to 49, and the bands come in
      the order of [Object.entries] (array-index starts first, ascending,
      then first occurrence; first occurrence alone for a map west of
      Greenwich).  In exact arithmetic and
      for a positive width a county is in a band exactly when
      [bandStart <= lon < bandEnd], and the bands do not depend on the order
      of the counties in the file ([BandsExact]); in binary64 a zero width
      gives one band of NaN coordinates and the interval can miss the
      centroid (an example of [Binary64]), but the average of a band is
      never NaN and never below zero, and it is [+Infinity] as soon as one
      county of the band has an infinite value ([Binary64Avg]).  The floor of the two arithmetics
      is the same function on every finite number, so the binary64 start of
      a band differs from the exact one by the rounding of the quotient and
      of the product only ([Binary64Floor]).
    - Animation ([Animation]): the exact sequence of band collections one
      slider event publishes, termination of every chain of callbacks, the
      state after the last step, and what two overlapping events show.  The
      first step starts from the old width and the later ones from the new
      width, so the last collection is for [2 * new - old], not for the
      requested width ([AnimationExact]); from 2 to 1 it is for the width 0
      ([Binary64]).  A change of colour mode during an animation shows the
      requested width at once and the animation resumes ([Interleaving]).
    - Preprocessing ([Preprocess]): the population is never NaN and
      defaults to 0; a zero area gives a density that is not finite, and
      [+Infinity] when the population is above zero.
    - Numbers as text ([NumberString]): the digits printed for an integer
      stand for it; reading with [parseFloat] what [toFixed] printed gives
      the number [Preprocess.toFixed_parsed] computes from the bits, which
      is what justifies that definition; what [toFixed] prints has the
      [d] decimals asked for; a population written with a thousands
      separator counts as 0.
    - Texts ([PageText]): no two legends the script can build print alike,
      so the legend of a reachable state tells its colour mode and, for the
      population, its view; a name goes into the html of a popup
      unescaped.
    - Page ([Page]): in every reachable state exactly one view is visible and
      the text of the button names the other (before the first click the
      button has the text of the page, and the county view is shown), the
      fill colours are those of [colorMode],
      at most one popup is open and it is [activePopup], the band source
      holds an aggregation of all the counties for the current colour mode,
      the legend is the one of the current mode and view, the label of the
      slider shows [bandWidth], and ten frames without an event end every
      animation; what each click leaves on the
      map; in binary64 no band of the source has a NaN or negative average,
      and a county with an infinite value of the metric on display has a
      band whose average is [+Infinity] ([PageBinary64]).
    - Controls ([Controls], [Paint]): the change handler on each branch, the
      throw for a colour mode without tables, and the agreement of the
      legend tables with the paint expressions.

    ** Choices and bounds

    - Counters ([currentStep], array lengths, the count of popups) are
      natural numbers: the script keeps them below [2^53], where binary64 is
      exact on integers.  [steps] is the script's constant 10.  The theorems
      of [Binary64Avg] assume fewer than [2^32] counties, the bound on the
      length of an array.
    - The loops of the script are folds over the input list, and an
      animation is a queue of callbacks that [frame] runs once each; that it
      empties is a theorem ([animation_terminates]).  The one definition
      with fuel is [NumberString.digits_fuel], the division by 10 that
      prints an integer: [digits] gives it one more than the binary
      logarithm of the number, and [digits_fuel_enough] with
      [digits_value_digits] show that this prints every digit.
    - The preprocessing is a parameter [derive] of [Load] and [Page], so the
      page's invariants hold for any arithmetic; [Preprocess.derive] is its
      binary64 instance.
    - A popup carries the values its html shows and the legend its rows;
      [PageText] renders them.  Strings are sequences of bytes (UTF-8), so
      [toUpperCase] and the white space of the number grammar are those of
      ASCII.

    ** Not modelled

    - [toLocaleString]: its output depends on the locale and on the
      internationalisation library of the browser (ECMA-402 leaves the
      digits to the implementation); it is the parameter [NumberFormat].
    - [Number::toString]: [toFixed] uses it from [10^21] on and template
      strings use it for property keys; it is a parameter of [toFixed], and
      [num_canon] stands for the number a key reads back as.
    - The part of the [load] handler after its two awaits runs without
      another event in between.  The fetch and the parsing are steps of
      [Lifecycle.step] with the outcomes the script can see (resolved,
      rejected, thrown); the network and the JSON text are not modelled, and
      neither is the rendering of the map.  [Lifecycle.step] and
      [Page.handle] describe how the browser calls the script (a handler
      runs when its event arrives, and none before the [load] handler has
      registered it); no theorem is claimed of the phases before the page
      runs.
    - The elements of the page ([index.html]) are taken to exist, so no
      handler fails on a missing element.  An input file that gives a name
      as something other than text, or a population as an object with data
      under both [valueOf] and [toString], is outside the model.
    - [turf.area] and [turf.centroid] are a library the script calls: the
      class [Turf].  [Preprocess.derive] takes the conversion of a string to
      a number as a parameter; [NumberString.StringToNumber] is the one of
      the runtime. *)

From Stdlib Require Export ZArith Lia List Bool.
From stdpp Require Export base tactics option list.

(** ** Shared automation *)

(** The rewrite database [js] holds the equations that normalise the models
    of loops and of the number runtime: [autorewrite with js]. *)
Create Rewrite HintDb js.

(** ** Lists *)

Section Lists.
Context {A B : Type}.
Implicit Types (l : list A) (f : B -> A -> B).

(** A left fold over a list extended at its end: the form a [for ... of]
    loop takes when one more element is processed. *)
Lemma fold_left_snoc f l x b :
  fold_left f (l ++ [x]) b = f (fold_left f l b) x.
Proof. by rewrite fold_left_app. Qed.

(** A duplicate-free list whose elements are all [x] is [[x]] or empty. *)
Lemma NoDup_all_eq (l : list A) (x : A) :
  NoDup l -> (forall y, y ∈ l -> y = x) -> l = [] \/ l = [x].
Proof.
  intros Hnd Hall. destruct l as [|y l]; [by left | right].
  rewrite (Hall y) in * by left. f_equal. destruct l as [|z l]; [done|].
  apply NoDup_cons in Hnd as [Hx _]. destruct Hx. rewrite (Hall z); [left|].
  right; left.
Qed.
End Lists.

Section Partition.
Context {A K : Type} `{EqDecision K} (key : A -> K).

Lemma filter_filter_ne (k k' : K) (l : list A) :
  k <> k' ->
  filter (fun x => key x = k') (filter (fun x => key x <> k) l)
  = filter (fun x => key x = k') l.
Proof.
  intros Hne. rewrite list_filter_filter. apply list_filter_iff.
  intros x. split; [by intros [? _] | intros ->; by split].
Qed.

Lemma filter_eq_ne_Permutation (k : K) (l : list A) :
  filter (fun x => key x = k) l ++ filter (fun x => key x <> k) l ≡ₚ l.
Proof.
  induction l as [|x l IH]; [done|]. rewrite !filter_cons.
  destruct (decide (key x = k)).
  - rewrite decide_False by auto. simpl. by f_equiv.
  - rewrite decide_True by auto. rewrite <- Permutation_middle. by f_equiv.
Qed.

(** Grouping a list by a key, over distinct keys that cover the list, loses
    and repeats nothing. *)
Lemma group_by_key_Permutation (ks : list K) (l : list A) :
  NoDup ks -> (forall x, x ∈ l -> key x ∈ ks) ->
  concat ((fun k => filter (fun x => key x = k) l) <$> ks) ≡ₚ l.
Proof.
  intros Hnd. revert l. induction Hnd as [|k ks Hk Hnd IH]; intros l Hcov.
  - destruct l as [|x l]; [done|].
    by destruct (not_elem_of_nil (key x)); apply Hcov; left.
  - simpl. etrans; [|apply (filter_eq_ne_Permutation k)]. f_equiv.
    rewrite <- (IH (filter (fun x => key x <> k) l)).
    + assert (Heq : forall l1 l2 : list A, l1 = l2 -> l1 ≡ₚ l2)
        by (by intros ? ? ->).
      apply Heq. f_equal. apply list_fmap_ext. intros i k' Hk'.
      symmetry. apply filter_filter_ne. intros ->.
      by apply list_elem_of_lookup_2 in Hk'.
    + intros x [Hx Hin]%list_elem_of_filter.
      specialize (Hcov x Hin). by apply elem_of_cons in Hcov as [?|?].
Qed.
End Partition.

(** ** Filtering the image of a list *)

Lemma filter_fmap {A B : Type} (f : A -> B) (P : B -> Prop)
    `{!forall y, Decision (P y)} (l : list A) :
  filter P (f <$> l) = f <$> filter (fun x => P (f x)) l.
Proof.
  induction l as [|x l IH]; [done|].
  rewrite fmap_cons, !filter_cons. case_decide; by rewrite ?fmap_cons, IH.
Qed.

(** ** First occurrences *)

Section FirstSeen.
Context {K : Type} `{EqDecision K}.
Implicit Types (k : K) (ks : list K).

(** The distinct elements of a list, in the order in which they first
    occur. *)
Definition first_seen ks : list K :=
  fold_left (fun acc k => if decide (k ∈ acc) then acc else acc ++ [k]) ks [].

Lemma first_seen_snoc ks k :
  first_seen (ks ++ [k])
  = if decide (k ∈ first_seen ks) then first_seen ks else first_seen ks ++ [k].
Proof. unfold first_seen. by rewrite fold_left_snoc. Qed.

Lemma elem_of_first_seen ks k : k ∈ first_seen ks <-> k ∈ ks.
Proof.
  induction ks as [|k' ks IH] using rev_ind; [done|].
  rewrite first_seen_snoc, elem_of_app, list_elem_of_singleton, <- IH.
  case_decide; [|by rewrite elem_of_app, list_elem_of_singleton].
  split; [by left | by intros [?| ->]].
Qed.

Lemma NoDup_first_seen ks : NoDup (first_seen ks).
Proof.
  induction ks as [|k ks IH] using rev_ind; [apply NoDup_nil_2|].
  rewrite first_seen_snoc. case_decide; [done|].
  apply NoDup_app. split_and!; [done| |apply NoDup_singleton].
  by intros x Hx ->%list_elem_of_singleton.
Qed.

End FirstSeen.

#[export] Hint Rewrite @fold_left_snoc : js.
#[export] Hint Rewrite @first_seen_snoc : js.
