(* ===== verification/JsNumber.v ===== *)
(** * JsNumber: the numbers of the script

    Every number of [src/script.js] is an ECMAScript Number, an IEEE-754
    binary64 value.  The components that compute with numbers are written
    against the interface [Number]; its instance [binary64] (Rocq's primitive
    [float], the same format with the same rounding) is the arithmetic the
    script runs on, and its instance [exact] (the rationals) is the arithmetic
    the specification reasons in.  Theorems stated for every [Number] hold of
    the script; theorems stated for [exact] say what the algorithm computes
    when no operation rounds, and the [binary64] examples beside them show
    where rounding makes the script differ. *)

From Stdlib Require Import Floats QArith Qround.
From S2P Require Import Prelude.

Declare Scope num_scope.
Delimit Scope num_scope with num.

(** ** The interface *)

Class Number (R : Type) := {
  num_eq_dec :: EqDecision R;
  (** an integer literal, or the length of an array *)
  num_of_Z : Z -> R;
  num_add : R -> R -> R;
  num_sub : R -> R -> R;
  num_mul : R -> R -> R;
  num_div : R -> R -> R;
  (** [Math.floor] *)
  Math_floor : R -> R;
  (** [x < y] *)
  num_ltb : R -> R -> bool;
  (** A number used as a property key is converted to a string, and
      [parseFloat] reads the string back.  The conversion is injective but for
      the two zeros, which both print as "0", so a key is represented by the
      number [parseFloat] returns for it: [num_canon x] is
      [parseFloat(`${x}`)], and two numbers give the same key exactly when
      their [num_canon] are equal. *)
  num_canon : R -> R;
  (** [num_index x] is [Some i] when the string of [x] is an array index
      (the decimal form of an integer [0 <= i < 2^32 - 1]): own properties
      with such keys are enumerated first, in ascending order. *)
  num_index : R -> option N;
}.

Notation "x + y" := (num_add x y) : num_scope.
Notation "x - y" := (num_sub x y) : num_scope.
Notation "x * y" := (num_mul x y) : num_scope.
Notation "x / y" := (num_div x y) : num_scope.
Notation "x <? y" := (num_ltb x y) : num_scope.
Notation "x >? y" := (num_ltb y x) : num_scope.

(** What the components rely on, beyond the operations themselves. *)
Class NumberLaws (R : Type) `{Number R} := {
  num_canon_idem (x : R) : num_canon (num_canon x) = num_canon x;
  num_index_canon (x : R) : num_index (num_canon x) = num_index x;
  num_div_0_1 : num_div (num_of_Z 0) (num_of_Z 1) = num_of_Z 0;
}.

(** [2^32 - 1], the first integer that is not an array index. *)
Definition max_index : Z := 4294967295.

(** ** binary64 *)

Module B64.
(** The nearest binary64 to the integer [z] (exact when [|z| <= 2^53]). *)
Definition of_Z (z : Z) : float :=
  SF2Prim (binary_normalize prec emax z 0 false).

(** [Math.floor]: the largest integer not above [x]; NaN, the infinities
    and both zeros are returned as they are. *)
Definition floor (x : float) : float :=
  match Prim2SF x with
  | S754_finite s m e =>
      if (0 <=? e)%Z then x
      else match Z.shiftr (cond_Zopp s (Zpos m)) (- e) with
           | Z0 => zero
           | n => of_Z n
           end
  | _ => x
  end.

(** [`${x}`] read back: [-0] prints as "0". *)
Definition canon (x : float) : float := if is_zero x then zero else x.

(** The integer value of [x] when [`${x}`] is an array index. *)
Definition index (x : float) : option N :=
  match Prim2SF x with
  | S754_zero _ => Some 0%N
  | S754_finite false m e =>
      let v := if (0 <=? e)%Z then Z.shiftl (Zpos m) e
               else if (Zpos m mod 2 ^ (- e) =? 0)%Z
                    then Z.shiftr (Zpos m) (- e) else (-1)%Z in
      if ((0 <=? v) && (v <? max_index))%Z then Some (Z.to_N v) else None
  | _ => None
  end.

(** The nearest binary64 to the decimal literal [m / 10^d]. *)
Definition of_decimal (m : Z) (d : nat) : float :=
  match m with
  | Z0 => zero
  | Zpos p | Zneg p =>
      let '(mz, ez, lz) :=
        SFdiv_core_binary prec emax (Zpos p) 0 (10 ^ Z.of_nat d) 0 in
      SF2Prim (binary_round_aux prec emax (m <? 0)%Z mz ez lz)
  end.
End B64.

#[export] Instance float_eq_dec : EqDecision float.
Proof.
  intros x y. destruct (Leibniz.eqb x y) eqn:E; [left | right].
  - by apply Leibniz.eqb_spec.
  - intros H. apply Leibniz.eqb_spec in H. congruence.
Defined.

#[export] Instance binary64 : Number float := {
  num_of_Z := B64.of_Z;
  num_add := PrimFloat.add;
  num_sub := PrimFloat.sub;
  num_mul := PrimFloat.mul;
  num_div := PrimFloat.div;
  Math_floor := B64.floor;
  num_ltb := PrimFloat.ltb;
  num_canon := B64.canon;
  num_index := B64.index;
}.

(** ** Exact arithmetic *)

Module Exact.
Definition floor (x : Q) : Q := inject_Z (Qfloor x).

Definition ltb (x y : Q) : bool := negb (Qle_bool y x).

Definition index (x : Q) : option N :=
  let r := Qred x in
  if ((Zpos (Qden r) =? 1) && (0 <=? Qnum r) && (Qnum r <? max_index))%Z
  then Some (Z.to_N (Qnum r)) else None.
End Exact.

#[export] Instance Q_eq_dec : EqDecision Q.
Proof. solve_decision. Defined.

#[export] Instance exact : Number Q := {
  num_of_Z := inject_Z;
  num_add := Qplus;
  num_sub := Qminus;
  num_mul := Qmult;
  num_div := Qdiv;
  Math_floor := Exact.floor;
  num_ltb := Exact.ltb;
  num_canon := Qred;
  num_index := Exact.index;
}.

(** ** Laws *)

Lemma B64_canon_zero : B64.canon zero = zero.
Proof. reflexivity. Qed.

#[export] Instance binary64_laws : NumberLaws float.
Proof.
  split; [intros x | intros x |]; cbn; unfold B64.canon.
  - destruct (is_zero x) eqn:E; [reflexivity | by rewrite E].
  - destruct (is_zero x) eqn:E; [| reflexivity].
    unfold B64.index. unfold is_zero in E. rewrite FloatAxioms.eqb_spec in E.
    change (Prim2SF zero) with (S754_zero false) in *.
    by destruct (Prim2SF x) as [[]|[]| |[] ? ?].
  - reflexivity.
Qed.

(** ** Classes of binary64 values *)

Lemma SFeqb_refl (x : spec_float) : SFeqb x x = negb (match x with S754_nan => true | _ => false end).
Proof.
  unfold SFeqb. destruct x as [[]|[]| |[] m e]; simpl; try done;
    by rewrite Z.compare_refl, Pos.compare_cont_refl.
Qed.

Lemma is_nan_Prim2SF (x : float) :
  is_nan x = match Prim2SF x with S754_nan => true | _ => false end.
Proof.
  unfold is_nan. rewrite FloatAxioms.eqb_spec, SFeqb_refl.
  by destruct (Prim2SF x).
Qed.

Lemma is_zero_Prim2SF (x : float) :
  is_zero x = match Prim2SF x with S754_zero _ => true | _ => false end.
Proof.
  unfold is_zero. rewrite FloatAxioms.eqb_spec.
  change (Prim2SF zero) with (S754_zero false).
  by destruct (Prim2SF x) as [[]|[]| |[] ? ?].
Qed.

Lemma is_infinity_Prim2SF (x : float) :
  is_infinity x = match Prim2SF x with S754_infinity _ => true | _ => false end.
Proof.
  unfold is_infinity. rewrite FloatAxioms.eqb_spec, abs_spec.
  change (Prim2SF infinity) with (S754_infinity false).
  by destruct (Prim2SF x) as [[]|[]| |[] ? ?].
Qed.

Lemma Prim2SF_nan_inv (x : float) : Prim2SF x = S754_nan -> x = nan.
Proof. intros Hx. by rewrite <- (SF2Prim_Prim2SF x), Hx. Qed.

Lemma Qred_idem (x : Q) : Qred (Qred x) = Qred x.
Proof. apply Qred_complete, Qred_correct. Qed.

#[export] Instance exact_laws : NumberLaws Q.
Proof.
  split; [intros x | intros x |]; cbn.
  - apply Qred_idem.
  - unfold Exact.index. by rewrite Qred_idem.
  - reflexivity.
Qed.

#[export] Hint Rewrite B64_canon_zero Qred_idem : js.
