(* ===== verification/JsObject.v ===== *)
(** * JsObject: an object used as a dictionary

    [createLongitudeBands] collects its groups in an object literal [{}]
    whose property keys are numbers converted to strings.  An object keeps its
    own properties in creation order, [o[k] = v] replaces the value of an
    existing property in place and appends a new one, and [Object.entries]
    enumerates the properties whose key is an array index first, in ascending
    numeric order, then the others in creation order.  The order matters: it
    is the order of the band features the script hands to the map.

    Keys are any type with decidable equality (see [JsNumber.num_canon] for
    how a number stands for its string).  [get] looks up own properties
    only: the keys the script creates are the strings of numbers and the
    three colour modes, none of which names a member of [Object.prototype]. *)

From stdpp Require Import sorting.
From S2P Require Import Prelude.

Section Object.
Context {K V : Type} `{EqDecision K}.

(** The own properties, oldest first. *)
Definition object : Type := list (K * V).

Definition empty : object := [].

(** [o[k]]: [None] is [undefined]. *)
Fixpoint get (o : object) (k : K) : option V :=
  match o with
  | [] => None
  | (k', v) :: o' => if decide (k' = k) then Some v else get o' k
  end.

(** [o[k] = v] *)
Fixpoint set (o : object) (k : K) (v : V) : object :=
  match o with
  | [] => [(k, v)]
  | (k', v') :: o' =>
      if decide (k' = k) then (k', v) :: o' else (k', v') :: set o' k v
  end.

Definition keys (o : object) : list K := o.*1.

(** ** [Object.entries] *)

(** [idx k] is the integer of a key that is an array index. *)
Context (idx : K -> option N).

Definition rank (e : K * V) : N := default 0%N (idx e.1).

Definition rank_le : relation (K * V) := fun a b => (rank a <= rank b)%N.

#[local] Instance rank_le_dec a b : Decision (rank_le a b).
Proof. unfold rank_le. apply _. Defined.

Definition index_entries (o : list (K * V)) : list (K * V) :=
  filter (fun e => is_Some (idx e.1)) o.

Definition string_entries (o : list (K * V)) : list (K * V) :=
  filter (fun e => ~ is_Some (idx e.1)) o.

Definition entries (o : object) : list (K * V) :=
  merge_sort rank_le (index_entries o) ++ string_entries o.

(** The order of array-index keys. *)
Definition key_le : relation K :=
  fun a b => (default 0%N (idx a) <= default 0%N (idx b))%N.

(** ** Lookup and update *)

Lemma get_set_eq o k v : get (set o k v) k = Some v.
Proof.
  induction o as [|[k' v'] o IH]; simpl; [by rewrite decide_True|].
  case_decide; simpl; [by rewrite decide_True | by rewrite decide_False].
Qed.

Lemma get_set_ne o k k' v : k <> k' -> get (set o k v) k' = get o k'.
Proof.
  intros Hne. induction o as [|[k0 v0] o IH]; simpl;
    [by rewrite decide_False|].
  destruct (decide (k0 = k)) as [->|]; simpl.
  - by rewrite !decide_False.
  - by rewrite IH.
Qed.

Lemma get_set o k k' v :
  get (set o k v) k' = if decide (k = k') then Some v else get o k'.
Proof.
  case_decide; [subst; apply get_set_eq | by apply get_set_ne].
Qed.

Lemma get_None o k : get o k = None <-> k ∉ keys o.
Proof.
  unfold keys. induction o as [|[k' v'] o IH]; simpl.
  - split; [intros _; apply not_elem_of_nil | done].
  - rewrite not_elem_of_cons. case_decide as Hk; [subst|rewrite IH].
    + split; [done | by intros [? _]].
    + split; [by split | by intros [_ ?]].
Qed.

Lemma get_Some_elem_of o k v : get o k = Some v -> (k, v) ∈ o.
Proof.
  induction o as [|[k' v'] o IH]; simpl; [done|].
  case_decide; intros; simplify_eq; [left | right; auto].
Qed.

Lemma elem_of_get o k v : NoDup (keys o) -> (k, v) ∈ o -> get o k = Some v.
Proof.
  unfold keys. induction o as [|[k' v'] o IH]; simpl.
  - intros _ ?%elem_of_nil. done.
  - rewrite NoDup_cons. intros [Hk Hnd] [?|Hin]%elem_of_cons; simplify_eq.
    + by rewrite decide_True.
    + rewrite decide_False; [auto|]. intros ->. apply Hk.
      apply list_elem_of_fmap. by exists (k, v).
Qed.

(** An assignment to an existing key keeps the creation order. *)
Lemma keys_set_present o k v : k ∈ keys o -> keys (set o k v) = keys o.
Proof.
  unfold keys. induction o as [|[k' v'] o IH]; simpl.
  - intros ?%elem_of_nil. done.
  - intros Hin. case_decide; simpl; [done|]. f_equal. apply IH.
    apply elem_of_cons in Hin as [?|?]; [congruence | done].
Qed.

(** An assignment to a new key appends it. *)
Lemma keys_set_absent o k v : k ∉ keys o -> keys (set o k v) = keys o ++ [k].
Proof.
  unfold keys. induction o as [|[k' v'] o IH]; simpl; [done|].
  rewrite not_elem_of_cons. intros [? ?]. rewrite decide_False by done.
  simpl. f_equal. by apply IH.
Qed.

Lemma keys_set o k v :
  keys (set o k v) = if decide (k ∈ keys o) then keys o else keys o ++ [k].
Proof.
  case_decide; [by apply keys_set_present | by apply keys_set_absent].
Qed.

Lemma NoDup_keys_set o k v : NoDup (keys o) -> NoDup (keys (set o k v)).
Proof.
  intros Hnd. rewrite keys_set. case_decide; [done|].
  apply NoDup_app. split_and!; [done| |apply NoDup_singleton].
  by intros x Hx ->%list_elem_of_singleton.
Qed.

(** ** Enumeration *)

Lemma entries_Permutation o : entries o ≡ₚ o.
Proof.
  unfold entries, index_entries, string_entries.
  rewrite merge_sort_Permutation.
  induction o as [|e o IH]; [done|].
  rewrite !filter_cons. destruct (decide (is_Some (idx e.1))).
  - rewrite decide_False by auto. simpl. by f_equiv.
  - rewrite decide_True by auto. rewrite <- Permutation_middle. by f_equiv.
Qed.

Lemma elem_of_entries o e : e ∈ entries o <-> e ∈ o.
Proof. by rewrite entries_Permutation. Qed.

Lemma length_entries o : length (entries o) = length o.
Proof. by rewrite entries_Permutation. Qed.

#[local] Instance rank_le_total : Total rank_le.
Proof. intros a b. unfold rank_le. lia. Qed.

(** The keys as [Object.entries] lists them: the array indices in ascending
    order, then the other keys in creation order. *)
Lemma keys_entries o :
  exists ixs,
    keys (entries o) = ixs ++ filter (fun k => ~ is_Some (idx k)) (keys o) /\
    ixs ≡ₚ filter (fun k => is_Some (idx k)) (keys o) /\
    Sorted key_le ixs.
Proof.
  exists (merge_sort rank_le (index_entries o)).*1.
  unfold keys, entries, index_entries, string_entries.
  rewrite fmap_app, !(filter_fmap fst). split_and!; [done| |].
  - by rewrite merge_sort_Permutation.
  - apply (Sorted_fmap _ rank_le key_le); [done|]. apply Sorted_merge_sort, _.
Qed.

(** With no array-index key the enumeration is the creation order. *)
Lemma entries_no_index o :
  Forall (fun k => idx k = None) (keys o) -> entries o = o.
Proof.
  unfold entries, index_entries, string_entries, keys.
  induction o as [|e o IH]; [done|].
  rewrite fmap_cons, Forall_cons. intros [He Ho]. rewrite !filter_cons.
  rewrite decide_False, decide_True by (rewrite He; apply is_Some_None).
  specialize (IH Ho). destruct (filter _ o) eqn:Ef.
  - simpl in *. by f_equal.
  - exfalso. assert (Hin : p ∈ filter (fun e => is_Some (idx e.1)) o)
      by (rewrite Ef; left).
    apply list_elem_of_filter in Hin as [[i Hi] Hin].
    rewrite Forall_forall in Ho. rewrite Ho in Hi; [done|].
    apply list_elem_of_fmap. by exists p.
Qed.
End Object.

Arguments object : clear implicits.
