(* ===== verification/GeoJson.v ===== *)
(** * GeoJson: the feature collections the script reads and builds

    The script handles two kinds of GeoJSON features: the county features of
    [countypops.geojson], which it annotates with derived properties when the
    map has loaded, and the rectangular band features that
    [createLongitudeBands] builds.  Both are JavaScript objects in the source;
    here they are records whose fields are the properties the script reads or
    writes.  A county's geometry is only ever passed to the geometry library,
    so its type [G] is a parameter. *)

From stdpp Require Export strings.
From S2P Require Import Prelude JsNumber.

(** A value of the input file's [properties] object, as [JSON.parse] returns
    it ([None] in an [option] stands for a property that is absent). *)
Inductive JsValue (R : Type) : Type :=
  | JNull
  | JBool (b : bool)
  | JNum (x : R)
  | JStr (s : string)
  (** an array or an object, with the string that its conversion to a
      primitive gives: the elements joined by commas for an array (the empty
      string for [[]]), [[object Object]] for an object *)
  | JObject (primitive : string).
Arguments JNull {R}.
Arguments JBool {R} b.
Arguments JNum {R} x.
Arguments JStr {R} s.
Arguments JObject {R} primitive.

(** A county as the input file gives it.  The two names are text or absent
    ([null] counts as absent): a file that gives a name as a number, a
    boolean, an array or an object is outside this model, while the
    population is any value of the file. *)
Record RawFeature (G R : Type) : Type := {
  raw_geometry : G;
  raw_NAME : option string;
  raw_County : option string;
  raw_Total_Population : option (JsValue R);
}.
Arguments raw_geometry {G R} _.
Arguments raw_NAME {G R} _.
Arguments raw_County {G R} _.
Arguments raw_Total_Population {G R} _.

(** The [properties] of a county once the derived ones are set. *)
Record Properties (R : Type) : Type := {
  NAME : option string;
  County : option string;
  area_sq_miles : R;
  centroid_lon : R;
  population : R;
  density : R;
}.
Arguments NAME {R} _.
Arguments County {R} _.
Arguments area_sq_miles {R} _.
Arguments centroid_lon {R} _.
Arguments population {R} _.
Arguments density {R} _.

Record Feature (G R : Type) : Type := {
  geometry : G;
  properties : Properties R;
}.
Arguments geometry {G R} _.
Arguments properties {G R} _.

(** The [properties] of a band feature. *)
Record BandProperties (R : Type) : Type := {
  avg_value : R;
  bandStart : R;
  bandEnd : R;
}.
Arguments avg_value {R} _.
Arguments bandStart {R} _.
Arguments bandEnd {R} _.

(** A band feature: [type: "Feature"] with a [Polygon] geometry, whose
    [coordinates] are a list of linear rings of [[lon, lat]] positions. *)
Record BandFeature (R : Type) : Type := {
  coordinates : list (list (R * R));
  band_properties : BandProperties R;
}.
Arguments coordinates {R} _.
Arguments band_properties {R} _.

(** [{ type: "FeatureCollection", features }] *)
Record FeatureCollection (F : Type) : Type := {
  features : list F;
}.
Arguments features {F} _.
Arguments Build_FeatureCollection {F} _.
