(* ===== verification/Bands.v ===== *)
(** * Bands: the longitude-band aggregation

    [createLongitudeBands] of [src/script.js] (lines 42-80): the counties are
    grouped by the start of the longitude band their centroid falls in, and
    each group becomes one rectangular feature that carries the average of
    the selected metric over the group's strictly positive values. *)

From stdpp Require Import sorting.
From S2P Require Import Prelude JsNumber JsObject GeoJson.

#[local] Open Scope num_scope.

Section Bands.
Context {R : Type} `{Number R} {G : Type}.

(** The value pushed for a county: the chain of [if (mode === ...)]. *)
Definition metric (mode : string) (p : Properties R) : R :=
  if decide (mode = "population") then population p
  else if decide (mode = "density") then density p
  else area_sq_miles p.

(** [bands[key].push(v)]: the array of the group grows in place.  The script
    calls it on a key it has just made sure of; on a missing key it would
    throw, a case [collect] never reaches and that is given no effect
    here. *)
Definition push (bands : object R (list R)) (key : R) (v : R)
  : object R (list R) :=
  match get bands key with
  | Some values => set bands key (values ++ [v])
  | None => bands
  end.

(** The key of a county: the start of its band, as a property name. *)
Definition band_key (width : R) (f : Feature G R) : R :=
  let lon := centroid_lon (properties f) in
  let bandStart := Math_floor (lon / width) * width in
  num_canon bandStart.

(** The body of the first loop, for one county. *)
Definition collect (width : R) (mode : string)
    (bands : object R (list R)) (f : Feature G R) : object R (list R) :=
  let key := band_key width f in
  let bands := if get bands key is Some _ then bands else set bands key [] in
  push bands key (metric mode (properties f)).

(** [validVals.length || 1] *)
Definition length_or_1 (l : list R) : R :=
  num_of_Z (Z.of_nat (if decide (length l = 0%nat) then 1%nat else length l)).

(** [values.filter(v => v > 0)] *)
Definition validVals (values : list R) : list R :=
  filter (fun v => v >? num_of_Z 0) values.

(** [validVals.reduce((a, b) => a + b, 0) / (validVals.length || 1)] *)
Definition avg (values : list R) : R :=
  fold_left num_add (validVals values) (num_of_Z 0)
  / length_or_1 (validVals values).

(** The body of the second loop: the feature of one group. *)
Definition band_feature (width : R) (entry : R * list R) : BandFeature R :=
  let '(bandStart, values) := entry in
  let bandStartNum := bandStart in
  let bandEnd := bandStartNum + width in
  {| coordinates := [[
       (bandStartNum, num_of_Z 25);
       (bandEnd, num_of_Z 25);
       (bandEnd, num_of_Z 49);
       (bandStartNum, num_of_Z 49);
       (bandStartNum, num_of_Z 25) ]];
     band_properties := {|
       avg_value := avg values;
       bandStart := bandStartNum;
       bandEnd := bandEnd |} |}.

Definition createLongitudeBands (data : FeatureCollection (Feature G R))
    (width : R) (mode : string) : FeatureCollection (BandFeature R) :=
  let bands := fold_left (collect width mode) (features data) JsObject.empty in
  Build_FeatureCollection
    (band_feature width <$> entries num_index bands).
End Bands.

(** ** Specification of the grouping

    The group of a key is the sub-list of the counties with that key, in the
    order of the input; the bands of a collection are one feature for each
    key that has a member. *)

Section Grouping.
Context {R : Type} `{Number R} {G : Type}.
Implicit Types (f : Feature G R) (fs : list (Feature G R)) (k width : R)
  (mode : string) (bands : object R (list R)).

Definition members width k fs : list (Feature G R) :=
  filter (fun f => band_key width f = k) fs.

(** The values of group [k], or [None] when no county has key [k]. *)
Definition group_values width mode k fs : option (list R) :=
  match members width k fs with
  | [] => None
  | ms => Some ((fun f => metric mode (properties f)) <$> ms)
  end.

Lemma members_snoc width k fs f :
  members width k (fs ++ [f])
  = members width k fs ++ (if decide (band_key width f = k) then [f] else []).
Proof.
  unfold members. rewrite filter_app, filter_cons, filter_nil. done.
Qed.

Lemma group_values_snoc width mode k fs f :
  group_values width mode k (fs ++ [f])
  = if decide (band_key width f = k)
    then Some (default [] (group_values width mode k fs)
               ++ [metric mode (properties f)])
    else group_values width mode k fs.
Proof.
  unfold group_values. rewrite members_snoc. case_decide.
  - destruct (members width k fs); simpl; [done|].
    by rewrite fmap_app.
  - by rewrite app_nil_r.
Qed.

(** One iteration of the first loop appends the county's value to the
    group of its key and leaves every other group as it was. *)
Lemma get_collect width mode bands f k :
  get (collect width mode bands f) k
  = if decide (band_key width f = k)
    then Some (default [] (get bands k) ++ [metric mode (properties f)])
    else get bands k.
Proof.
  unfold collect, push.
  destruct (get bands (band_key width f)) as [vs|] eqn:Hg.
  - rewrite Hg, get_set. case_decide; by subst; rewrite ?Hg.
  - rewrite get_set_eq, !get_set. case_decide; by subst; rewrite ?Hg.
Qed.

Lemma NoDup_keys_collect width mode bands f :
  NoDup (keys bands) -> NoDup (keys (collect width mode bands f)).
Proof.
  intros Hnd. unfold collect, push.
  repeat case_match; auto using @NoDup_keys_set.
Qed.

(** One iteration of the first loop creates the key of the county after the
    existing ones, unless the key exists. *)
Lemma keys_collect width mode bands f :
  keys (collect width mode bands f)
  = if decide (band_key width f ∈ keys bands) then keys bands
    else keys bands ++ [band_key width f].
Proof.
  unfold collect, push.
  destruct (get bands (band_key width f)) as [vs|] eqn:Hg.
  - rewrite Hg, keys_set, !decide_True; [done|..];
      apply dec_stable; rewrite <- get_None; congruence.
  - rewrite get_set_eq, keys_set, decide_True, keys_set; [done|].
    rewrite keys_set, decide_False by by apply get_None.
    apply elem_of_app. right. left.
Qed.

(** The object the first loop builds. *)
Definition collect_all width mode fs : object R (list R) :=
  fold_left (collect width mode) fs JsObject.empty.

(** After the first loop the object holds, for every key, the metric values
    of the counties with that key in input order, and no entry for a key
    that no county has. *)
Lemma get_collect_all width mode fs k :
  get (collect_all width mode fs) k = group_values width mode k fs.
Proof.
  unfold collect_all. induction fs as [|f fs IH] using rev_ind; [done|].
  autorewrite with js. by rewrite get_collect, group_values_snoc, IH.
Qed.

Lemma NoDup_keys_collect_all width mode fs :
  NoDup (keys (collect_all width mode fs)).
Proof.
  unfold collect_all. induction fs as [|f fs IH] using rev_ind.
  - apply NoDup_nil_2.
  - autorewrite with js. by apply NoDup_keys_collect.
Qed.

(** The keys of the object are created in the order in which the input
    first reaches each band. *)
Lemma keys_collect_all width mode fs :
  keys (collect_all width mode fs) = first_seen (band_key width <$> fs).
Proof.
  unfold collect_all. induction fs as [|f fs IH] using rev_ind; [done|].
  rewrite fmap_app. simpl. autorewrite with js. by rewrite keys_collect, IH.
Qed.

Lemma elem_of_collect_all width mode fs k vs :
  (k, vs) ∈ collect_all width mode fs <-> group_values width mode k fs = Some vs.
Proof.
  rewrite <- get_collect_all. split.
  - apply elem_of_get, NoDup_keys_collect_all.
  - apply get_Some_elem_of.
Qed.

(** A group that exists has a member, and its values are the members'. *)
Lemma group_values_Some width mode k fs vs :
  group_values width mode k fs = Some vs <->
  members width k fs <> [] /\
  vs = (fun f => metric mode (properties f)) <$> members width k fs.
Proof.
  unfold group_values. destruct (members width k fs); split.
  - done.
  - by intros [? _].
  - intros [= <-]. done.
  - by intros [_ ->].
Qed.

Lemma members_ne_nil width fs f :
  f ∈ fs -> members width (band_key width f) fs <> [].
Proof.
  intros Hf Hnil. eapply not_elem_of_nil. rewrite <- Hnil.
  by apply list_elem_of_filter.
Qed.

(** What [createLongitudeBands] returns, as a set: one feature for each key
    that has a member. *)
Lemma elem_of_createLongitudeBands data width mode b :
  b ∈ features (createLongitudeBands data width mode) <->
  exists k, members width k (features data) <> [] /\
    b = band_feature width
          (k, (fun f => metric mode (properties f))
              <$> members width k (features data)).
Proof.
  unfold createLongitudeBands. fold (collect_all width mode (features data)).
  simpl. rewrite list_elem_of_fmap. split.
  - intros [[k vs] [-> Hin]]. exists k.
    apply elem_of_entries, elem_of_collect_all, group_values_Some in Hin
      as [? ->]. done.
  - intros (k & Hne & ->). eexists (k, _). split; [done|].
    apply elem_of_entries, elem_of_collect_all, group_values_Some. done.
Qed.

(** The [bandStart] properties of the result are the keys of the object, as
    [Object.entries] enumerates them. *)
Lemma bandStart_createLongitudeBands data width mode :
  (fun b => bandStart (band_properties b))
    <$> features (createLongitudeBands data width mode)
  = (entries num_index (collect_all width mode (features data))).*1.
Proof.
  unfold createLongitudeBands. fold (collect_all width mode (features data)).
  simpl. rewrite <- list_fmap_compose. apply list_fmap_ext. by intros ? [? ?].
Qed.
End Grouping.

(** ** The average of a group *)

Section Average.
Context {R : Type} `{Number R, !NumberLaws R}.
Implicit Types (values : list R).

Lemma Forall_validVals values :
  Forall (fun v => (v >? num_of_Z 0) = true) (validVals values).
Proof.
  apply Forall_forall. intros v [Hv _]%list_elem_of_filter.
  by apply Is_true_true_1.
Qed.

Lemma validVals_nil_iff values :
  validVals values = [] <->
  Forall (fun v => (v >? num_of_Z 0) = false) values.
Proof.
  unfold validVals. induction values as [|v values IH]; [done|].
  rewrite filter_cons, Forall_cons. case_decide as Hv.
  - apply Is_true_true_1 in Hv. split; [done | intros [? _]; congruence].
  - apply Is_true_false_1 in Hv. rewrite IH.
    split; [by split | by intros [_ ?]].
Qed.

Lemma avg_no_valid values : validVals values = [] -> avg values = num_of_Z 0.
Proof. unfold avg, length_or_1. intros ->. apply num_div_0_1. Qed.

Lemma avg_valid values :
  validVals values <> [] ->
  avg values
  = fold_left num_add (validVals values) (num_of_Z 0)
    / num_of_Z (Z.of_nat (length (validVals values))).
Proof.
  unfold avg, length_or_1. intros Hne. rewrite decide_False; [done|].
  by destruct (validVals values).
Qed.
End Average.

(** ** The result of [createLongitudeBands] *)

Section Result.
Context {R : Type} `{Number R, !NumberLaws R} {G : Type}.
Implicit Types (f : Feature G R) (data : FeatureCollection (Feature G R))
  (k width : R) (mode : string) (b : BandFeature R).

(** The metric values of the counties of band [b], in input order. *)
Definition band_values data width mode b : list R :=
  (fun f => metric mode (properties f))
    <$> members width (bandStart (band_properties b)) (features data).

(** The band of key [k]. *)
Definition band_of data width mode k : BandFeature R :=
  band_feature width
    (k, (fun f => metric mode (properties f))
        <$> members width k (features data)).

(** The bands of a collection, in the order in which their keys first occur
    in the input. *)
Definition bands_spec data width mode : list (BandFeature R) :=
  band_of data width mode <$> remove_dups (band_key width <$> features data).

Lemma createLongitudeBands_band data width mode b :
  b ∈ features (createLongitudeBands data width mode) ->
  members width (bandStart (band_properties b)) (features data) <> [] /\
  b = band_of data width mode (bandStart (band_properties b)).
Proof.
  intros (k & Hne & ->)%elem_of_createLongitudeBands. done.
Qed.

Lemma members_ne_nil_iff data width k :
  members width k (features data) <> []
  <-> k ∈ remove_dups (band_key width <$> features data).
Proof.
  rewrite elem_of_remove_dups, list_elem_of_fmap. split.
  - destruct (members width k (features data)) as [|f ms] eqn:Hm; [done|].
    intros _. exists f.
    assert (Hf : f ∈ members width k (features data)) by (rewrite Hm; left).
    by apply list_elem_of_filter in Hf as [-> ?].
  - intros (f & -> & Hf). by apply members_ne_nil.
Qed.

Lemma county_in_one_band data width mode f :
  f ∈ features data ->
  exists b, b ∈ features (createLongitudeBands data width mode) /\
    bandStart (band_properties b) = band_key width f /\
    forall b', b' ∈ features (createLongitudeBands data width mode) ->
      bandStart (band_properties b') = band_key width f -> b' = b.
Proof.
  intros Hf. eexists. split_and!.
  - apply elem_of_createLongitudeBands. eexists. split; [|done].
    by apply members_ne_nil.
  - done.
  - intros b' (k & _ & ->)%elem_of_createLongitudeBands. simpl. by intros ->.
Qed.

Lemma NoDup_bandStart data width mode :
  NoDup ((fun b => bandStart (band_properties b))
           <$> features (createLongitudeBands data width mode)).
Proof.
  rewrite bandStart_createLongitudeBands, entries_Permutation.
  apply NoDup_keys_collect_all.
Qed.

(** Whatever the order in which the groups are listed, each becomes the
    band of its key. *)
Lemma band_feature_entries data width mode :
  band_feature width
    <$> entries num_index (collect_all width mode (features data))
  = band_of data width mode
    <$> keys (entries num_index (collect_all width mode (features data))).
Proof.
  set (o := entries _ _). unfold keys. rewrite <- list_fmap_compose.
  apply list_fmap_ext. intros _ [k vs] Hin%list_elem_of_lookup_2.
  by apply elem_of_entries, elem_of_collect_all, group_values_Some
    in Hin as [_ ->].
Qed.

(** C1: up to the order of the features, [createLongitudeBands] returns one
    band for each distinct key of the input: its start is the key, its end
    the key plus the width, and its average is taken over the counties with
    that key. *)
Theorem createLongitudeBands_refines data width mode :
  features (createLongitudeBands data width mode)
  ≡ₚ bands_spec data width mode.
Proof.
  apply NoDup_Permutation.
  - eapply NoDup_fmap_1, NoDup_bandStart.
  - apply NoDup_fmap_2_strong; [|apply NoDup_remove_dups].
    intros k k' _ _ Hb. by apply (f_equal (fun b => bandStart (band_properties b))) in Hb.
  - intros b. unfold bands_spec.
    rewrite elem_of_createLongitudeBands, list_elem_of_fmap.
    split; intros (k & H1 & H2); exists k; by rewrite ?members_ne_nil_iff in *.
Qed.

(** C2: the groups of the bands that are returned partition the counties:
    listing the members of each band gives every county of the input
    exactly once. *)
Theorem bands_partition data width mode :
  concat ((fun b => members width (bandStart (band_properties b))
                      (features data))
            <$> features (createLongitudeBands data width mode))
  ≡ₚ features data.
Proof.
  set (g := fun k => members width k (features data)).
  set (h := fun b : BandFeature R => bandStart (band_properties b)).
  change (concat ((g ∘ h) <$> features (createLongitudeBands data width mode))
          ≡ₚ features data).
  rewrite (list_fmap_compose h g).
  apply (group_by_key_Permutation (band_key width)).
  - apply NoDup_bandStart.
  - intros f (b & Hb & Hk & _)%(county_in_one_band data width mode).
    rewrite <- Hk. by apply (list_elem_of_fmap_2 h).
Qed.

(** C3: the [avg_value] of a band is 0 when none of its counties has a
    strictly positive value of the metric; otherwise it is the sum of the
    strictly positive values, added from 0 in input order, divided by their
    number. *)
Theorem createLongitudeBands_avg data width mode b :
  b ∈ features (createLongitudeBands data width mode) ->
  let valid := validVals (band_values data width mode b) in
  avg_value (band_properties b)
  = if decide (valid = []) then num_of_Z 0
    else fold_left num_add valid (num_of_Z 0)
         / num_of_Z (Z.of_nat (length valid)).
Proof.
  intros [_ ->]%createLongitudeBands_band. simpl.
  case_decide; [by apply avg_no_valid | by apply avg_valid].
Qed.

(** C28: every band is the closed ring of the rectangle from its start to
    its end in longitude and from 25 to 49 in latitude, and its end is its
    start plus the width. *)
Theorem createLongitudeBands_ring data width mode b :
  b ∈ features (createLongitudeBands data width mode) ->
  let '(w, e) := (bandStart (band_properties b), bandEnd (band_properties b)) in
  e = w + width /\
  coordinates b
  = [[(w, num_of_Z 25); (e, num_of_Z 25); (e, num_of_Z 49);
      (w, num_of_Z 49); (w, num_of_Z 25)]].
Proof.
  intros [_ ->]%createLongitudeBands_band. done.
Qed.

(** C9: the bands come in the order of [Object.entries]: first the bands
    whose start is an array index (a non-negative integer below 2^32 - 1),
    by ascending start, then the other bands in the order in which the input
    first reaches them. *)
Theorem createLongitudeBands_order data width mode :
  let ks := first_seen (band_key width <$> features data) in
  exists ixs,
    features (createLongitudeBands data width mode)
    = band_of data width mode
      <$> (ixs ++ filter (fun k => ~ is_Some (num_index k)) ks) /\
    ixs ≡ₚ filter (fun k => is_Some (num_index k)) ks /\
    Sorted (key_le num_index) ixs.
Proof.
  destruct (keys_entries (V:=list R) num_index
              (collect_all width mode (features data)))
    as (ixs & Hkeys & Hperm & Hsorted).
  rewrite keys_collect_all in Hkeys, Hperm. exists ixs. split_and!; [|done..].
  rewrite <- Hkeys. apply band_feature_entries.
Qed.

(** When no band start is an array index the bands come in the order in
    which the input first reaches them. *)
Lemma bands_first_seen data width mode :
  Forall (fun f => num_index (band_key width f) = None) (features data) ->
  features (createLongitudeBands data width mode)
  = band_of data width mode <$> first_seen (band_key width <$> features data).
Proof.
  intros Hidx. unfold createLongitudeBands. simpl.
  fold (collect_all width mode (features data)).
  rewrite band_feature_entries, entries_no_index, keys_collect_all; [done|].
  rewrite keys_collect_all. apply Forall_forall.
  intros k (f & -> & Hf)%elem_of_first_seen%list_elem_of_fmap.
  rewrite Forall_forall in Hidx. auto.
Qed.
End Result.
