(* ===== verification/BandsExact.v ===== *)
(** * BandsExact: the aggregation in exact arithmetic

    What [createLongitudeBands] computes when no operation rounds: the
    [exact] instance of [JsNumber.Number].  For a positive width the band of a
    county is the half-open interval of longitudes that contains its
    centroid, so the bands tile the line and every county lies in exactly the
    band whose rectangle covers its centroid.  [Binary64] shows where
    the script, which computes in binary64, departs from this. *)

From Stdlib Require Import QArith Qround Lqa.
From S2P Require Import Prelude JsNumber JsObject GeoJson Bands.

#[local] Open Scope Q_scope.

(** ** Floor and scaling on the rationals *)

Lemma Qfloor_unique (y : Q) (n : Z) :
  inject_Z n <= y -> y < inject_Z n + 1 -> Qfloor y = n.
Proof.
  intros Hle Hlt. apply Z.le_antisymm.
  - apply Z.lt_succ_r. rewrite Zlt_Qlt. eapply Qle_lt_trans; [apply Qfloor_le|].
    unfold Z.succ. rewrite inject_Z_plus. exact Hlt.
  - rewrite <- (Qfloor_Z n). by apply Qfloor_resp_le.
Qed.

Lemma Qdiv_mul_cancel (x w : Q) : 0 < w -> x / w * w == x.
Proof. intros Hw. field. intros Hz. rewrite Hz in Hw. by apply Qlt_irrefl in Hw. Qed.

Lemma floor_mul_bounds (x w : Q) :
  0 < w ->
  inject_Z (Qfloor (x / w)) * w <= x /\ x < inject_Z (Qfloor (x / w)) * w + w.
Proof.
  intros Hw. pose proof (Qfloor_le (x / w)) as Hle.
  pose proof (Qlt_floor (x / w)) as Hlt. rewrite inject_Z_plus in Hlt.
  pose proof (Qdiv_mul_cancel x w Hw) as Hx.
  set (n := inject_Z (Qfloor (x / w))) in *. set (y := x / w) in *.
  change (inject_Z 1) with 1 in Hlt. split; nra.
Qed.

Lemma floor_mul_unique (x w : Q) (n : Z) :
  0 < w -> inject_Z n * w <= x -> x < inject_Z n * w + w ->
  Qfloor (x / w) = n.
Proof.
  intros Hw Hle Hlt. pose proof (Qdiv_mul_cancel x w Hw) as Hx.
  set (y := x / w) in *. apply Qfloor_unique; nra.
Qed.

(** ** Bands as intervals *)

Section Exact.
Context {G : Type}.
Implicit Types (f : Feature G Q) (data : FeatureCollection (Feature G Q))
  (width : Q) (mode : string) (b : BandFeature Q).

Lemma band_key_exact width f :
  band_key width f
  == inject_Z (Qfloor (centroid_lon (properties f) / width)) * width.
Proof. unfold band_key. cbn. apply Qred_correct. Qed.

Lemma exact_band_contains width f :
  0 < width ->
  band_key width f <= centroid_lon (properties f) /\
  centroid_lon (properties f) < band_key width f + width.
Proof.
  intros Hw. rewrite band_key_exact. by apply floor_mul_bounds.
Qed.

Lemma exact_band_unique width f f' :
  0 < width ->
  band_key width f' <= centroid_lon (properties f) ->
  centroid_lon (properties f) < band_key width f' + width ->
  band_key width f = band_key width f'.
Proof.
  intros Hw Hle Hlt. rewrite band_key_exact in Hle, Hlt.
  unfold band_key. cbn. unfold Exact.floor.
  by rewrite (floor_mul_unique _ _ _ Hw Hle Hlt).
Qed.

(** C8: in exact arithmetic and for a positive width, the counties of a
    band are exactly those whose centroid longitude lies in the band's
    interval, start included and end excluded; so the rectangles tile the
    line and each county lies in the one that was built for it. *)
Theorem exact_members_interval data width mode b f :
  0 < width ->
  b ∈ features (createLongitudeBands data width mode) ->
  f ∈ features data ->
  f ∈ members width (bandStart (band_properties b)) (features data) <->
  bandStart (band_properties b) <= centroid_lon (properties f) /\
  centroid_lon (properties f) < bandEnd (band_properties b).
Proof.
  intros Hw Hb Hf.
  destruct (createLongitudeBands_band _ _ _ _ Hb) as [Hne Hband].
  rewrite Hband at 3. simpl.
  destruct (members width _ (features data)) as [|f' ms] eqn:Hms; [done|].
  assert (Hk : band_key width f' = bandStart (band_properties b)).
  { assert (Hin : f' ∈ f' :: ms) by left. rewrite <- Hms in Hin.
    by apply list_elem_of_filter in Hin as [? _]. }
  rewrite <- Hms, <- Hk. unfold members. rewrite list_elem_of_filter.
  split.
  - intros [<- _]. by apply exact_band_contains.
  - intros [Hle Hlt]. split; [|done]. by apply exact_band_unique.
Qed.

(** The start of the band of a negative longitude is negative, so its
    string is not an array index. *)
Lemma exact_negative_key width f :
  0 < width -> centroid_lon (properties f) < 0 ->
  num_index (band_key width f) = None.
Proof.
  intros Hw Hlon. destruct (exact_band_contains width f Hw) as [Hle _].
  assert (Hk : Qred (band_key width f) < 0) by (rewrite Qred_correct; lra).
  cbn. unfold Exact.index. unfold Qlt in Hk. simpl in Hk.
  rewrite (proj2 (Z.leb_gt 0 _)) by lia. by rewrite andb_false_r.
Qed.

(** C29: in exact arithmetic, for a positive width and counties that all
    lie west of Greenwich, the bands come in the order in which the input
    first reaches them, one band for each distinct band start. *)
Theorem exact_west_order data width mode :
  0 < width ->
  Forall (fun f => centroid_lon (properties f) < 0) (features data) ->
  features (createLongitudeBands data width mode)
  = band_of data width mode <$> first_seen (band_key width <$> features data).
Proof.
  intros Hw Hwest. refine (bands_first_seen data width mode _).
  eapply Forall_impl; [exact Hwest|]. intros f. by apply exact_negative_key.
Qed.
End Exact.

(** ** Independence of the order of the input

    Without rounding, the sum of a group does not depend on the order of its
    values, so a file that lists the same counties in another order gives
    the same bands, up to the order of the bands and the representation of
    the averages as fractions. *)

(** [validVals.reduce((a, b) => a + b, 0)] *)
Definition Qsum (l : list Q) : Q := fold_left Qplus l 0.

Lemma fold_left_Qplus (l : list Q) (a : Q) :
  fold_left Qplus l a == a + Qsum l.
Proof.
  unfold Qsum. revert a. induction l as [|x l IH]; intros a; simpl; [ring|].
  rewrite (IH (a + x)), (IH (0 + x)). ring.
Qed.

Lemma Qsum_cons (x : Q) (l : list Q) : Qsum (x :: l) == x + Qsum l.
Proof. unfold Qsum at 1. simpl. rewrite fold_left_Qplus. ring. Qed.

#[export] Instance Qsum_Permutation : Proper ((≡ₚ) ==> Qeq) Qsum.
Proof.
  induction 1 as [|x l l' _ IH|x y l|l1 l2 l3 _ IH1 _ IH2].
  - reflexivity.
  - by rewrite !Qsum_cons, IH.
  - rewrite !Qsum_cons. ring.
  - by rewrite IH1.
Qed.

#[export] Instance avg_Permutation : Proper ((≡ₚ) ==> Qeq) (avg (R:=Q)).
Proof.
  intros l l' Hl. unfold avg, length_or_1.
  assert (Hv : validVals l ≡ₚ validVals l') by (by apply filter_Permutation).
  cbn [num_div num_add num_of_Z exact]. change (inject_Z 0) with 0.
  fold (Qsum (validVals l)) (Qsum (validVals l')).
  rewrite (Permutation_length Hv). apply Qdiv_comp; [by rewrite Hv | done].
Qed.

Section Order.
Context {G : Type}.
Implicit Types (data : FeatureCollection (Feature G Q)) (width : Q)
  (mode : string) (b : BandFeature Q).

Lemma members_Permutation data data' width (k : Q) :
  features data ≡ₚ features data' ->
  members width k (features data) ≡ₚ members width k (features data').
Proof. by apply filter_Permutation. Qed.

(** C16: in exact arithmetic the bands do not depend on the order of the
    counties in the file: every band of a collection is a band of any
    permutation of it, with the same start, end and rectangle and an equal
    average. *)
Theorem exact_order_independent data data' width mode b :
  features data ≡ₚ features data' ->
  b ∈ features (createLongitudeBands data width mode) ->
  exists b',
    b' ∈ features (createLongitudeBands data' width mode) /\
    bandStart (band_properties b') = bandStart (band_properties b) /\
    bandEnd (band_properties b') = bandEnd (band_properties b) /\
    coordinates b' = coordinates b /\
    avg_value (band_properties b') == avg_value (band_properties b).
Proof.
  intros Hd (k & Hne & ->)%elem_of_createLongitudeBands.
  pose proof (members_Permutation data data' width k Hd) as Hm.
  eexists. split_and!.
  - apply elem_of_createLongitudeBands. exists k. split; [|done].
    intros Hnil. rewrite Hnil in Hm. by apply Permutation_nil_r in Hm.
  - done.
  - done.
  - done.
  - apply avg_Permutation, fmap_Permutation. by symmetry.
Qed.
End Order.
