(* ===== verification/Paint.v ===== *)
(** * Paint: the colour ramps and the legend's tables

    The paint expressions of the two fill layers ([countyPaints] and
    [bandPaints], lines 83-99 of [src/script.js]) and the tables
    [updateLegend] reads (lines 204-213).  Each paint is the expression
    [["interpolate", ["linear"], ["get", p], s0, c0, s1, c1, ...]]: the
    property [p] of a feature is mapped to a colour by linear interpolation
    between the stops [s_i], which the style specification requires to be in
    strictly ascending order.  The tables are object literals keyed by the
    colour mode; a lookup with any other key gives [undefined] ([None]). *)

From S2P Require Import Prelude JsObject GeoJson.

(** [["interpolate", ["linear"], ["get", input], ...stops]] *)
Record Interpolate : Type := {
  input : string;
  stops : list (Z * string);
}.

#[export] Instance Interpolate_eq_dec : EqDecision Interpolate.
Proof. solve_decision. Defined.

Definition area_ramp : list (Z * string) :=
  [(0, "#edf8fb"); (500, "#b2e2e2"); (1000, "#66c2a4");
   (2000, "#238b45"); (4000, "#00441b")]%Z.

Definition population_ramp : list (Z * string) :=
  [(0, "#fff5f0"); (10000, "#fcbba1"); (50000, "#fc9272");
   (200000, "#fb6a4a"); (1000000, "#a50f15")]%Z.

Definition density_ramp : list (Z * string) :=
  [(0, "#f7fcf5"); (10, "#c7e9c0"); (100, "#74c476");
   (500, "#238b45"); (2000, "#00441b")]%Z.

Definition countyPaints : object string Interpolate :=
  [("area", {| input := "area_sq_miles"; stops := area_ramp |});
   ("population", {| input := "population"; stops := population_ramp |});
   ("density", {| input := "density"; stops := density_ramp |})].

Definition bandPaints : object string Interpolate :=
  [("area", {| input := "avg_value"; stops := area_ramp |});
   ("population", {| input := "avg_value"; stops := population_ramp |});
   ("density", {| input := "avg_value"; stops := density_ramp |})].

Definition legendStops : object string (list Z) :=
  [("area", [0; 500; 1000; 2000; 4000]);
   ("population", [0; 10000; 50000; 200000; 1000000]);
   ("density", [0; 10; 100; 500; 2000])]%Z.

Definition legendColors : object string (list string) :=
  [("area", ["#edf8fb"; "#b2e2e2"; "#66c2a4"; "#238b45"; "#00441b"]);
   ("population", ["#fff5f0"; "#fcbba1"; "#fc9272"; "#fb6a4a"; "#a50f15"]);
   ("density", ["#f7fcf5"; "#c7e9c0"; "#74c476"; "#238b45"; "#00441b"])].

(** The three values the colour-mode control offers. *)
Definition color_modes : list string := ["area"; "population"; "density"].

(** Stops in strictly ascending order. *)
Fixpoint ascending (l : list Z) : bool :=
  match l with
  | x :: (y :: _) as l' => (x <? y)%Z && ascending l'
  | _ => true
  end.

(** ** Consistency of the tables *)

Lemma get_paint_known (paints : object string Interpolate) (m : string) :
  paints = countyPaints \/ paints = bandPaints ->
  m ∈ color_modes -> is_Some (get paints m).
Proof.
  intros [-> | ->] Hm; repeat (apply elem_of_cons in Hm as [-> | Hm]);
    try (by eexists); by apply elem_of_nil in Hm.
Qed.

Lemma get_paint_unknown (paints : object string Interpolate) (m : string) :
  paints = countyPaints \/ paints = bandPaints ->
  m ∉ color_modes -> get paints m = None.
Proof.
  intros Hp Hm. apply get_None. intros Hin. apply Hm.
  by destruct Hp as [-> | ->].
Qed.

(** For every colour mode the county layer and the band layer use the
    same stops and colours. *)
Theorem paints_agree (m : string) :
  stops <$> get countyPaints m = stops <$> get bandPaints m.
Proof. simpl. by repeat case_decide. Qed.

(** The stops of every paint expression are in strictly ascending
    order, as an [interpolate] expression requires. *)
Theorem paint_stops_ascending (m : string) (p : Interpolate) :
  get countyPaints m = Some p \/ get bandPaints m = Some p ->
  ascending (stops p).*1 = true.
Proof.
  simpl. intros [Hp | Hp]; repeat case_decide; by simplify_eq.
Qed.

(** The stops and the colours the legend lists for a colour mode are
    those of the paint expressions of that mode, in the same order. *)
Theorem legend_matches_paint (m : string) (p : Interpolate) :
  get countyPaints m = Some p \/ get bandPaints m = Some p ->
  get legendStops m = Some (stops p).*1 /\
  get legendColors m = Some (stops p).*2.
Proof.
  simpl. intros [Hp | Hp]; repeat case_decide; by simplify_eq.
Qed.
