(* ===== verification/MapLibre.v ===== *)
(** * MapLibre: the part of the map widget the script drives

    The script never looks inside the rendering library; it creates one map,
    gives it two GeoJSON sources and four layers, and afterwards only calls
    [setLayoutProperty], [setPaintProperty], [getSource(id).setData] and the
    popup methods.  This file models what those calls store, as the library's
    documentation describes it, so that the handlers of [App] have a state to
    act on: a layer is its type, its source, its paint properties and its
    visibility; a popup is on the map from [addTo] until [remove].  The
    rendering itself is not modelled. *)

From S2P Require Import Prelude JsObject GeoJson Paint.

(** The value of a paint property, as the script writes it.  [PUndefined]
    is what a table of paint expressions gives for a key it has no entry
    for: [undefined], or for a key such as "constructor" a member inherited
    from [Object.prototype]; neither is a paint expression. *)
Inductive PaintValue : Type :=
  | PUndefined
  | PExpr (e : Interpolate)
  | PColor (c : string)
  (** the decimal literal [m / 10^d] *)
  | PNumber (m : Z) (d : nat)
  | PArray (l : list Z).

#[export] Instance PaintValue_eq_dec : EqDecision PaintValue.
Proof. solve_decision. Defined.

(** [paints[key]] as a paint value. *)
Definition paint_of (paints : object string Interpolate) (key : string)
  : PaintValue :=
  match get paints key with Some e => PExpr e | None => PUndefined end.

Record Layer : Type := {
  layer_type : string;
  layer_source : string;
  layer_paint : object string PaintValue;
  (** [layout.visibility]; a layer added without it is ["visible"] *)
  layer_visibility : string;
}.

Section Map.
Context {R G : Type}.

(** A popup, by the order in which the script created it. *)
Record Popup (C : Type) : Type := {
  popup_id : nat;
  popup_lngLat : R * R;
  popup_html : C;
}.

Record MapState (C : Type) : Type := {
  source_counties : option (FeatureCollection (Feature G R));
  source_lonbands : option (FeatureCollection (BandFeature R));
  layers : object string Layer;
  (** the popups on the map *)
  popups : list (Popup C);
  (** [getCanvas().style.cursor] *)
  cursor : string;
}.
End Map.

Arguments Popup : clear implicits.
Arguments Build_Popup {R C} _ _ _.
Arguments popup_id {R C} _.
Arguments popup_lngLat {R C} _.
Arguments popup_html {R C} _.
Arguments MapState : clear implicits.
Arguments Build_MapState {R G C} _ _ _ _ _.
Arguments source_counties {R G C} _.
Arguments source_lonbands {R G C} _.
Arguments layers {R G C} _.
Arguments popups {R G C} _.
Arguments cursor {R G C} _.

Section Operations.
Context {R G C : Type}.
Implicit Types (m : MapState R G C) (id : string).

Definition set_layers m (ls : object string Layer) : MapState R G C :=
  Build_MapState (source_counties m) (source_lonbands m) ls (popups m)
    (cursor m).

Definition set_popups m (ps : list (Popup R C)) : MapState R G C :=
  Build_MapState (source_counties m) (source_lonbands m) (layers m) ps
    (cursor m).

(** A map with no source, no layer and no popup. *)
Definition new_map : MapState R G C := Build_MapState None None [] [] "".

(** [map.addSource("counties", { type: "geojson", data })] *)
Definition addSource_counties m (data : FeatureCollection (Feature G R))
  : MapState R G C :=
  Build_MapState (Some data) (source_lonbands m) (layers m) (popups m)
    (cursor m).

(** [map.addSource("lonbands", ...)] and [map.getSource("lonbands").setData] *)
Definition setData_lonbands m (data : FeatureCollection (BandFeature R))
  : MapState R G C :=
  Build_MapState (source_counties m) (Some data) (layers m) (popups m)
    (cursor m).

(** [map.addLayer({ id, ... })] *)
Definition addLayer m id (l : Layer) : MapState R G C :=
  set_layers m (set (layers m) id l).

(** [map.setLayoutProperty(id, "visibility", v)]: a layer that does not
    exist is left alone. *)
Definition setVisibility m id (v : string) : MapState R G C :=
  match get (layers m) id with
  | Some l =>
      set_layers m (set (layers m) id
        {| layer_type := layer_type l; layer_source := layer_source l;
           layer_paint := layer_paint l; layer_visibility := v |})
  | None => m
  end.

(** [map.setPaintProperty(id, name, value)] *)
Definition setPaintProperty m id (name : string) (value : PaintValue)
  : MapState R G C :=
  match get (layers m) id with
  | Some l =>
      set_layers m (set (layers m) id
        {| layer_type := layer_type l; layer_source := layer_source l;
           layer_paint := set (layer_paint l) name value;
           layer_visibility := layer_visibility l |})
  | None => m
  end.

(** [map.getCanvas().style.cursor = c] *)
Definition setCursor m (c : string) : MapState R G C :=
  Build_MapState (source_counties m) (source_lonbands m) (layers m) (popups m) c.

(** [popup.addTo(map)] *)
Definition addPopup m (p : Popup R C) : MapState R G C :=
  set_popups m (popups m ++ [p]).

(** [popup.remove()]: removing a popup that is not on the map does nothing. *)
Definition removePopup m (p : Popup R C) : MapState R G C :=
  set_popups m (filter (fun q => popup_id q <> popup_id p) (popups m)).

(** The visibility of a layer, [None] when there is no such layer. *)
Definition visibility m id : option string :=
  layer_visibility <$> get (layers m) id.

(** A paint property of a layer. *)
Definition paint m id (name : string) : option PaintValue :=
  l ← get (layers m) id; get (layer_paint l) name.

(** ** What the calls store *)

Lemma paint_setPaintProperty_eq m id name value :
  is_Some (get (layers m) id) ->
  paint (setPaintProperty m id name value) id name = Some value.
Proof.
  intros [l Hl]. unfold paint, setPaintProperty. rewrite Hl. simpl.
  rewrite get_set_eq. simpl. apply get_set_eq.
Qed.

Lemma paint_setPaintProperty_ne m id id' name name' value :
  id <> id' ->
  paint (setPaintProperty m id name value) id' name' = paint m id' name'.
Proof.
  intros Hne. unfold paint, setPaintProperty.
  destruct (get (layers m) id); simpl; by rewrite ?get_set_ne.
Qed.

Lemma paint_setData_lonbands m data id name :
  paint (setData_lonbands m data) id name = paint m id name.
Proof. done. Qed.

Lemma visibility_setVisibility_eq m id v :
  is_Some (get (layers m) id) -> visibility (setVisibility m id v) id = Some v.
Proof.
  intros [l Hl]. unfold visibility, setVisibility. rewrite Hl. simpl.
  by rewrite get_set_eq.
Qed.

Lemma visibility_setVisibility_ne m id id' v :
  id <> id' -> visibility (setVisibility m id v) id' = visibility m id'.
Proof.
  intros Hne. unfold visibility, setVisibility.
  destruct (get (layers m) id); simpl; by rewrite ?get_set_ne.
Qed.

(** A change of a layer leaves the sources and the popups alone. *)
Lemma source_lonbands_setVisibility m id v :
  source_lonbands (setVisibility m id v) = source_lonbands m.
Proof. unfold setVisibility. by case_match. Qed.

Lemma popups_setVisibility m id v :
  popups (setVisibility m id v) = popups m.
Proof. unfold setVisibility. by case_match. Qed.

Lemma source_lonbands_setPaintProperty m id name value :
  source_lonbands (setPaintProperty m id name value) = source_lonbands m.
Proof. unfold setPaintProperty. by case_match. Qed.

Lemma popups_setPaintProperty m id name value :
  popups (setPaintProperty m id name value) = popups m.
Proof. unfold setPaintProperty. by case_match. Qed.
End Operations.

#[export] Hint Rewrite @source_lonbands_setVisibility @popups_setVisibility
  @source_lonbands_setPaintProperty @popups_setPaintProperty : js.

(** The calls on layers are opened by their lemmas, not by [simpl]. *)
Arguments setVisibility : simpl never.
Arguments setPaintProperty : simpl never.
