(* ===== verification/App.v ===== *)
(** * App: the state of the page and its event handlers

    Everything [src/script.js] does after the map has loaded happens in an
    event handler: the toggle button, the colour-mode control, the band-width
    slider, the clicks on the map and the animation frames the slider
    handler asks for.  The state is what those handlers share: the script's
    top-level variables (lines 19-23), the [mode] variable of the load
    handler, the map widget, the three DOM nodes the script writes to, and
    the browser's list of animation-frame callbacks.  Each handler is one
    function on that state. *)

From S2P Require Import Prelude JsNumber JsObject GeoJson Bands Paint MapLibre.

#[local] Open Scope num_scope.

(** The text of a popup: the fields its template string interpolates. *)
Inductive PopupContent (R : Type) : Type :=
  | CountyPopup (name : string) (area population density : R)
  | BandPopup (start stop : R) (colorMode : string) (avg : R).
Arguments CountyPopup {R} _ _ _ _.
Arguments BandPopup {R} _ _ _ _.

(** The legend [updateLegend] writes: its title names the colour mode, each
    row shows a colour and a stop, and the note is the remark on band
    averages. *)
Record Legend : Type := {
  legend_mode : string;
  legend_rows : list (option string * Z);
  legend_note : bool;
}.

(** A callback given to [requestAnimationFrame]: the closure [animateStep]
    of one slider event, with the variables it captured. *)
Record Anim (R : Type) : Type := {
  stepSize : R;
  currentStep : nat;
}.
Arguments Build_Anim {R} _ _.
Arguments stepSize {R} _.
Arguments currentStep {R} _.

(** [const steps = 10] *)
Definition steps : nat := 10.

Section App.
Context {R : Type} `{Number R} {G : Type}.

Record State : Type := {
  (** the variables of lines 19-23 *)
  counties : FeatureCollection (Feature G R);
  bandWidth : R;
  colorMode : string;
  bandGeoJSON : FeatureCollection (BandFeature R);
  activePopup : option (Popup R (PopupContent R));
  (** [let mode] of the load handler: ["county"] or ["band"] *)
  mode : string;
  (** the map widget *)
  map : MapState R G (PopupContent R);
  (** [btn.innerText], [bandValueDisplay.textContent] and
      [legendDiv.innerHTML]; [None] is the page's own text.  The label and
      the legend are held by the values the script prints, since their text
      depends on the number type: [PageText.bandValue_text] and
      [PageText.legend_text] are the strings of the page. *)
  btn_innerText : option string;
  bandValue_textContent : option R;
  legend_innerHTML : option Legend;
  (** the callbacks waiting for the next animation frame, oldest first *)
  frame_callbacks : list (Anim R);
  (** how many popups the script has created *)
  popup_count : nat;
}.

(** ** Field updates *)

Definition with_map (s : State) (m : MapState R G (PopupContent R)) : State :=
  {| counties := counties s; bandWidth := bandWidth s;
     colorMode := colorMode s; bandGeoJSON := bandGeoJSON s;
     activePopup := activePopup s; mode := mode s; map := m;
     btn_innerText := btn_innerText s;
     bandValue_textContent := bandValue_textContent s;
     legend_innerHTML := legend_innerHTML s;
     frame_callbacks := frame_callbacks s; popup_count := popup_count s |}.

Definition with_bandWidth (s : State) (w : R) : State :=
  {| counties := counties s; bandWidth := w;
     colorMode := colorMode s; bandGeoJSON := bandGeoJSON s;
     activePopup := activePopup s; mode := mode s; map := map s;
     btn_innerText := btn_innerText s;
     bandValue_textContent := bandValue_textContent s;
     legend_innerHTML := legend_innerHTML s;
     frame_callbacks := frame_callbacks s; popup_count := popup_count s |}.

Definition with_colorMode (s : State) (c : string) : State :=
  {| counties := counties s; bandWidth := bandWidth s;
     colorMode := c; bandGeoJSON := bandGeoJSON s;
     activePopup := activePopup s; mode := mode s; map := map s;
     btn_innerText := btn_innerText s;
     bandValue_textContent := bandValue_textContent s;
     legend_innerHTML := legend_innerHTML s;
     frame_callbacks := frame_callbacks s; popup_count := popup_count s |}.

Definition with_activePopup (s : State)
    (p : option (Popup R (PopupContent R))) (n : nat) : State :=
  {| counties := counties s; bandWidth := bandWidth s;
     colorMode := colorMode s; bandGeoJSON := bandGeoJSON s;
     activePopup := p; mode := mode s; map := map s;
     btn_innerText := btn_innerText s;
     bandValue_textContent := bandValue_textContent s;
     legend_innerHTML := legend_innerHTML s;
     frame_callbacks := frame_callbacks s; popup_count := n |}.

Definition with_mode (s : State) (m : string) (text : string) : State :=
  {| counties := counties s; bandWidth := bandWidth s;
     colorMode := colorMode s; bandGeoJSON := bandGeoJSON s;
     activePopup := activePopup s; mode := m; map := map s;
     btn_innerText := Some text;
     bandValue_textContent := bandValue_textContent s;
     legend_innerHTML := legend_innerHTML s;
     frame_callbacks := frame_callbacks s; popup_count := popup_count s |}.

Definition with_bandValue (s : State) (w : R) : State :=
  {| counties := counties s; bandWidth := bandWidth s;
     colorMode := colorMode s; bandGeoJSON := bandGeoJSON s;
     activePopup := activePopup s; mode := mode s; map := map s;
     btn_innerText := btn_innerText s;
     bandValue_textContent := Some w;
     legend_innerHTML := legend_innerHTML s;
     frame_callbacks := frame_callbacks s; popup_count := popup_count s |}.

Definition with_legend (s : State) (l : Legend) : State :=
  {| counties := counties s; bandWidth := bandWidth s;
     colorMode := colorMode s; bandGeoJSON := bandGeoJSON s;
     activePopup := activePopup s; mode := mode s; map := map s;
     btn_innerText := btn_innerText s;
     bandValue_textContent := bandValue_textContent s;
     legend_innerHTML := Some l;
     frame_callbacks := frame_callbacks s; popup_count := popup_count s |}.

Definition with_frame_callbacks (s : State) (q : list (Anim R)) : State :=
  {| counties := counties s; bandWidth := bandWidth s;
     colorMode := colorMode s; bandGeoJSON := bandGeoJSON s;
     activePopup := activePopup s; mode := mode s; map := map s;
     btn_innerText := btn_innerText s;
     bandValue_textContent := bandValue_textContent s;
     legend_innerHTML := legend_innerHTML s;
     frame_callbacks := q; popup_count := popup_count s |}.

(** [requestAnimationFrame(cb)] *)
Definition requestAnimationFrame (s : State) (cb : Anim R) : State :=
  with_frame_callbacks s (frame_callbacks s ++ [cb]).

(** [s'] is [s] but for its popups and the cursor: what a click or a
    movement of the pointer can change. *)
Definition same_page (s s' : State) : Prop :=
  counties s' = counties s /\ bandWidth s' = bandWidth s /\
  colorMode s' = colorMode s /\ mode s' = mode s /\
  frame_callbacks s' = frame_callbacks s /\
  layers (map s') = layers (map s) /\
  source_lonbands (map s') = source_lonbands (map s) /\
  legend_innerHTML s' = legend_innerHTML s /\
  bandValue_textContent s' = bandValue_textContent s /\
  btn_innerText s' = btn_innerText s.
End App.

Arguments State : clear implicits.
