(* ===== verification/Animation.v ===== *)
(** * Animation: the band-width slider and its animation frames

    The [input] handler of the slider (lines 257-273 of [src/script.js]) and
    the closure [animateStep] it defines.  The handler runs the first step
    itself and each step asks for the next one with [requestAnimationFrame];
    [frame] is what the browser does at a frame: it takes the callbacks that
    are waiting and runs them in order, and callbacks requested meanwhile
    wait for the following frame.

    [animateStep] reads [bandWidth] when it runs, not when the slider moved:
    the first step sees the old width and every later step the new one. *)

From S2P Require Import Prelude JsNumber JsObject GeoJson Bands Paint MapLibre.
From S2P Require Import App.

#[local] Open Scope num_scope.

Section Animation.
Context {R : Type} `{Number R} {G : Type}.
Implicit Types (s : State R G) (a : Anim R).

(** [function animateStep()], with its captured variables in [a] *)
Definition animateStep a s : State R G :=
  if decide (steps <= currentStep a)%nat then s
  else
    let intermediateWidth :=
      bandWidth s + stepSize a * num_of_Z (Z.of_nat (currentStep a + 1)) in
    let intermediateBands :=
      createLongitudeBands (counties s) intermediateWidth (colorMode s) in
    let s := with_map s (setData_lonbands (map s) intermediateBands) in
    requestAnimationFrame s (Build_Anim (stepSize a) (currentStep a + 1)).

(** [slider.addEventListener("input", ...)]: [newWidth] is
    [parseFloat(slider.value)]. *)
Definition slider_input (newWidth : R) s : State R G :=
  let s := with_bandValue s newWidth in
  let stepSize := (newWidth - bandWidth s) / num_of_Z (Z.of_nat steps) in
  let s := animateStep (Build_Anim stepSize 0) s in
  with_bandWidth s newWidth.

(** One animation frame. *)
Definition frame s : State R G :=
  fold_left (fun s a => animateStep a s) (frame_callbacks s)
    (with_frame_callbacks s []).

(** [n] frames in a row, with no other event in between. *)
Definition frames (n : nat) s : State R G := Nat.iter n frame s.

(** ** Reference description *)

(** The width of the [i]-th collection of an animation from [old] to [new]
    ([i] from 1), as the script computes it. *)
Definition step_width (old new : R) (i : nat) : R :=
  (if decide (i = 1%nat) then old else new)
  + (new - old) / num_of_Z (Z.of_nat steps) * num_of_Z (Z.of_nat i).

(** A callback that still has a step to do. *)
Definition live a : Prop := (currentStep a < steps)%nat.

(** The callback a live callback requests. *)
Definition next a : Anim R := Build_Anim (stepSize a) (currentStep a + 1).

(** The callbacks waiting after a frame that ran [cbs]. *)
Definition advance (cbs : list (Anim R)) : list (Anim R) :=
  next <$> filter live cbs.

(** The band collection a callback publishes in state [s]. *)
Definition published a s : FeatureCollection (BandFeature R) :=
  createLongitudeBands (counties s)
    (bandWidth s + stepSize a * num_of_Z (Z.of_nat (currentStep a + 1)))
    (colorMode s).

(** ** One step *)

Lemma animateStep_done a s : ~ live a -> animateStep a s = s.
Proof. unfold animateStep, live. intros. by rewrite decide_True by lia. Qed.

Lemma animateStep_live a s :
  live a ->
  animateStep a s
  = requestAnimationFrame
      (with_map s (setData_lonbands (map s) (published a s))) (next a).
Proof. unfold animateStep, live. intros. by rewrite decide_False by lia. Qed.

(** A step changes nothing but the [lonbands] source and the callbacks. *)
Lemma animateStep_frame a s :
  counties (animateStep a s) = counties s /\
  bandWidth (animateStep a s) = bandWidth s /\
  colorMode (animateStep a s) = colorMode s /\
  mode (animateStep a s) = mode s /\
  activePopup (animateStep a s) = activePopup s /\
  layers (map (animateStep a s)) = layers (map s) /\
  popups (map (animateStep a s)) = popups (map s).
Proof. unfold animateStep. by case_decide. Qed.

Lemma slider_input_frame newWidth s :
  counties (slider_input newWidth s) = counties s /\
  colorMode (slider_input newWidth s) = colorMode s /\
  mode (slider_input newWidth s) = mode s /\
  activePopup (slider_input newWidth s) = activePopup s /\
  layers (map (slider_input newWidth s)) = layers (map s) /\
  popups (map (slider_input newWidth s)) = popups (map s).
Proof. unfold slider_input, animateStep. by case_decide. Qed.

Lemma frame_callbacks_animateStep a s :
  frame_callbacks (animateStep a s) = frame_callbacks s ++ advance [a].
Proof.
  unfold advance. rewrite filter_cons, filter_nil. case_decide.
  - by rewrite animateStep_live.
  - by rewrite animateStep_done, app_nil_r.
Qed.

Lemma source_lonbands_animateStep a s :
  source_lonbands (map (animateStep a s))
  = if decide (live a) then Some (published a s) else source_lonbands (map s).
Proof.
  case_decide; [by rewrite animateStep_live | by rewrite animateStep_done].
Qed.

Lemma published_ext a s s' :
  counties s' = counties s -> bandWidth s' = bandWidth s ->
  colorMode s' = colorMode s -> published a s' = published a s.
Proof. unfold published. by intros -> -> ->. Qed.

(** ** One frame *)

(** The callbacks of a frame, run in order from [s]. *)
Definition run_callbacks (cbs : list (Anim R)) s : State R G :=
  fold_left (fun s a => animateStep a s) cbs s.

Lemma run_callbacks_frame cbs s :
  counties (run_callbacks cbs s) = counties s /\
  bandWidth (run_callbacks cbs s) = bandWidth s /\
  colorMode (run_callbacks cbs s) = colorMode s /\
  mode (run_callbacks cbs s) = mode s /\
  activePopup (run_callbacks cbs s) = activePopup s /\
  layers (map (run_callbacks cbs s)) = layers (map s) /\
  popups (map (run_callbacks cbs s)) = popups (map s).
Proof.
  unfold run_callbacks. induction cbs as [|a cbs IH] using rev_ind; [done|].
  rewrite fold_left_snoc.
  destruct (animateStep_frame a (fold_left (fun s a => animateStep a s) cbs s))
    as (-> & -> & -> & -> & -> & -> & ->). done.
Qed.

Lemma frame_callbacks_run_callbacks cbs s :
  frame_callbacks (run_callbacks cbs s) = frame_callbacks s ++ advance cbs.
Proof.
  unfold run_callbacks. induction cbs as [|a cbs IH] using rev_ind.
  - by rewrite app_nil_r.
  - rewrite fold_left_snoc, frame_callbacks_animateStep, IH.
    unfold advance. by rewrite filter_app, fmap_app, app_assoc.
Qed.

(** The last live callback of a frame decides what the map shows. *)
Lemma source_lonbands_run_callbacks cbs s :
  source_lonbands (map (run_callbacks cbs s))
  = match last (filter live cbs) with
    | Some a => Some (published a s)
    | None => source_lonbands (map s)
    end.
Proof.
  induction cbs as [|a cbs IH] using rev_ind; [done|].
  unfold run_callbacks in *. rewrite fold_left_snoc.
  rewrite source_lonbands_animateStep, filter_app, filter_cons, filter_nil.
  case_decide.
  - rewrite last_snoc. f_equal.
    by apply published_ext; apply (run_callbacks_frame cbs s).
  - by rewrite app_nil_r.
Qed.

Lemma frame_callbacks_frame s :
  frame_callbacks (frame s) = advance (frame_callbacks s).
Proof. unfold frame. apply frame_callbacks_run_callbacks. Qed.

Lemma source_lonbands_frame s :
  source_lonbands (map (frame s))
  = match last (filter live (frame_callbacks s)) with
    | Some a => Some (published a s)
    | None => source_lonbands (map s)
    end.
Proof.
  unfold frame. fold (run_callbacks (frame_callbacks s)
                        (with_frame_callbacks s [])).
  by rewrite source_lonbands_run_callbacks.
Qed.

Lemma frame_frame s :
  counties (frame s) = counties s /\ bandWidth (frame s) = bandWidth s /\
  colorMode (frame s) = colorMode s /\ mode (frame s) = mode s /\
  activePopup (frame s) = activePopup s /\
  layers (map (frame s)) = layers (map s) /\
  popups (map (frame s)) = popups (map s).
Proof. apply (run_callbacks_frame _ (with_frame_callbacks s [])). Qed.

(** The animation never writes the legend or the button. *)
Lemma animateStep_dom a s :
  legend_innerHTML (animateStep a s) = legend_innerHTML s /\
  btn_innerText (animateStep a s) = btn_innerText s.
Proof. unfold animateStep. by case_decide. Qed.

(** A field that [animateStep] and the emptying of the queue leave alone
    is left alone by a frame. *)
Lemma frame_preserves {A : Type} (field : State R G -> A) s :
  (forall a s, field (animateStep a s) = field s) ->
  field (with_frame_callbacks s []) = field s ->
  field (frame s) = field s.
Proof.
  intros Hstep <-. unfold frame. generalize (with_frame_callbacks s []).
  intros s0. induction (frame_callbacks s) as [|a l IH] using rev_ind; [done|].
  by rewrite fold_left_snoc, Hstep.
Qed.

Lemma frame_dom s :
  legend_innerHTML (frame s) = legend_innerHTML s /\
  btn_innerText (frame s) = btn_innerText s.
Proof.
  split; apply frame_preserves; try done; intros a s0; apply animateStep_dom.
Qed.

(** The label of the slider: a frame leaves it, the slider handler writes
    the requested width to it and to [bandWidth]. *)
Lemma animateStep_label a s :
  bandValue_textContent (animateStep a s) = bandValue_textContent s.
Proof. unfold animateStep. by case_decide. Qed.

Lemma frame_label s : bandValue_textContent (frame s) = bandValue_textContent s.
Proof. apply frame_preserves; [apply animateStep_label|done]. Qed.

Lemma slider_input_label newWidth s :
  bandValue_textContent (slider_input newWidth s) = Some newWidth /\
  bandWidth (slider_input newWidth s) = newWidth.
Proof. unfold slider_input, animateStep. by case_decide. Qed.

Lemma slider_input_dom newWidth s :
  legend_innerHTML (slider_input newWidth s) = legend_innerHTML s /\
  btn_innerText (slider_input newWidth s) = btn_innerText s.
Proof. unfold slider_input, animateStep. by case_decide. Qed.

(** ** Several frames *)

Lemma frame_callbacks_frames n s :
  frame_callbacks (frames n s) = Nat.iter n advance (frame_callbacks s).
Proof.
  unfold frames. induction n as [|n IH]; [done|].
  simpl. by rewrite frame_callbacks_frame, IH.
Qed.

(** A callback that waits after [n] frames comes from a callback [a0] that
    waited before them and has made [n] more steps; it never waits with more
    than [steps] steps made. *)
Lemma elem_of_advance_iter n cbs a :
  a ∈ Nat.iter n advance cbs ->
  exists a0, a0 ∈ cbs /\ currentStep a = (currentStep a0 + n)%nat /\
    (0 < n -> currentStep a <= steps)%nat.
Proof.
  revert a. induction n as [|n IH]; intros a; simpl.
  - intros Ha. exists a. split_and!; [done | lia | lia].
  - unfold advance at 1. intros (a' & -> & [Hl Ha']%list_elem_of_filter)
      %list_elem_of_fmap.
    apply IH in Ha' as (a0 & Ha0 & Hc & _). exists a0.
    unfold live in Hl. simpl. split_and!; [done | lia | lia].
Qed.

(** The state in which no animation is running. *)
Definition idle s : Prop := frame_callbacks s = [].

(** *** Callbacks in step

    All the callbacks of slider events that arrive between two frames have
    made the same number of steps, and stay in step. *)

(** The callbacks with step sizes [ds] that have all made [c] steps. *)
Definition in_step (ds : list R) (c : nat) : list (Anim R) :=
  (fun d => Build_Anim d c) <$> ds.

Lemma filter_live_in_step ds c :
  (c < steps)%nat -> filter live (in_step ds c) = in_step ds c.
Proof.
  intros Hc. unfold in_step. induction ds as [|d ds IH]; [done|].
  rewrite fmap_cons, filter_cons, decide_True by done. by rewrite IH.
Qed.

Lemma advance_in_step ds c :
  (c < steps)%nat -> advance (in_step ds c) = in_step ds (c + 1).
Proof.
  intros Hc. unfold advance. rewrite filter_live_in_step by done.
  unfold in_step. rewrite <- list_fmap_compose. done.
Qed.

Lemma advance_in_step_done ds c :
  (steps <= c)%nat -> advance (in_step ds c) = [].
Proof.
  intros Hc. unfold advance, in_step. induction ds as [|d ds IH]; [done|].
  rewrite fmap_cons, filter_cons, decide_False by (unfold live; simpl; lia).
  done.
Qed.

(** The width a callback with step size [d] computes for its step [i]. *)
Definition width_at s (d : R) (i : nat) : R :=
  bandWidth s + d * num_of_Z (Z.of_nat i).

(** [k] frames on callbacks in step: the last one of the list decides what
    the map shows. *)
Lemma frames_in_step s ds d c k :
  frame_callbacks s = in_step (ds ++ [d]) c ->
  (1 <= k)%nat -> (c + k <= steps)%nat ->
  frame_callbacks (frames k s) = in_step (ds ++ [d]) (c + k) /\
  source_lonbands (map (frames k s))
  = Some (createLongitudeBands (counties s) (width_at s d (c + k))
            (colorMode s)) /\
  bandWidth (frames k s) = bandWidth s /\
  counties (frames k s) = counties s /\ colorMode (frames k s) = colorMode s.
Proof.
  intros Hq Hk. revert s Hq. induction Hk as [|k Hk IH]; intros s Hq Hc.
  - change (frames 1 s) with (frame s).
    destruct (frame_frame s) as (-> & -> & -> & _).
    rewrite frame_callbacks_frame, source_lonbands_frame, Hq.
    rewrite advance_in_step, filter_live_in_step by lia.
    unfold in_step. rewrite !fmap_app. simpl. by rewrite last_snoc.
  - change (frames (S k) s) with (frame (frames k s)).
    destruct (IH s Hq) as (Hq' & _ & Hw & Hf & Hm); [lia|].
    destruct (frame_frame (frames k s)) as (-> & -> & -> & _).
    rewrite frame_callbacks_frame, source_lonbands_frame, Hq'.
    rewrite advance_in_step, filter_live_in_step by lia.
    unfold in_step. rewrite !fmap_app. simpl. rewrite last_snoc.
    unfold published, width_at. simpl. rewrite Hw, Hf, Hm.
    by replace (c + S k)%nat with (c + k + 1)%nat by lia.
Qed.

(** What one slider event does to the page. *)
Lemma slider_input_spec newWidth s :
  let d := (newWidth - bandWidth s) / num_of_Z (Z.of_nat steps) in
  source_lonbands (map (slider_input newWidth s))
  = Some (createLongitudeBands (counties s)
            (step_width (bandWidth s) newWidth 1) (colorMode s)) /\
  frame_callbacks (slider_input newWidth s)
  = frame_callbacks s ++ [Build_Anim d 1] /\
  bandWidth (slider_input newWidth s) = newWidth /\
  counties (slider_input newWidth s) = counties s /\
  colorMode (slider_input newWidth s) = colorMode s.
Proof.
  unfold slider_input. by rewrite animateStep_live
    by (unfold live, steps; simpl; lia).
Qed.

(** The state [k] frames into an animation from [old] to [newWidth]. *)
Lemma animation_step newWidth s k :
  idle s -> (k < steps)%nat ->
  let d := (newWidth - bandWidth s) / num_of_Z (Z.of_nat steps) in
  let sk := frames k (slider_input newWidth s) in
  source_lonbands (map sk)
  = Some (createLongitudeBands (counties s)
            (step_width (bandWidth s) newWidth (k + 1)) (colorMode s)) /\
  frame_callbacks sk = [Build_Anim d (k + 1)] /\
  bandWidth sk = newWidth /\
  counties sk = counties s /\ colorMode sk = colorMode s.
Proof.
  intros Hidle Hk.
  destruct (slider_input_spec newWidth s) as (Hsrc & Hq & Hw & Hc & Hm).
  rewrite Hidle in Hq. destruct k as [|k]; [done|]. cbn zeta.
  destruct (frames_in_step (slider_input newWidth s) [] _ 1 (S k) Hq)
    as (-> & -> & -> & -> & ->); [lia | lia |].
  unfold width_at, step_width. rewrite Hw, Hc, Hm, decide_False by lia.
  by replace (1 + S k)%nat with (S k + 1)%nat by lia.
Qed.

Lemma frame_idle s : idle s -> frame s = s.
Proof. unfold idle, frame. destruct s. simpl. by intros ->. Qed.

Lemma frames_idle n s : idle s -> frames n s = s.
Proof.
  intros Hs. unfold frames. induction n as [|n IH]; [done|].
  simpl. rewrite IH. by apply frame_idle.
Qed.

Lemma frames_S n s : frames (S n) s = frame (frames n s).
Proof. done. Qed.

Lemma frames_add n m s : frames (n + m) s = frames n (frames m s).
Proof. unfold frames. apply Nat.iter_add. Qed.

(** The state when the animation of one slider event is over. *)
Lemma animation_over newWidth s :
  idle s ->
  let s' := frames steps (slider_input newWidth s) in
  source_lonbands (map s')
  = Some (createLongitudeBands (counties s)
            (step_width (bandWidth s) newWidth steps) (colorMode s)) /\
  bandWidth s' = newWidth /\ idle s'.
Proof.
  intros Hs.
  destruct (animation_step newWidth s (steps - 1) Hs)
    as (Hsrc & Hq & Hw & _); [unfold steps; lia|].
  cbn zeta. rewrite (frames_S (steps - 1) (slider_input newWidth s) :
    frames steps (slider_input newWidth s) = _).
  set (s9 := frames (steps - 1) (slider_input newWidth s)) in *.
  split_and!.
  - by rewrite source_lonbands_frame, Hq.
  - by rewrite (proj1 (proj2 (frame_frame s9))).
  - unfold idle. by rewrite frame_callbacks_frame, Hq.
Qed.

(** C19: every animation ends: whatever callbacks are waiting, none is left
    after [steps + 1] frames without a slider event. *)
Theorem animation_terminates s : idle (frames (S steps) s).
Proof.
  unfold idle. rewrite frame_callbacks_frames.
  destruct (Nat.iter (S steps) advance (frame_callbacks s)) as [|a l] eqn:E;
    [done|].
  assert (Ha : a ∈ Nat.iter (S steps) advance (frame_callbacks s))
    by (rewrite E; left).
  apply elem_of_advance_iter in Ha as (a0 & _ & ? & ?). lia.
Qed.

(** Callbacks that have all made a step are gone after [steps] frames. *)
Lemma frames_steps_idle s :
  Forall (fun a => 1 <= currentStep a)%nat (frame_callbacks s) ->
  idle (frames steps s).
Proof.
  intros Hall. unfold idle. rewrite frame_callbacks_frames.
  destruct (Nat.iter steps advance (frame_callbacks s)) as [|a l] eqn:E;
    [done|].
  assert (Ha : a ∈ Nat.iter steps advance (frame_callbacks s))
    by (rewrite E; left).
  apply elem_of_advance_iter in Ha as (a0 & Ha0 & ? & Hle).
  rewrite Forall_forall in Hall. apply Hall in Ha0.
  specialize (Hle ltac:(unfold steps; lia)). lia.
Qed.

(** C4: one slider event on an idle page publishes [steps] band
    collections, the first at once and one per frame after it; the [i]-th
    is the aggregation of all the counties for the width
    [step_width old newWidth i], where the first step starts from the old
    width and every later step from the new one. *)
Theorem animation_trace newWidth s i :
  idle s -> (1 <= i <= steps)%nat ->
  source_lonbands (map (frames (i - 1) (slider_input newWidth s)))
  = Some (createLongitudeBands (counties s)
            (step_width (bandWidth s) newWidth i) (colorMode s)).
Proof.
  intros Hs Hi.
  destruct (animation_step newWidth s (i - 1) Hs) as [-> _]; [lia|].
  by replace (i - 1 + 1)%nat with i by lia.
Qed.

(** C5: once the animation is over, that is after [steps] frames or more,
    the map shows the bands of width [step_width old newWidth steps], the
    variable [bandWidth] holds [newWidth], and no callback is waiting. *)
Theorem animation_settles newWidth s n :
  idle s -> (steps <= n)%nat ->
  let s' := frames n (slider_input newWidth s) in
  source_lonbands (map s')
  = Some (createLongitudeBands (counties s)
            (step_width (bandWidth s) newWidth steps) (colorMode s)) /\
  bandWidth s' = newWidth /\ idle s'.
Proof.
  intros Hs Hn. destruct (animation_over newWidth s Hs) as (? & ? & Hidle).
  replace n with ((n - steps) + steps)%nat by lia.
  cbn zeta. by rewrite frames_add, (frames_idle _ _ Hidle).
Qed.

(** C20: when two slider events arrive before the next frame on a page
    where no animation was running, both animations run side by side and
    the later one is the one that shows:
    after [k] frames the map holds the bands of its step [k + 1], and the
    width it ends on depends on the first event only through the width that
    event left in [bandWidth]. *)
Theorem newest_animation_wins w1 w2 s k :
  idle s -> (1 <= k < steps)%nat ->
  source_lonbands (map (frames k (slider_input w2 (slider_input w1 s))))
  = Some (createLongitudeBands (counties s) (step_width w1 w2 (k + 1))
            (colorMode s)).
Proof.
  intros Hs Hk.
  destruct (slider_input_spec w1 s) as (_ & Hq1 & Hw1 & Hc1 & Hm1).
  destruct (slider_input_spec w2 (slider_input w1 s))
    as (_ & Hq2 & Hw2 & Hc2 & Hm2).
  unfold idle in Hs. rewrite Hq1, Hw1, Hs in Hq2.
  destruct (frames_in_step _ [_] _ 1 k Hq2) as (_ & -> & _); [lia | lia |].
  unfold width_at, step_width. rewrite Hw2, Hc2, Hm2, Hc1, Hm1.
  rewrite decide_False by lia.
  by replace (1 + k)%nat with (k + 1)%nat by lia.
Qed.
End Animation.
