(* ===== verification/AnimationExact.v ===== *)
(** * AnimationExact: where the animation goes, in exact arithmetic

    The widths [Animation.step_width] of the collections one slider event
    publishes, computed without rounding.  Because every step after the
    first adds its offset to the new width instead of the old one, the
    animation does not approach the requested width: from its second step on
    it is beyond it, and it ends at [2 * new - old]. *)

From Stdlib Require Import QArith Lqa.
From S2P Require Import Prelude JsNumber GeoJson App Animation.

#[local] Open Scope Q_scope.

Lemma exact_step_width (old new : Q) (i : nat) :
  step_width old new i
  == (if decide (i = 1%nat) then old else new)
     + (new - old) * inject_Z (Z.of_nat i) / 10.
Proof.
  unfold step_width. cbn. change (inject_Z (Z.of_nat steps)) with 10.
  set (x := inject_Z (Z.of_nat i)). case_decide; field.
Qed.

Lemma Qdiv_10 (y : Q) : y / 10 == y * (1 # 10).
Proof. field. Qed.

Lemma steps_ge_2 (i : nat) : (2 <= i)%nat -> 2 <= inject_Z (Z.of_nat i).
Proof. intros Hi. change 2 with (inject_Z 2). rewrite <- Zle_Qle. lia. Qed.

Lemma exact_first_step (old new : Q) :
  step_width old new 1 == old + (new - old) / 10.
Proof.
  rewrite exact_step_width, decide_True by done.
  change (inject_Z (Z.of_nat 1)) with 1. field.
Qed.

Lemma exact_last_step (old new : Q) :
  step_width old new steps == 2 * new - old.
Proof.
  rewrite exact_step_width, decide_False by done.
  change (inject_Z (Z.of_nat steps)) with 10. field.
Qed.

(** C6: in exact arithmetic the last collection of an animation has the
    width [2 * new - old], so the animation ends on the requested width
    only when the slider did not move. *)
Theorem exact_settles_iff (old new : Q) :
  step_width old new steps == 2 * new - old /\
  (step_width old new steps == new <-> new == old).
Proof.
  split; [apply exact_last_step|].
  rewrite exact_last_step. split; intros Heq; lra.
Qed.

(** C37: when the width grows, every collection of the animation but the
    first is for a width beyond the requested one. *)
Theorem exact_overshoot (old new : Q) (i : nat) :
  (2 <= i <= steps)%nat -> old < new -> new < step_width old new i.
Proof.
  intros Hi Hlt. rewrite exact_step_width, decide_False by lia.
  pose proof (steps_ge_2 i (proj1 Hi)) as Hx.
  assert (H0 : 0 < (new - old) * inject_Z (Z.of_nat i))
    by (apply Qmult_lt_0_compat; lra).
  set (y := (new - old) * inject_Z (Z.of_nat i)) in *.
  rewrite (Qdiv_10 y). lra.
Qed.

Lemma exact_undershoot (old new : Q) (i : nat) :
  (2 <= i <= steps)%nat -> new < old -> step_width old new i < new.
Proof.
  intros Hi Hlt. rewrite exact_step_width, decide_False by lia.
  pose proof (steps_ge_2 i (proj1 Hi)) as Hx.
  assert (H0 : 0 < (old - new) * inject_Z (Z.of_nat i))
    by (apply Qmult_lt_0_compat; lra).
  assert (Hy : (new - old) * inject_Z (Z.of_nat i)
               == - ((old - new) * inject_Z (Z.of_nat i))) by ring.
  rewrite Hy. set (y := (old - new) * inject_Z (Z.of_nat i)) in *.
  rewrite (Qdiv_10 (- y)). lra.
Qed.

(** Halving the width, or more, ends the animation on a width that
    is not positive. *)
Theorem exact_last_step_nonpositive (old new : Q) :
  2 * new <= old -> step_width old new steps <= 0.
Proof. intros Hle. rewrite exact_last_step. lra. Qed.
