(* ===== verification/Binary64.v ===== *)
(** * Binary64: the script's own arithmetic

    The aggregation and the animation at the [binary64] instance of
    [JsNumber.Number], the numbers the script really computes with: runs on
    concrete inputs, the cases in which rounding makes a band miss the
    centroid that was assigned to it, and what a width of zero does. *)

From Stdlib Require Import Floats.
From S2P Require Import Prelude JsNumber JsObject GeoJson Bands Paint MapLibre.
From S2P Require Import App Animation.

#[local] Set Warnings "-inexact-float".
#[local] Open Scope float_scope.

(** A county with the given derived properties. *)
Definition county (lon area pop dens : float) : Feature unit float :=
  {| geometry := tt;
     properties := {| NAME := None; County := None; area_sq_miles := area;
                      centroid_lon := lon; population := pop;
                      density := dens |} |}.

(** The three counties of the specification's scenario. *)
Definition scenario : FeatureCollection (Feature unit float) :=
  Build_FeatureCollection
    [county (-99.4) 900 1000 1.1; county (-98.1) 500 0 0;
     county (-97.9) 700 3000 4.3].

(** ** NaN and zero *)

Lemma floor_not_finite (x : float) :
  match Prim2SF x with S754_finite _ _ _ => False | _ => True end ->
  B64.floor x = x.
Proof. unfold B64.floor. by destruct (Prim2SF x). Qed.

(** Whatever the longitude, dividing by a zero width, rounding down and
    multiplying by the width gives NaN. *)
Lemma is_zero_inv (x : float) :
  is_zero x = true -> exists s, Prim2SF x = S754_zero s.
Proof.
  rewrite is_zero_Prim2SF. destruct (Prim2SF x) as [s| | |]; try done.
  by exists s.
Qed.

Lemma floor_div_zero_mul (lon width : float) :
  is_zero width = true -> B64.floor (lon / width) * width = nan.
Proof.
  intros [sw Hw]%is_zero_inv. apply Prim2SF_nan_inv. rewrite mul_spec, Hw.
  assert (Hd : Prim2SF (lon / width) = S754_nan \/
               exists s, Prim2SF (lon / width) = S754_infinity s).
  { rewrite div_spec, Hw. destruct (Prim2SF lon); simpl; eauto. }
  destruct Hd as [Hd | [s Hd]];
    rewrite floor_not_finite by (by rewrite Hd); by rewrite Hd.
Qed.

Lemma zero_width_band_key (width : float) (f : Feature unit float) :
  is_zero width = true -> band_key width f = nan.
Proof.
  intros Hw. unfold band_key. cbn. by rewrite floor_div_zero_mul.
Qed.

Lemma nan_add (x : float) : nan + x = nan.
Proof.
  apply Prim2SF_nan_inv. rewrite add_spec.
  change (Prim2SF nan) with S754_nan. done.
Qed.

(** With a zero width every county has the key NaN, so all of them are
    members of one band. *)
Lemma zero_width_members (width : float) (fs : list (Feature unit float)) :
  is_zero width = true -> members width nan fs = fs.
Proof.
  intros Hw. unfold members. induction fs as [|f fs IH]; [done|].
  by rewrite filter_cons, decide_True, IH by by apply zero_width_band_key.
Qed.

(** The one band of a zero width: a rectangle with NaN longitudes. *)
Definition nan_band (width : float) (mode : string)
    (fs : list (Feature unit float)) : BandFeature float :=
  band_feature width (nan, (fun f => metric mode (properties f)) <$> fs).

Lemma zero_width_bands (width : float) (mode : string)
    (data : FeatureCollection (Feature unit float)) :
  is_zero width = true -> features data <> [] ->
  features (createLongitudeBands data width mode)
  = [nan_band width mode (features data)].
Proof.
  intros Hw Hne.
  destruct (NoDup_all_eq (features (createLongitudeBands data width mode))
              (nan_band width mode (features data))) as [Hnil | ->]; [| |  |done].
  - eapply NoDup_fmap_1, NoDup_bandStart.
  - intros b (k & Hk & ->)%elem_of_createLongitudeBands.
    destruct (members width k (features data)) as [|f fs] eqn:Hm; [done|].
    assert (Hf : f ∈ members width k (features data)) by (rewrite Hm; left).
    apply list_elem_of_filter in Hf as [<- _].
    rewrite zero_width_band_key in * by done. rewrite <- Hm.
    by rewrite zero_width_members.
  - destruct (features data) as [|f fs] eqn:Hfs; [done|].
    destruct (county_in_one_band data width mode f) as (b & Hb & _).
    { rewrite Hfs. left. }
    rewrite Hnil in Hb. by apply elem_of_nil in Hb.
Qed.

(** C30: with a width that is a zero, all the counties of a non-empty input
    fall into every band that is returned, and the start and the end of that
    band are NaN: the aggregation does not fail, it returns a rectangle that
    cannot be drawn. *)
Theorem zero_width_collapses (width : float) (mode : string)
    (data : FeatureCollection (Feature unit float)) (b : BandFeature float) :
  is_zero width = true -> features data <> [] ->
  b ∈ features (createLongitudeBands data width mode) ->
  bandStart (band_properties b) = nan /\
  bandEnd (band_properties b) = nan /\
  members width (bandStart (band_properties b)) (features data)
  = features data.
Proof.
  intros Hw Hne. rewrite zero_width_bands by done.
  intros ->%list_elem_of_singleton. simpl.
  by rewrite nan_add, zero_width_members.
Qed.

(** ** Runs *)

(** The bands of the scenario, as (start, end, average area). *)
Example scenario_bands :
  (fun b => (bandStart (band_properties b), bandEnd (band_properties b),
             avg_value (band_properties b)))
    <$> features (createLongitudeBands scenario 2 "area")
  = [(-100, -98, 700); (-98, -96, 700)].
Proof. vm_compute. reflexivity. Qed.

(** In the specification's scenario (centroids at -99.4, -98.1 and
    -97.9, width 2) the county at -98.1 is a member of the band that starts
    at -100, with the county at -99.4; the band that starts at -98 holds the
    county at -97.9 alone. *)
Example scenario_members :
  members 2 (-100) (features scenario)
  = [county (-99.4) 900 1000 1.1; county (-98.1) 500 0 0] /\
  members 2 (-98) (features scenario) = [county (-97.9) 700 3000 4.3].
Proof. split; vm_compute; reflexivity. Qed.

(** A zero population is left out of the average. *)
Example scenario_population :
  (fun b => avg_value (band_properties b))
    <$> features (createLongitudeBands scenario 2 "population")
  = [1000; 3000].
Proof. vm_compute. reflexivity. Qed.

(** A key that is an array index comes first, whatever the input order. *)
Example index_key_first :
  (fun b => bandStart (band_properties b))
    <$> features (createLongitudeBands
          (Build_FeatureCollection
             [county (-99.4) 1 1 1; county 1.5 1 1 1; county (-0.5) 1 1 1])
          2 "area")
  = [0; -100; -2].
Proof. vm_compute. reflexivity. Qed.

(** A run in which the band misses the centroid assigned to it: for the
    width 0.3 the county at longitude -95.4 gets a band whose end is
    computed as -95.4 itself, so the centroid is not below the end although
    the width is positive. *)
Example centroid_at_band_end :
  let f := county (-95.4) 1 1 1 in
  (0 <? 0.3) = true /\
  (band_key 0.3 f <=? centroid_lon (properties f)) = true /\
  (centroid_lon (properties f) <? band_key 0.3 f + 0.3) = false.
Proof. vm_compute. done. Qed.

(** The widths of an animation from 2 to 4, and from 2 to 1. *)
Example widths_2_to_4 :
  step_width 2 4 <$> seq 1 10
  = [2.2000000000000002; 4.4000000000000004; 4.5999999999999996;
     4.7999999999999998; 5; 5.2000000000000002; 5.4000000000000004;
     5.5999999999999996; 5.7999999999999998; 6].
Proof. vm_compute. reflexivity. Qed.

Lemma last_width_2_to_1 : step_width 2 1 steps = 0.
Proof. vm_compute. reflexivity. Qed.

(** C7: moving the slider from 2 to 1 on an idle page leaves the map, once
    the animation is over, with a single band whose rectangle has NaN
    longitudes: the last step of the animation computes the width 0. *)
Theorem halving_shows_nan_band (s : State float unit) :
  idle s -> bandWidth s = 2 -> features (counties s) <> [] ->
  source_lonbands (map (frames steps (slider_input 1 s)))
  = Some (Build_FeatureCollection
            [nan_band 0 (colorMode s) (features (counties s))]).
Proof.
  intros Hs Hw Hne.
  destruct (animation_over 1 s Hs) as [-> _].
  rewrite Hw, last_width_2_to_1. f_equal.
  pose proof (zero_width_bands 0 (colorMode s) (counties s) eq_refl Hne) as Hz.
  by destruct (createLongitudeBands (counties s) 0 (colorMode s)); simplify_eq/=.
Qed.
