(* ===== verification/Binary64Avg.v ===== *)
(** * Binary64Avg: the average of a band is a drawable number

    In binary64 the [avg_value] of a band is never NaN and never negative,
    whatever the metric values of its counties are (NaN, infinite and
    negative values included): the filter keeps the strictly positive values,
    their sum from 0 is a zero, a positive number or [+Infinity], and it is
    divided by a positive integer.  The proof follows the operations of
    [SpecFloat] by the class and the sign of their results. *)

From Stdlib Require Import Floats.
From S2P Require Import Prelude JsNumber JsObject GeoJson Bands.

#[local] Open Scope Z_scope.

(** ** Rounding keeps the sign *)

(** A zero, a positive number or [+Infinity]. *)
Definition sf_nonneg (x : spec_float) : bool :=
  match x with
  | S754_zero _ | S754_finite false _ _ | S754_infinity false => true
  | _ => false
  end.

(** A positive number. *)
Definition sf_pos_finite (x : spec_float) : bool :=
  match x with S754_finite false _ _ => true | _ => false end.

Lemma iter_pos_invariant {A : Type} (P : A -> Prop) (f : A -> A) :
  (forall x, P x -> P (f x)) -> forall n x, P x -> P (SpecFloat.iter_pos f n x).
Proof. intros Hf. induction n; simpl; auto. Qed.

Lemma shr_1_nonneg mrs : 0 <= shr_m mrs -> 0 <= shr_m (shr_1 mrs).
Proof. destruct mrs as [[|[p|p|]|p] r s]; simpl; lia. Qed.

Lemma shr_nonneg mrs e n : 0 <= shr_m mrs -> 0 <= shr_m (shr mrs e n).1.
Proof.
  intros Hm. destruct n; simpl; [done| |done].
  apply (iter_pos_invariant (fun mrs => 0 <= shr_m mrs));
    [apply shr_1_nonneg | exact Hm].
Qed.

Lemma shr_m_of_loc m l : shr_m (shr_record_of_loc m l) = m.
Proof. by destruct l as [|[]]. Qed.

Lemma shr_fexp_nonneg m e l :
  0 <= m -> 0 <= shr_m (shr_fexp prec emax m e l).1.
Proof. intros Hm. apply shr_nonneg. by rewrite shr_m_of_loc. Qed.

Lemma round_nearest_even_nonneg m l : 0 <= m -> 0 <= round_nearest_even m l.
Proof.
  intros Hm. destruct l as [|[]]; simpl; try lia. destruct (Z.even m); lia.
Qed.

(** Rounding a magnitude gives a zero, a number or an infinity of the sign
    that was asked for, never a NaN. *)
Lemma binary_round_aux_nonneg mx ex lx :
  0 <= mx -> sf_nonneg (binary_round_aux prec emax false mx ex lx) = true.
Proof.
  intros Hm. unfold binary_round_aux.
  pose proof (shr_fexp_nonneg mx ex lx Hm) as H1.
  destruct (shr_fexp prec emax mx ex lx) as [mrs' e']. simpl in H1.
  pose proof (shr_fexp_nonneg _ e' loc_Exact
    (round_nearest_even_nonneg _ (loc_of_shr_record mrs') H1)) as H2.
  destruct (shr_fexp prec emax _ e' loc_Exact) as [mrs'' e'']. simpl in H2.
  destruct (shr_m mrs''); [done| |lia]. by case_match.
Qed.

Lemma binary_round_nonneg m e :
  sf_nonneg (binary_round prec emax false m e) = true.
Proof.
  unfold binary_round. destruct (shl_align _ _ _) as [mz ez].
  by apply binary_round_aux_nonneg.
Qed.

(** ** Sums of positive values *)

Lemma SFadd_nonneg x y :
  sf_nonneg x = true -> sf_nonneg y = true ->
  sf_nonneg (SFadd prec emax x y) = true.
Proof.
  destruct x as [[]|[]| |[] mx ex], y as [[]|[]| |[] my ey]; try done.
  intros _ _. unfold SFadd, cond_Zopp. rewrite <- Pos2Z.inj_add.
  apply binary_round_nonneg.
Qed.

(** What the filter [v > 0] keeps. *)
Lemma positive_nonneg (v : float) :
  (num_of_Z 0 <? v)%num = true -> sf_nonneg (Prim2SF v) = true.
Proof.
  cbn. change (B64.of_Z 0) with zero. rewrite ltb_spec.
  change (Prim2SF zero) with (S754_zero false).
  by destruct (Prim2SF v) as [[]|[]| |[] m e].
Qed.

Lemma sum_nonneg (l : list float) (acc : float) :
  sf_nonneg (Prim2SF acc) = true ->
  Forall (fun v => (num_of_Z 0 <? v)%num = true) l ->
  sf_nonneg (Prim2SF (fold_left num_add l acc)) = true.
Proof.
  revert acc. induction l as [|v l IH]; intros acc Hacc Hl; [done|].
  apply Forall_cons in Hl as [Hv Hl]. simpl. apply IH; [|done].
  rewrite add_spec. by apply SFadd_nonneg, positive_nonneg.
Qed.

(** ** Quotients by a positive number *)

Lemma SFdiv_nonneg x my ey :
  sf_nonneg x = true ->
  sf_nonneg (SFdiv prec emax x (S754_finite false my ey)) = true.
Proof.
  destruct x as [[]|[]| |[] mx ex]; try done. intros _.
  unfold SFdiv, SFdiv_core_binary. simpl xorb.
  set (m' := match _ - _ with Z0 => Zpos mx | Zpos _ => _ | Zneg _ => 0 end).
  assert (Hm : 0 <= m').
  { subst m'. case_match; [done| |done]. by apply Z.shiftl_nonneg. }
  pose proof (Z.div_pos m' (Zpos my) Hm eq_refl) as Hq. unfold Z.div in Hq.
  destruct (Z.div_eucl m' (Zpos my)) as [q r].
  by apply binary_round_aux_nonneg.
Qed.

(** A value of that class is not NaN and not below zero. *)
Lemma nonneg_spec (x : float) :
  sf_nonneg (Prim2SF x) = true ->
  is_nan x = false /\ (x <? 0)%float = false.
Proof.
  rewrite is_nan_Prim2SF, ltb_spec. change (Prim2SF 0) with (S754_zero false).
  by destruct (Prim2SF x) as [[]|[]| |[] m e].
Qed.

(** ** The number of values, as a binary64

    An array has fewer than [2^32] elements, so its length has at most 53
    binary digits and converts without rounding. *)

Lemma digits2_pos_iter (p n : positive) :
  digits2_pos (Pos.iter xO p n) = (digits2_pos p + n)%positive.
Proof.
  induction n as [|n IH] using Pos.peano_ind.
  - simpl. lia.
  - rewrite Pos.iter_succ. simpl. rewrite IH. lia.
Qed.

Lemma digits2_pos_size (p : positive) : digits2_pos p = Pos.size p.
Proof. induction p; simpl; by rewrite ?IHp. Qed.

Lemma digits2_pos_le (p : positive) (n : Z) :
  0 <= n -> Zpos p < 2 ^ n -> Zpos (digits2_pos p) <= n.
Proof.
  intros Hn Hp. rewrite digits2_pos_size.
  destruct (Z.le_gt_cases (Zpos (Pos.size p)) n) as [|Hgt]; [done|].
  pose proof (Pos.size_le p) as Hs. apply Pos2Z.pos_le_pos in Hs.
  rewrite Pos2Z.inj_pow in Hs. change (Zpos p~0) with (2 * Zpos p) in Hs.
  assert (Hpow : 2 ^ (n + 1) <= 2 ^ Zpos (Pos.size p))
    by (apply Z.pow_le_mono_r; lia).
  rewrite Z.pow_add_r in Hpow by lia. change (2 ^ 1) with 2 in Hpow. lia.
Qed.

(** A mantissa of exactly 53 digits with an exponent in range is what
    rounding returns for it. *)
Lemma binary_round_aux_exact (s : bool) (m : positive) (e : Z) :
  Zpos (digits2_pos m) = prec -> emin <= e <= emax - prec ->
  binary_round_aux prec emax s (Zpos m) e loc_Exact = S754_finite s m e.
Proof.
  intros Hd He.
  assert (Hshr : forall l, shr_fexp prec emax (Zpos m) e l
                           = (shr_record_of_loc (Zpos m) l, e)).
  { intros l. unfold shr_fexp, fexp. simpl Zdigits2. rewrite Hd.
    replace (Z.max _ _ - e) with 0 by lia. done. }
  unfold binary_round_aux. rewrite Hshr. simpl. rewrite Hshr. simpl.
  by rewrite (proj2 (Z.leb_le _ _)) by lia.
Qed.

Lemma of_Z_pos_finite (z : Z) :
  1 <= z < 2 ^ prec -> sf_pos_finite (Prim2SF (B64.of_Z z)) = true.
Proof.
  intros [Hz1 Hz2]. destruct z as [|p|p]; [lia| |lia].
  pose proof (digits2_pos_le p prec ltac:(done) Hz2) as Hd.
  assert (Hpos : 0 < Zpos (digits2_pos p)) by lia.
  unfold B64.of_Z, binary_normalize, binary_round, shl_align, fexp.
  replace (Z.max _ _ - 0) with (Zpos (digits2_pos p) - prec)
    by (unfold SpecFloat.emin, prec, emax in *; lia).
  destruct (Zpos (digits2_pos p) - prec) as [|d|d] eqn:Ed; [|lia|];
    rewrite binary_round_aux_exact, Prim2SF_SF2Prim; try done;
    rewrite ?digits2_pos_iter; unfold SpecFloat.valid_binary, bounded,
      canonical_mantissa, fexp, SpecFloat.emin, prec, emax in *;
    rewrite ?digits2_pos_iter, ?andb_true_iff, ?Z.eqb_eq, ?Z.leb_le; lia.
Qed.

(** ** The average *)

Section Average.
Implicit Types (values : list float).

Lemma length_or_1_pos_finite values :
  Z.of_nat (length values) < 2 ^ 32 ->
  sf_pos_finite (Prim2SF (length_or_1 values)) = true.
Proof.
  intros Hlen. apply of_Z_pos_finite.
  assert (2 ^ 32 < 2 ^ prec) by done. case_decide; lia.
Qed.

Lemma avg_nonneg values :
  Z.of_nat (length values) < 2 ^ 32 ->
  sf_nonneg (Prim2SF (avg values)) = true.
Proof.
  intros Hlen. unfold avg. cbn [num_div binary64]. rewrite div_spec.
  assert (Hle : (length (validVals values) <= length values)%nat)
    by apply length_filter.
  assert (Hd : sf_pos_finite (Prim2SF (length_or_1 (validVals values))) = true)
    by (apply length_or_1_pos_finite; lia).
  destruct (Prim2SF (length_or_1 _)) as [| | |[] m e]; try done.
  apply SFdiv_nonneg, sum_nonneg; [done|].
  eapply Forall_impl; [apply Forall_validVals|]. done.
Qed.
End Average.

Lemma band_avg_nonneg {G : Type} (data : FeatureCollection (Feature G float))
    (width : float) (mode : string) (b : BandFeature float) :
  Z.of_nat (length (features data)) < 2 ^ 32 ->
  b ∈ features (createLongitudeBands data width mode) ->
  sf_nonneg (Prim2SF (avg_value (band_properties b))) = true.
Proof.
  intros Hlen [_ ->]%createLongitudeBands_band. simpl.
  apply avg_nonneg. rewrite length_fmap.
  generalize (bandStart (band_properties b)). intros k.
  assert (Hle : (length (members width k (features data))
                 <= length (features data))%nat) by apply length_filter.
  lia.
Qed.

(** ** An infinite value

    One [+Infinity] among the values that the filter keeps makes the sum,
    and the average, [+Infinity]: the other values are positive, so no
    [Infinity - Infinity] occurs. *)

Lemma SFadd_infinity_l y :
  sf_nonneg y = true ->
  SFadd prec emax (S754_infinity false) y = S754_infinity false.
Proof. by destruct y as [[]|[]| |[] my ey]. Qed.

Lemma SFadd_infinity_r x :
  sf_nonneg x = true ->
  SFadd prec emax x (S754_infinity false) = S754_infinity false.
Proof. by destruct x as [[]|[]| |[] mx ex]. Qed.

Lemma sum_infinity_acc (l : list float) :
  Forall (fun v => (num_of_Z 0 <? v)%num = true) l ->
  fold_left num_add l infinity = infinity.
Proof.
  induction l as [|v l IH]; intros Hl; [done|].
  apply Forall_cons in Hl as [Hv Hl]. simpl. rewrite <- (IH Hl) at 2.
  f_equal. apply Prim2SF_inj. rewrite add_spec.
  by apply SFadd_infinity_l, positive_nonneg.
Qed.

Lemma sum_infinity (l : list float) (acc : float) :
  sf_nonneg (Prim2SF acc) = true ->
  Forall (fun v => (num_of_Z 0 <? v)%num = true) l ->
  infinity ∈ l ->
  fold_left num_add l acc = infinity.
Proof.
  intros Hacc Hl (l1 & l2 & ->)%list_elem_of_split.
  apply Forall_app in Hl as [H1 [_ H2]%Forall_cons].
  rewrite fold_left_app. simpl. rewrite <- (sum_infinity_acc l2 H2) at 2.
  f_equal. apply Prim2SF_inj. rewrite add_spec.
  by apply SFadd_infinity_r, sum_nonneg.
Qed.

Lemma avg_infinity (values : list float) :
  Z.of_nat (length values) < 2 ^ 32 ->
  infinity ∈ values -> avg values = infinity.
Proof.
  intros Hlen Hin. unfold avg. cbn [num_div binary64].
  assert (Hle : (length (validVals values) <= length values)%nat)
    by apply length_filter.
  assert (Hd : sf_pos_finite (Prim2SF (length_or_1 (validVals values))) = true)
    by (apply length_or_1_pos_finite; lia).
  rewrite (sum_infinity (validVals values)).
  - apply Prim2SF_inj. rewrite div_spec.
    by destruct (Prim2SF (length_or_1 _)) as [| | |[] m e].
  - done.
  - eapply Forall_impl; [apply Forall_validVals|]. done.
  - by apply list_elem_of_filter.
Qed.

Lemma members_length {G : Type} (width k : float)
    (fs : list (Feature G float)) :
  (length (members width k fs) <= length fs)%nat.
Proof. apply length_filter. Qed.

Lemma band_of_avg_infinity {G : Type} (data : FeatureCollection (Feature G float))
    (width : float) (mode : string) (k : float) (f : Feature G float) :
  Z.of_nat (length (features data)) < 2 ^ 32 ->
  f ∈ features data -> band_key width f = k ->
  metric mode (properties f) = infinity ->
  avg_value (band_properties (band_of data width mode k)) = infinity.
Proof.
  intros Hlen Hf Hk Hv. simpl. apply avg_infinity.
  - rewrite length_fmap.
    pose proof (members_length width k (features data)). lia.
  - rewrite <- Hv.
    apply (list_elem_of_fmap_2 (fun f => metric mode (properties f))).
    by apply list_elem_of_filter.
Qed.

(** C13: in binary64, for an input of fewer than [2^32] counties, a county
    whose value of the metric is [+Infinity] makes the [avg_value] of the
    band it falls in [+Infinity], whatever the other counties of the band
    hold: the band is then drawn in the colour of the highest stop. *)
Theorem band_avg_infinity {G : Type} (data : FeatureCollection (Feature G float))
    (width : float) (mode : string) (b : BandFeature float)
    (f : Feature G float) :
  Z.of_nat (length (features data)) < 2 ^ 32 ->
  b ∈ features (createLongitudeBands data width mode) ->
  f ∈ features data ->
  band_key width f = bandStart (band_properties b) ->
  metric mode (properties f) = infinity ->
  avg_value (band_properties b) = infinity.
Proof.
  intros Hlen [_ ->]%createLongitudeBands_band Hf Hk Hv.
  by eapply band_of_avg_infinity.
Qed.

(** C12: in binary64 the [avg_value] of every band is a number that is not
    NaN and not below zero, whatever the metric values of the counties are:
    NaN, negative and zero values are left out by the filter, and infinite
    ones give [+Infinity].  The input has fewer than [2^32] counties, the
    bound on the length of an array. *)
Theorem band_avg_drawable {G : Type} (data : FeatureCollection (Feature G float))
    (width : float) (mode : string) (b : BandFeature float) :
  Z.of_nat (length (features data)) < 2 ^ 32 ->
  b ∈ features (createLongitudeBands data width mode) ->
  is_nan (avg_value (band_properties b)) = false /\
  (avg_value (band_properties b) <? 0)%float = false.
Proof. intros Hlen Hb. by eapply nonneg_spec, band_avg_nonneg. Qed.
