(* ===== verification/Binary64Floor.v ===== *)
(** * Binary64Floor: [Math.floor] in binary64 is the floor

    [JsNumber.B64.floor] works on the bits of its argument.  This file gives
    a finite binary64 its value as a rational and shows that the value of
    [B64.floor x] is the floor of the value of [x], the function the [exact]
    instance of [Number] uses: on [Math.floor] the two arithmetics of the
    development agree, and the start of a county's band in binary64 is a
    product of the width by that integer. *)

From Stdlib Require Import Floats QArith Qround Lqa.
From S2P Require Import Prelude JsNumber GeoJson Bands BandsExact Binary64Avg.

#[local] Open Scope Z_scope.

(** ** The value of a binary64 *)

(** [2^e] as a rational. *)
Definition pow2 (e : Z) : Q :=
  if 0 <=? e then inject_Z (2 ^ e) else (1 / inject_Z (2 ^ (- e)))%Q.

(** The value of a zero or of a finite number. *)
Definition SF2Q (x : spec_float) : option Q :=
  match x with
  | S754_zero _ => Some 0%Q
  | S754_finite s m e => Some (inject_Z (cond_Zopp s (Zpos m)) * pow2 e)%Q
  | _ => None
  end.

Definition value (x : float) : option Q := SF2Q (Prim2SF x).

(** [x] has the integer value [z]. *)
Definition has_value (x : float) (z : Z) : Prop :=
  exists v, value x = Some v /\ (v == inject_Z z)%Q.

Lemma pow2_nonneg (e : Z) : 0 <= e -> pow2 e = inject_Z (2 ^ e).
Proof. intros He. unfold pow2. by rewrite (proj2 (Z.leb_le 0 e)). Qed.

Lemma pow2_neg (e : Z) : e < 0 -> pow2 e = (1 / inject_Z (2 ^ (- e)))%Q.
Proof. intros He. unfold pow2. by rewrite (proj2 (Z.leb_gt 0 e)). Qed.

Lemma pos_iter_xO (p n : positive) :
  Zpos (Pos.iter xO p n) = Zpos p * 2 ^ Zpos n.
Proof.
  induction n as [|n IH] using Pos.peano_ind.
  - simpl. lia.
  - rewrite Pos.iter_succ, Pos2Z.inj_xO, IH, Pos2Z.inj_succ, Z.pow_succ_r by lia.
    lia.
Qed.

(** ** Integers below [2^53] convert exactly *)

Lemma of_Z_spec (s : bool) (p : positive) :
  Zpos p < 2 ^ prec ->
  exists m,
    Prim2SF (B64.of_Z (cond_Zopp s (Zpos p)))
    = S754_finite s m (Zpos (digits2_pos p) - prec)
    /\ Zpos m = Zpos p * 2 ^ (prec - Zpos (digits2_pos p)).
Proof.
  intros Hp. pose proof (digits2_pos_le p prec ltac:(done) Hp) as Hd.
  assert (Hpos : 0 < Zpos (digits2_pos p)) by lia.
  assert (Hn : binary_normalize prec emax (cond_Zopp s (Zpos p)) 0 false
               = binary_round prec emax s p 0) by by destruct s.
  unfold B64.of_Z. rewrite Hn. unfold binary_round, shl_align, fexp.
  replace (Z.max _ _ - 0) with (Zpos (digits2_pos p) - prec)
    by (unfold SpecFloat.emin, prec, emax in *; lia).
  destruct (Zpos (digits2_pos p) - prec) as [|d|d] eqn:Ed; [|lia|].
  all: rewrite binary_round_aux_exact, Prim2SF_SF2Prim.
  all: try (eexists; split; [f_equal|]).
  all: rewrite ?digits2_pos_iter, ?pos_iter_xO.
  all: unfold SpecFloat.valid_binary, bounded, canonical_mantissa, fexp,
         SpecFloat.emin, prec, emax in *.
  all: rewrite ?digits2_pos_iter, ?andb_true_iff, ?Z.eqb_eq, ?Z.leb_le.
  all: try lia.
  - replace (53 - Zpos (digits2_pos p)) with 0 by lia. lia.
  - do 2 f_equal. lia.
Qed.

Lemma of_Z_value (z : Z) :
  z <> 0 -> Z.abs z < 2 ^ prec -> has_value (B64.of_Z z) z.
Proof.
  intros Hz Hlt.
  assert (exists s p, z = cond_Zopp s (Zpos p) /\ Zpos p < 2 ^ prec)
    as (s & p & -> & Hp).
  { destruct z as [|p|p]; [done|by exists false, p|by exists true, p]. }
  destruct (of_Z_spec s p Hp) as (m & Hm & Hmp).
  assert (He : Zpos (digits2_pos p) - prec <= 0)
    by (pose proof (digits2_pos_le p prec ltac:(done) Hp); lia).
  replace (prec - Zpos (digits2_pos p))
    with (- (Zpos (digits2_pos p) - prec)) in Hmp by lia.
  revert Hm Hmp He. generalize (Zpos (digits2_pos p) - prec). intros e Hm Hmp He.
  unfold has_value, value. rewrite Hm. eexists; split; [reflexivity|].
  destruct (Z.eq_dec e 0) as [->|Hne].
  - rewrite pow2_nonneg by done. simpl in Hmp.
    replace m with p by lia. apply Qmult_1_r.
  - rewrite pow2_neg by lia.
    assert (Hm' : cond_Zopp s (Zpos m) = cond_Zopp s (Zpos p) * 2 ^ (- e))
      by (destruct s; simpl; lia).
    rewrite Hm', inject_Z_mult. field. change 0%Q with (inject_Z 0).
    rewrite inject_Z_injective. apply Z.pow_nonzero; lia.
Qed.

(** ** Division by one *)

(** Rounding a mantissa of 54 bits whose last bit is 0 drops that bit. *)
Lemma binary_round_aux_even (s : bool) (k : positive) (e : Z) :
  Zpos (digits2_pos k) = prec -> emin <= e + 1 <= emax - prec ->
  binary_round_aux prec emax s (Zpos k~0) e loc_Exact = S754_finite s k (e + 1).
Proof.
  intros Hd He.
  assert (Hshr : shr_fexp prec emax (Zpos k~0) e loc_Exact
                 = ({| shr_m := Zpos k; shr_r := false; shr_s := false |},
                    e + 1)).
  { unfold shr_fexp, fexp. simpl Zdigits2. simpl digits2_pos.
    rewrite Pos2Z.inj_succ, Hd.
    replace (Z.max _ _ - e) with 1
      by (unfold SpecFloat.emin, prec, emax in *; lia).
    done. }
  unfold binary_round_aux. rewrite Hshr.
  cbn [shr_m loc_of_shr_record round_nearest_even].
  assert (Hshr' : shr_fexp prec emax (Zpos k) (e + 1) loc_Exact
                  = (shr_record_of_loc (Zpos k) loc_Exact, e + 1)).
  { unfold shr_fexp, fexp. simpl Zdigits2. rewrite Hd.
    replace (Z.max _ _ - (e + 1)) with 0
      by (unfold SpecFloat.emin, prec, emax in *; lia).
    done. }
  rewrite Hshr'. simpl. by rewrite (proj2 (Z.leb_le _ _)) by lia.
Qed.

(** The quotient of an integer below [2^53] by 1, as the division prepares
    it for rounding: 54 bits, the last one 0. *)
Lemma SFdiv_core_one (p : positive) :
  Zpos p < 2 ^ prec ->
  exists k, SFdiv_core_binary prec emax (Zpos p) 0 1 0
            = (Zpos k~0, Zpos (digits2_pos p) - prec - 1, loc_Exact)
            /\ Zpos k = Zpos p * 2 ^ (prec - Zpos (digits2_pos p))
            /\ Zpos (digits2_pos k) = prec.
Proof.
  intros Hp. pose proof (digits2_pos_le p prec ltac:(done) Hp) as Hd.
  set (j := prec - Zpos (digits2_pos p)) in *.
  assert (Hj : 0 <= j) by (unfold j; lia).
  assert (Hpow : 0 < 2 ^ j) by by apply Z.pow_pos_nonneg.
  exists (Z.to_pos (Zpos p * 2 ^ j)).
  assert (Hk : Zpos (Z.to_pos (Zpos p * 2 ^ j)) = Zpos p * 2 ^ j)
    by (apply Z2Pos.id; lia).
  split_and!; [|done|].
  - unfold SFdiv_core_binary, fexp. simpl Zdigits2.
    replace (Z.min _ _) with (Zpos (digits2_pos p) - prec - 1)
      by (unfold SpecFloat.emin, prec, emax, j in *; lia).
    replace (0 - 0 - _) with (j + 1) by (unfold j; lia).
    destruct (j + 1) as [|q|q] eqn:Eq; [lia| |lia].
    rewrite Z.shiftl_mul_pow2, <- Eq, Z.pow_add_r by lia.
    pose proof (Z.div_eucl_eq (Zpos p * (2 ^ j * 2 ^ 1)) 1 ltac:(done))
      as Hdiv.
    pose proof (Z.mod_pos_bound (Zpos p * (2 ^ j * 2 ^ 1)) 1 ltac:(done))
      as Hmod.
    unfold Z.modulo in Hmod.
    destruct (Z.div_eucl _ 1) as [q' r]. assert (r = 0) as -> by lia.
    rewrite Pos2Z.inj_xO, Hk. do 2 f_equal. lia.
  - destruct j as [|q|q] eqn:Ej; [|clear Hk|lia].
    + rewrite Z.mul_1_r in *. simpl Z.to_pos. lia.
    + rewrite <- pos_iter_xO, Pos2Z.id, digits2_pos_iter. lia.
Qed.

(** ** The floor *)

(** The mantissa of a finite binary64 has at most 53 bits. *)
Lemma finite_mantissa_bound (x : float) (s : bool) (m : positive) (e : Z) :
  Prim2SF x = S754_finite s m e -> Zpos m < 2 ^ prec.
Proof.
  intros E. pose proof (Prim2SF_valid x) as Hv. rewrite E in Hv.
  unfold SpecFloat.valid_binary, bounded, canonical_mantissa, fexp in Hv.
  apply andb_true_iff in Hv as [Hc _]. apply Z.eqb_eq in Hc.
  assert (Hd : Zpos (Pos.size m) <= prec) by (rewrite <- digits2_pos_size; lia).
  pose proof (Pos.size_gt m) as Hs. apply Pos2Z.pos_lt_pos in Hs.
  rewrite Pos2Z.inj_pow in Hs. eapply Z.lt_le_trans; [exact Hs|].
  by apply Z.pow_le_mono_r.
Qed.

Lemma Qfloor_quotient (v d r : Q) (k : Z) :
  (0 < d)%Q -> (v * d == d * inject_Z k + r)%Q -> (0 <= r)%Q -> (r < d)%Q ->
  Qfloor v = k.
Proof. intros Hd Hv Hr0 Hrd. apply Qfloor_unique; nra. Qed.

Lemma Qfloor_div (a q : Z) :
  0 < q -> Qfloor (inject_Z a * (1 / inject_Z q)) = a / q.
Proof.
  intros Hq. pose proof (Z.mod_pos_bound a q Hq) as [Hr0 Hrq].
  assert (Hq' : (0 < inject_Z q)%Q) by by rewrite <- (Zlt_Qlt 0).
  apply (Qfloor_quotient _ (inject_Z q) (inject_Z (a mod q)));
    [done| |by rewrite <- (Zle_Qle 0)|by rewrite <- Zlt_Qlt].
  rewrite <- inject_Z_mult, <- inject_Z_plus, <- Z.div_mod by lia.
  field. lra.
Qed.

Lemma div_abs_le (a q : Z) : 0 < q -> Z.abs (a / q) <= Z.abs a.
Proof.
  intros Hq. pose proof (Z.div_mod a q ltac:(lia)).
  pose proof (Z.mod_pos_bound a q Hq). nia.
Qed.

(** [B64.floor] computes the floor: the value of [B64.floor x] is the
    largest integer not above the value of [x]. *)
Lemma floor_value (x : float) (v : Q) :
  value x = Some v -> has_value (B64.floor x) (Qfloor v).
Proof.
  unfold has_value, value, B64.floor.
  destruct (Prim2SF x) as [sz| | |s m e] eqn:E; try done; intros [= <-].
  { rewrite E. by exists 0%Q. }
  destruct (Z.leb_spec 0 e) as [He|He].
  { rewrite E. eexists; split; [reflexivity|].
    by rewrite pow2_nonneg, <- inject_Z_mult, Qfloor_Z by done. }
  pose proof (finite_mantissa_bound x s m e E) as Hm.
  assert (Hq : 0 < 2 ^ (- e)) by (apply Z.pow_pos_nonneg; lia).
  rewrite pow2_neg, Qfloor_div, Z.shiftr_div_pow2 by lia.
  pose proof (div_abs_le (cond_Zopp s (Zpos m)) (2 ^ (- e)) Hq) as Hle.
  assert (Ha : Z.abs (cond_Zopp s (Zpos m)) = Zpos m) by by destruct s.
  destruct (cond_Zopp s (Zpos m) / 2 ^ (- e)) as [|n|n] eqn:En;
    [by exists 0%Q|apply of_Z_value; lia..].
Qed.

(** ** The start of a band *)

(** C10: in binary64 the start of a county's band is the product of the
    width by a number whose value is the floor of the value of the quotient
    [lon / width] as the script computed it: [Math.floor] on the bits of a
    binary64 and the floor of exact arithmetic agree on every finite
    number, so the two arithmetics differ by the rounding of the quotient
    and of the product only. *)
Theorem band_key_floor {G : Type} (width : float) (f : Feature G float) (v : Q) :
  value (centroid_lon (properties f) / width) = Some v ->
  exists k, has_value k (Qfloor v) /\ band_key width f = B64.canon (k * width).
Proof.
  intros Hv. exists (B64.floor (centroid_lon (properties f) / width)).
  split; [by apply floor_value|done].
Qed.
