(* ===== verification/Preprocess.v ===== *)
(** * Preprocess: the derived properties of a county

    The [forEach] of the load handler (lines 30-39 of [src/script.js]): each
    county gets its area in square miles, the longitude of its centroid, its
    population as a number and its density.  The geometry library is an
    interface ([Turf]); the conversions the script applies to numbers
    ([Number(...)], [||], [toFixed] followed by [parseFloat]) are those of
    ECMAScript on binary64 values. *)

From Stdlib Require Import Floats.
From S2P Require Import Prelude JsNumber GeoJson.

#[local] Open Scope float_scope.

(** What the script asks of the geometry library. *)
Class Turf (G : Type) := {
  (** [turf.area(f)], in square metres *)
  turf_area : G -> float;
  (** [turf.centroid(f).geometry.coordinates], as [[lon, lat]] *)
  turf_centroid : G -> float * float;
}.

(** ** Conversions *)

(** [Number(v)]; [StringToNumber] is the runtime's parser of numeric
    strings, and [None] is [undefined].  An array or an object is converted
    to a primitive first, which for a value of [JSON.parse] is the string
    of its [toString]; an object that holds data under both of the names
    [valueOf] and [toString] makes [Number] throw, a case that is given no
    value here. *)
Definition ToNumber (StringToNumber : string -> float)
    (v : option (JsValue float)) : float :=
  match v with
  | None => nan
  | Some JNull => zero
  | Some (JBool b) => if b then one else zero
  | Some (JNum x) => x
  | Some (JStr s) => StringToNumber s
  | Some (JObject primitive) => StringToNumber primitive
  end.

(** A number is falsy when it is NaN or a zero. *)
Definition truthy (x : float) : bool := negb (is_nan x || is_zero x).

(** [x || y] on numbers *)
Definition or_else (x y : float) : float := if truthy x then x else y.

(** [10^21], from which on [toFixed] prints like [toString] *)
Definition toFixed_limit : Z := 10 ^ 21.

(** The integer [n] for which [n / 10^d] is closest to [m * 2^e], the larger
    one of two. *)
Definition round_scaled (m : positive) (e : Z) (d : nat) : Z :=
  let t := (Zpos m * 10 ^ Z.of_nat d)%Z in
  if (0 <=? e)%Z then Z.shiftl t e
  else ((2 * t + 2 ^ (- e)) / 2 ^ (- e + 1))%Z.

(** [m * 2^e >= 10^21] *)
Definition at_least_limit (m : positive) (e : Z) : bool :=
  if (0 <=? e)%Z then (toFixed_limit <=? Z.shiftl (Zpos m) e)%Z
  else (toFixed_limit * 2 ^ (- e) <=? Zpos m)%Z.

(** The binary64 nearest to [n / 10^d], with sign [s]. *)
Definition nearest_decimal (s : bool) (n : positive) (d : nat) : float :=
  let '(mz, ez, lz) :=
    SFdiv_core_binary prec emax (Zpos n) 0 (10 ^ Z.of_nat d) 0 in
  SF2Prim (binary_round_aux prec emax s mz ez lz).

(** [parseFloat(x.toFixed(d))] *)
Definition toFixed_parsed (d : nat) (x : float) : float :=
  match Prim2SF x with
  | S754_zero _ => zero
  | S754_finite s m e =>
      if at_least_limit m e then x
      else match round_scaled m e d with
           | Zpos n => nearest_decimal s n d
           | _ => if s then neg_zero else zero
           end
  | _ => x
  end.

(** [2_589_988.11], the square metres of a square mile *)
Definition sq_m_per_sq_mile : float := Eval vm_compute in B64.of_decimal 258998811 2.

(** ** The derived properties *)

Section Derive.
Context {G : Type} `{Turf G} (StringToNumber : string -> float).

(** The body of the [forEach], for one county. *)
Definition derive (f : RawFeature G float) : Feature G float :=
  let areaSqMiles := turf_area (raw_geometry f) / sq_m_per_sq_mile in
  let centroid := turf_centroid (raw_geometry f) in
  let pop := or_else (ToNumber StringToNumber (raw_Total_Population f)) zero in
  let density := pop / areaSqMiles in
  {| geometry := raw_geometry f;
     properties := {|
       NAME := raw_NAME f;
       County := raw_County f;
       area_sq_miles := toFixed_parsed 1 areaSqMiles;
       centroid_lon := centroid.1;
       population := pop;
       density := toFixed_parsed 2 density |} |}.

(** [counties.features.forEach(...)] *)
Definition preprocess (raw : FeatureCollection (RawFeature G float))
  : FeatureCollection (Feature G float) :=
  Build_FeatureCollection (derive <$> features raw).
End Derive.

(** ** Properties *)

Lemma truthy_not_nan (x : float) : truthy x = true -> is_nan x = false.
Proof. unfold truthy. by destruct (is_nan x). Qed.

Lemma or_else_zero_not_nan (x : float) : is_nan (or_else x zero) = false.
Proof.
  unfold or_else. destruct (truthy x) eqn:E; [by apply truthy_not_nan | done].
Qed.

Lemma or_else_zero_falsy (x : float) :
  is_nan x = true \/ is_zero x = true -> or_else x zero = zero.
Proof. unfold or_else, truthy. by intros [-> | ->]; rewrite ?orb_true_r. Qed.

Lemma toFixed_parsed_not_finite (d : nat) (x : float) :
  is_finite x = false -> toFixed_parsed d x = x.
Proof.
  unfold is_finite, toFixed_parsed.
  rewrite is_nan_Prim2SF, is_infinity_Prim2SF. by destruct (Prim2SF x).
Qed.

(** [round_scaled] is the integer ECMAScript asks of [toFixed]: the one for
    which [n / 10^d - x] is closest to zero, the larger of two. *)
Lemma round_scaled_nearest (m : positive) (e : Z) (d : nat) :
  let t := (Zpos m * 10 ^ Z.of_nat d)%Z in
  let n := round_scaled m e d in
  if (0 <=? e)%Z then n = (t * 2 ^ e)%Z
  else ((2 * n - 1) * 2 ^ (- e) <= 2 * t < (2 * n + 1) * 2 ^ (- e))%Z.
Proof.
  cbn zeta. unfold round_scaled. destruct (Z.leb_spec 0 e) as [He|He].
  - by apply Z.shiftl_mul_pow2.
  - set (t := (Zpos m * 10 ^ Z.of_nat d)%Z). set (q := (2 ^ (- e))%Z).
    assert (Hq : (0 < q)%Z) by (apply Z.pow_pos_nonneg; lia).
    replace (2 ^ (- e + 1))%Z with (2 * q)%Z
      by (unfold q; rewrite Z.pow_add_r by lia; lia).
    pose proof (Z.div_mod (2 * t + q) (2 * q) ltac:(lia)) as Hdiv.
    pose proof (Z.mod_pos_bound (2 * t + q) (2 * q) ltac:(lia)) as Hmod.
    lia.
Qed.

(** A quotient by a zero is NaN or an infinity. *)
Lemma div_zero_not_finite (x y : float) :
  is_zero y = true -> is_finite (x / y) = false.
Proof.
  unfold is_finite.
  rewrite is_zero_Prim2SF, is_nan_Prim2SF, is_infinity_Prim2SF, div_spec.
  by destruct (Prim2SF x), (Prim2SF y).
Qed.

Lemma div_pos_zero (x : float) :
  (zero <? x)%float = true -> (x / zero)%float = infinity.
Proof.
  intros Hx. apply Prim2SF_inj. rewrite div_spec. rewrite ltb_spec in Hx.
  change (Prim2SF zero) with (S754_zero false) in *.
  by destruct (Prim2SF x) as [[]|[]| |[] m e].
Qed.

Section DeriveProperties.
Context {G : Type} `{Turf G} (StringToNumber : string -> float).
Implicit Types (f : RawFeature G float).

#[local] Abbreviation derive := (derive StringToNumber).

(** C33: the population of a county is never NaN. *)
Theorem population_not_nan f :
  is_nan (population (properties (derive f))) = false.
Proof. apply or_else_zero_not_nan. Qed.

(** C34: when [Number] of the input's population is NaN or a zero (a
    missing value, [null], a string that is not a number), the population
    of the county is 0. *)
Theorem population_default f :
  let n := ToNumber StringToNumber (raw_Total_Population f) in
  is_nan n = true \/ is_zero n = true ->
  population (properties (derive f)) = zero.
Proof. apply or_else_zero_falsy. Qed.

(** C31: when the area in square miles is a zero the density is not a
    finite number: the script stores NaN or an infinity, not 0. *)
Theorem density_zero_area f :
  is_zero (turf_area (raw_geometry f) / sq_m_per_sq_mile) = true ->
  is_finite (density (properties (derive f))) = false.
Proof.
  intros Hz. simpl. rewrite toFixed_parsed_not_finite;
    by apply div_zero_not_finite.
Qed.

(** C32: a county whose area in square miles is [+0] and whose population
    is above zero is given the density [+Infinity]: the division is not
    guarded, and [toFixed] and [parseFloat] hand the infinity on. *)
Theorem density_infinity f :
  (turf_area (raw_geometry f) / sq_m_per_sq_mile)%float = zero ->
  (zero <? population (properties (derive f)))%float = true ->
  density (properties (derive f)) = infinity.
Proof. simpl. intros -> Hp. by rewrite div_pos_zero. Qed.

Lemma centroid_lon_derive f :
  centroid_lon (properties (derive f)) = (turf_centroid (raw_geometry f)).1.
Proof. done. Qed.

Lemma preprocess_length (raw : FeatureCollection (RawFeature G float)) :
  length (features (preprocess StringToNumber raw)) = length (features raw).
Proof. apply length_fmap. Qed.
End DeriveProperties.
