(* ===== verification/NumberString.v ===== *)
(** * NumberString: numbers to strings and back

    The script prints numbers with [toFixed] and reads them with
    [parseFloat] and [Number(...)].  This file models the three on binary64
    from ECMAScript (21.1.3.3 [Number.prototype.toFixed], 19.2.4
    [parseFloat], 7.1.4.1.1 [StringToNumber]): the decimal digits of an
    integer, the grammar of [StrDecimalLiteral] as a parser that returns the
    rest of its input, and the value of a decimal as the nearest binary64.
    Strings are sequences of bytes: the white space of the grammar is the
    ASCII part of it.  The main result is the round trip that justifies
    [Preprocess.toFixed_parsed]: reading what [toFixed] printed gives the
    number that definition computes from the bits. *)

From Stdlib Require Import Ascii String Floats.
From stdpp Require Import strings.
From S2P Require Import Prelude JsNumber GeoJson Binary64Avg Binary64Floor.
From S2P Require Import Preprocess.

#[local] Open Scope N_scope.

(** ** Decimal digits *)

(** The character of a digit, whether a character is a digit, its value. *)
Definition digit (n : N) : ascii := ascii_of_N (48 + n).

Definition is_digit (c : ascii) : bool :=
  (48 <=? N_of_ascii c) && (N_of_ascii c <=? 57).

Definition digit_value (c : ascii) : N := N_of_ascii c - 48.

(** The digits of [n], most significant first; [fuel] bounds their number. *)
Fixpoint digits_fuel (fuel : nat) (n : N) : list ascii :=
  match fuel with
  | O => []
  | S fuel =>
      (if n <? 10 then [] else digits_fuel fuel (n / 10)) ++ [digit (n mod 10)]
  end.

(** The decimal representation of [n]; a number has no more decimal digits
    than binary ones. *)
Definition digits (n : N) : list ascii :=
  digits_fuel (S (N.to_nat (N.log2 n))) n.

(** The number a sequence of digits stands for. *)
Definition digits_value (l : list ascii) : N :=
  fold_left (fun a c => 10 * a + digit_value c) l 0.

(** The longest prefix of [l] whose characters satisfy [p], and the rest. *)
Fixpoint span (p : ascii -> bool) (l : list ascii) : list ascii * list ascii :=
  match l with
  | c :: l' =>
      if p c then let (a, b) := span p l' in (c :: a, b) else ([], l)
  | [] => ([], [])
  end.

(** ** [toFixed] *)

(** Steps 10.c-d of [toFixed]: [m] is padded with zeros to [d + 1] digits
    and a point is put before the last [d]. *)
Definition pad_fraction (d : nat) (m : list ascii) : list ascii :=
  if decide (d = 0%nat) then m
  else
    let m := replicate (S d - length m) "0"%char ++ m in
    let k := length m in
    take (k - d) m ++ "."%char :: drop (k - d) m.

Section ToFixed.
(** [Number::toString], which [toFixed] uses from [10^21] on. *)
Context (ToString : float -> string).

(** [x.toFixed(d)], as characters; the script calls it with [d] 1 and 2
    (a [d] above 100 is a [RangeError]). *)
Definition toFixed_chars (d : nat) (x : float) : list ascii :=
  match Prim2SF x with
  | S754_nan => list_ascii_of_string "NaN"
  | S754_infinity s =>
      list_ascii_of_string (if s then "-Infinity" else "Infinity")
  | S754_zero _ => pad_fraction d (digits 0)
  | S754_finite s m e =>
      (if s then ["-"%char] else [])
      ++ (if at_least_limit m e then list_ascii_of_string (ToString (abs x))
          else pad_fraction d (digits (Z.to_N (round_scaled m e d))))
  end.

Definition toFixed (d : nat) (x : float) : string :=
  string_of_list_ascii (toFixed_chars d x).
End ToFixed.

(** ** Reading a number *)

(** TAB, LF, VT, FF, CR and the space. *)
Definition is_space (c : ascii) : bool :=
  let n := N_of_ascii c in ((9 <=? n) && (n <=? 13)) || (n =? 32).

(** [TrimString(s, start)] *)
Fixpoint trim_start (l : list ascii) : list ascii :=
  match l with
  | c :: l' => if is_space c then trim_start l' else l
  | [] => []
  end.

(** [l] without the prefix [p], when it starts with it. *)
Fixpoint strip_prefix (p l : list ascii) : option (list ascii) :=
  match p, l with
  | [], _ => Some l
  | c :: p', c' :: l' => if (c =? c')%char then strip_prefix p' l' else None
  | _ :: _, [] => None
  end.

(** An optional sign: whether it is [-], and the rest. *)
Definition parse_sign (l : list ascii) : bool * list ascii :=
  match l with
  | c :: l' =>
      if (c =? "-")%char then (true, l')
      else if (c =? "+")%char then (false, l')
      else (false, l)
  | [] => (false, l)
  end.

(** An optional [ExponentPart]: its value and the rest.  An [e] that no
    digit follows is not part of the number. *)
Definition parse_exponent (l : list ascii) : Z * list ascii :=
  match l with
  | c :: l' =>
      if (c =? "e")%char || (c =? "E")%char then
        let (neg, l'') := parse_sign l' in
        let (ds, rest) := span is_digit l'' in
        match ds with
        | [] => (0%Z, l)
        | _ => (cond_Zopp neg (Z.of_N (digits_value ds)), rest)
        end
      else (0%Z, l)
  | [] => (0%Z, l)
  end.

(** The longest [StrUnsignedDecimalLiteral] at the start of [l] that is not
    [Infinity]: the integer [m] and the exponent [e] of its value
    [m * 10^e], and the rest. *)
Definition parse_decimal (l : list ascii) : option (N * Z * list ascii) :=
  let (ip, r) := span is_digit l in
  let (fp, r) :=
    match r with
    | c :: r' => if (c =? ".")%char then
                   let (fp, r'') := span is_digit r' in
                   match ip, fp with
                   | [], [] => ([], r)
                   | _, _ => (fp, r'')
                   end
                 else ([], r)
    | [] => ([], r)
    end in
  match ip ++ fp with
  | [] => None
  | ds =>
      let (e, rest) := parse_exponent r in
      Some (digits_value ds, (e - Z.of_nat (length fp))%Z, rest)
  end.

(** The binary64 nearest to [m * 10^e], with sign [s]. *)
Definition decimal_to_float (s : bool) (m : N) (e : Z) : float :=
  match m with
  | N0 => if s then neg_zero else zero
  | Npos p =>
      if (e <=? 0)%Z then nearest_decimal s p (Z.to_nat (- e))
      else SF2Prim (binary_normalize prec emax
                      (cond_Zopp s (Zpos p * 10 ^ e)) 0 false)
  end.

(** The longest [StrDecimalLiteral] at the start of [l]: its value and the
    rest. *)
Definition parse_number (l : list ascii) : option (float * list ascii) :=
  let (s, l) := parse_sign l in
  match strip_prefix (list_ascii_of_string "Infinity") l with
  | Some rest => Some (if s then neg_infinity else infinity, rest)
  | None =>
      match parse_decimal l with
      | Some (m, e, rest) => Some (decimal_to_float s m e, rest)
      | None => None
      end
  end.

(** [parseFloat(s)] *)
Definition parseFloat (s : string) : float :=
  match parse_number (trim_start (list_ascii_of_string s)) with
  | Some (x, _) => x
  | None => nan
  end.

(** ** [Number(s)] on a string *)

(** The value of a hexadecimal digit, if [c] is one. *)
Definition hex_value (c : ascii) : option N :=
  let n := N_of_ascii c in
  if (48 <=? n) && (n <=? 57) then Some (n - 48)
  else if (97 <=? n) && (n <=? 102) then Some (n - 87)
  else if (65 <=? n) && (n <=? 70) then Some (n - 55)
  else None.

Definition is_digit_of (base : N) (c : ascii) : bool :=
  match hex_value c with
  | Some v => v <? base
  | None => false
  end.

Definition digits_value_of (base : N) (l : list ascii) : N :=
  fold_left (fun a c => base * a + default 0 (hex_value c)) l 0.

(** The base a prefix letter announces. *)
Definition base_of (c : ascii) : option N :=
  if (c =? "x")%char || (c =? "X")%char then Some 16
  else if (c =? "o")%char || (c =? "O")%char then Some 8
  else if (c =? "b")%char || (c =? "B")%char then Some 2
  else None.

(** A [NonDecimalIntegerLiteral] at the start of [l]: its value and the
    rest. *)
Definition parse_nondecimal (l : list ascii) : option (N * list ascii) :=
  match l with
  | z :: b :: l' =>
      if (z =? "0")%char then
        match base_of b with
        | Some base =>
            let (ds, rest) := span (is_digit_of base) l' in
            match ds with
            | [] => None
            | _ => Some (digits_value_of base ds, rest)
            end
        | None => None
        end
      else None
  | _ => None
  end.

(** [StringToNumber(s)]: white space around one numeric literal; the empty
    string is 0 and anything else NaN. *)
Definition StringToNumber (s : string) : float :=
  match trim_start (list_ascii_of_string s) with
  | [] => zero
  | l =>
      let r := match parse_nondecimal l with
               | Some (n, rest) => Some (decimal_to_float false n 0, rest)
               | None => parse_number l
               end in
      match r with
      | Some (x, rest) => match trim_start rest with [] => x | _ => nan end
      | None => nan
      end
  end.

(** [x] is not a finite number of magnitude [10^21] or more: [toFixed]
    prints it without [Number::toString]'s exponent notation. *)
Definition below_limit (x : float) : bool :=
  match Prim2SF x with
  | S754_finite _ m e => negb (at_least_limit m e)
  | _ => true
  end.
(** ** Digits: properties *)

Lemma digit_value_digit (n : N) : n < 10 -> digit_value (digit n) = n.
Proof.
  intros Hn. unfold digit_value, digit.
  rewrite N_ascii_embedding by lia. lia.
Qed.

Lemma is_digit_digit (n : N) : n < 10 -> is_digit (digit n) = true.
Proof.
  intros Hn. unfold is_digit, digit. rewrite N_ascii_embedding by lia.
  apply andb_true_iff. split; apply N.leb_le; lia.
Qed.

Lemma digits_value_snoc (l : list ascii) (c : ascii) :
  digits_value (l ++ [c]) = 10 * digits_value l + digit_value c.
Proof. unfold digits_value. by rewrite fold_left_snoc. Qed.

Lemma digits_value_zeros (k : nat) (l : list ascii) :
  digits_value (replicate k "0"%char ++ l) = digits_value l.
Proof.
  unfold digits_value. rewrite fold_left_app. f_equal.
  induction k as [|k IH]; [done|]. by rewrite replicate_S_end, fold_left_snoc, IH.
Qed.

(** Enough fuel gives all the digits. *)
Lemma digits_fuel_value (fuel : nat) (n : N) :
  n < 10 ^ N.of_nat fuel -> digits_value (digits_fuel fuel n) = n.
Proof.
  revert n. induction fuel as [|fuel IH]; intros n Hn.
  { change (10 ^ N.of_nat 0) with 1 in Hn. by replace n with 0 by lia. }
  rewrite Nat2N.inj_succ, N.pow_succ_r' in Hn.
  cbn [digits_fuel]. rewrite digits_value_snoc.
  pose proof (N.mod_upper_bound n 10 ltac:(done)) as Hmod.
  pose proof (N.div_mod n 10 ltac:(done)) as Hdiv.
  rewrite digit_value_digit by done. destruct (N.ltb_spec n 10) as [Hlt|Hge].
  - change (digits_value []) with 0. rewrite N.mod_small by done. lia.
  - rewrite IH; [lia|]. apply N.Div0.div_lt_upper_bound. lia.
Qed.

Lemma digits_fuel_enough (n : N) : n < 10 ^ N.of_nat (S (N.to_nat (N.log2 n))).
Proof.
  rewrite Nat2N.inj_succ, N2Nat.id.
  apply N.lt_le_trans with (2 ^ N.succ (N.log2 n)).
  - destruct n as [|p]; [done|]. by apply N.log2_spec.
  - apply N.pow_le_mono_l. lia.
Qed.

(** Round trip: the digits of [n] stand for [n]. *)
Lemma digits_value_digits (n : N) : digits_value (digits n) = n.
Proof. apply digits_fuel_value, digits_fuel_enough. Qed.

Lemma digits_fuel_is_digit (fuel : nat) (n : N) :
  Forall (fun c => is_digit c = true) (digits_fuel fuel n).
Proof.
  revert n. induction fuel as [|fuel IH]; intros n; [done|].
  cbn [digits_fuel]. apply Forall_app. split.
  - by destruct (n <? 10).
  - apply Forall_singleton, is_digit_digit, N.mod_upper_bound. done.
Qed.

Lemma digits_is_digit (n : N) : Forall (fun c => is_digit c = true) (digits n).
Proof. apply digits_fuel_is_digit. Qed.

Lemma digits_length (n : N) : (0 < length (digits n))%nat.
Proof. unfold digits. cbn [digits_fuel]. rewrite length_app. simpl. lia. Qed.

Lemma span_app (p : ascii -> bool) (a b : list ascii) :
  Forall (fun c => p c = true) a ->
  match b with c :: _ => p c = false | [] => True end ->
  span p (a ++ b) = (a, b).
Proof.
  intros Ha Hb. induction Ha as [|c a Hc _ IH]; simpl.
  - destruct b as [|c b]; simpl; [done|]. by rewrite Hb.
  - by rewrite Hc, IH.
Qed.

(** ** Reading what [toFixed] printed *)

(** A digit is no other character. *)
Lemma is_digit_neq (c c' : ascii) :
  is_digit c = true -> is_digit c' = false -> (c =? c')%char = false.
Proof.
  intros Hc Hc'. destruct (Ascii.eqb_spec c c') as [->|]; [|done].
  by rewrite Hc in Hc'.
Qed.

Lemma is_digit_not_space (c : ascii) : is_digit c = true -> is_space c = false.
Proof.
  unfold is_digit, is_space. intros [H1 H2]%andb_true_iff.
  apply N.leb_le in H1. apply orb_false_iff.
  split; [apply andb_false_iff; right; apply N.leb_gt|apply N.eqb_neq]; lia.
Qed.

Section Fixed.
Context (d : nat) (ds : list ascii).
Hypothesis Hds : Forall (fun c => is_digit c = true) ds.
Hypothesis Hlen : (0 < length ds)%nat.

(** The shape of [pad_fraction d ds]: an integer part, and a point with [d]
    digits when [d] is not 0. *)
Lemma pad_fraction_shape :
  exists a b,
    pad_fraction d ds
    = a ++ (if decide (d = 0%nat) then [] else "."%char :: b)
    /\ (0 < length a)%nat /\ length b = d
    /\ Forall (fun c => is_digit c = true) (a ++ b)
    /\ digits_value (a ++ b) = digits_value ds.
Proof.
  unfold pad_fraction. destruct (decide (d = 0%nat)) as [->|Hd].
  { exists ds, []. by rewrite app_nil_r. }
  set (m := replicate (S d - length ds) "0"%char ++ ds).
  assert (Hm : (S d <= length m)%nat).
  { unfold m. rewrite length_app, length_replicate. lia. }
  exists (take (length m - d) m), (drop (length m - d) m).
  rewrite take_drop, length_take, length_drop.
  repeat split; try lia.
  - apply Forall_app. split; [by apply Forall_replicate|done].
  - apply digits_value_zeros.
Qed.
End Fixed.

(** The parser reads an integer part, a point and a fraction back. *)
Lemma parse_decimal_fixed (a b : list ascii) (point : bool) :
  (0 < length a)%nat -> Forall (fun c => is_digit c = true) (a ++ b) ->
  (point = false -> b = []) ->
  parse_decimal (a ++ (if point then "."%char :: b else []))
  = Some (digits_value (a ++ b), (- Z.of_nat (length b))%Z, []).
Proof.
  intros Ha [Hda Hdb]%Forall_app Hb. unfold parse_decimal.
  assert (Hab : exists c l, a ++ b = c :: l) by (destruct a; naive_solver lia).
  destruct Hab as (c & l & Hab). destruct point.
  - rewrite span_app by done. cbn -[span].
    rewrite <- (app_nil_r b) at 1. rewrite span_app by done.
    destruct a as [|c' a]; [simpl in Ha; lia|].
    rewrite Hab. by destruct b.
  - rewrite (Hb eq_refl), app_nil_r in *. rewrite <- (app_nil_r a) at 1.
    rewrite span_app by done. rewrite app_nil_r, Hab. done.
Qed.

Lemma parse_number_digit (s : bool) (c : ascii) (l : list ascii) :
  is_digit c = true ->
  parse_number ((if s then ["-"%char] else []) ++ c :: l)
  = (fun '(m, e, rest) => (decimal_to_float s m e, rest))
      <$> parse_decimal (c :: l).
Proof.
  intros Hc.
  assert (parse_sign ((if s then ["-"%char] else []) ++ c :: l) = (s, c :: l))
    as Hs.
  { destruct s; [done|]. unfold parse_sign. cbn [app].
    by rewrite !(is_digit_neq c) by done. }
  unfold parse_number. rewrite Hs. cbn [strip_prefix list_ascii_of_string].
  rewrite Ascii.eqb_sym, (is_digit_neq c) by done.
  by destruct (parse_decimal (c :: l)) as [[[m e] rest]|].
Qed.

Lemma parse_number_unsigned (c : ascii) (l : list ascii) :
  is_digit c = true ->
  parse_number (c :: l)
  = (fun '(m, e, rest) => (decimal_to_float false m e, rest))
      <$> parse_decimal (c :: l).
Proof. apply (parse_number_digit false). Qed.

Lemma trim_start_digit (c : ascii) (l : list ascii) :
  is_digit c = true -> trim_start (c :: l) = c :: l.
Proof. intros Hc. simpl. by rewrite is_digit_not_space. Qed.

Lemma trim_start_signed (s : bool) (c : ascii) (l : list ascii) :
  is_digit c = true ->
  trim_start ((if s then ["-"%char] else []) ++ c :: l)
  = (if s then ["-"%char] else []) ++ c :: l.
Proof. intros Hc. destruct s; simpl; [done|]. by rewrite is_digit_not_space. Qed.

(** Reading the digits of [n] printed with [d] decimals gives
    [n / 10^d]. *)
Lemma parse_number_fixed (s : bool) (d : nat) (n : N) :
  parse_number (trim_start ((if s then ["-"%char] else [])
                            ++ pad_fraction d (digits n)))
  = Some (decimal_to_float s n (- Z.of_nat d), []).
Proof.
  destruct (pad_fraction_shape d (digits n) (digits_is_digit n)
              (digits_length n)) as (a & b & -> & Ha & Hb & Hd & Hv).
  pose proof (parse_decimal_fixed a b (negb (bool_decide (d = 0%nat))) Ha Hd)
    as Hp.
  rewrite Hv, digits_value_digits, Hb in Hp.
  replace (if negb _ then _ else _)
    with (if decide (d = 0%nat) then [] else "."%char :: b) in Hp
    by by case_bool_decide; case_decide.
  destruct a as [|c a]; [simpl in Ha; lia|]. apply Forall_app in Hd as [Hd _].
  apply Forall_cons in Hd as [Hc _]. rewrite <- app_comm_cons in *.
  rewrite trim_start_signed, parse_number_digit by done. rewrite Hp; [done|].
  intros Hz%negb_false_iff%bool_decide_eq_true. apply nil_length_inv. lia.
Qed.

Lemma decimal_to_float_fixed (s : bool) (d : nat) (n : Z) :
  decimal_to_float s (Z.to_N n) (- Z.of_nat d)
  = match n with
    | Zpos p => nearest_decimal s p d
    | _ => if s then neg_zero else zero
    end.
Proof.
  destruct n as [|p|p]; [done| |done]. cbn [Z.to_N decimal_to_float].
  by rewrite (proj2 (Z.leb_le _ 0)), Z.opp_involutive, Nat2Z.id by lia.
Qed.

(** What [toFixed] prints for a finite number below [10^21] and [d]
    decimals: a sign, at least one digit, and, when [d] is not 0, a point
    and exactly [d] digits. *)
Lemma toFixed_chars_shape (ToString : float -> string) (d : nat) (x : float)
    (s : bool) (m : positive) (e : Z) :
  Prim2SF x = S754_finite s m e -> at_least_limit m e = false ->
  exists a b,
    toFixed_chars ToString d x
    = (if s then ["-"%char] else [])
      ++ a ++ (if decide (d = 0%nat) then [] else "."%char :: b)
    /\ (0 < length a)%nat /\ length b = d
    /\ Forall (fun c => is_digit c = true) (a ++ b).
Proof.
  intros Hx Hlim. unfold toFixed_chars. rewrite Hx, Hlim.
  destruct (pad_fraction_shape d _ (digits_is_digit _) (digits_length
    (Z.to_N (round_scaled m e d)))) as (a & b & -> & Ha & Hb & Hd & _).
  by exists a, b.
Qed.

(** ** The round trip *)

Section RoundTrip.
Context (ToString : float -> string).

(** C11: reading with [parseFloat] what [toFixed] printed gives the number
    [toFixed_parsed] computes from the bits of [x], for NaN, the
    infinities, the zeros and every finite [x] below [10^21]: the digits
    [toFixed] prints are read back to the same integer, whatever their
    number, the padding and the sign. *)
Theorem parseFloat_toFixed (d : nat) (x : float) :
  below_limit x = true ->
  parseFloat (toFixed ToString d x) = toFixed_parsed d x.
Proof.
  unfold below_limit, parseFloat, toFixed, toFixed_chars, toFixed_parsed.
  rewrite list_ascii_of_string_of_list_ascii.
  pose proof (SF2Prim_Prim2SF x) as Hx.
  destruct (Prim2SF x) as [s|s| |s m e]; intros Hlim.
  - pose proof (parse_number_fixed false d 0) as H. cbn [app] in H.
    by rewrite H.
  - rewrite <- Hx. by destruct s.
  - by rewrite <- Hx.
  - apply negb_true_iff in Hlim. rewrite Hlim, parse_number_fixed.
    apply decimal_to_float_fixed.
Qed.
End RoundTrip.

(** ** [Number(s)] on the text of a population *)

(** The decimal [n / 10^0] is the integer [n]: reading it gives what
    converting the integer gives. *)
Lemma nearest_decimal_integer (s : bool) (p : positive) :
  (Zpos p < 2 ^ prec)%Z ->
  nearest_decimal s p 0 = B64.of_Z (cond_Zopp s (Zpos p)).
Proof.
  intros Hp. pose proof (digits2_pos_le p prec ltac:(done) Hp) as Hd.
  assert (Hpos : (0 < Zpos (digits2_pos p))%Z) by lia.
  destruct (SFdiv_core_one p Hp) as (k & Hdiv & Hk & Hdk).
  destruct (of_Z_spec s p Hp) as (m & Hm & Hmp).
  unfold nearest_decimal. change (10 ^ Z.of_nat 0)%Z with 1%Z. rewrite Hdiv.
  rewrite binary_round_aux_even
    by (unfold SpecFloat.emin, prec, emax in *; lia).
  rewrite <- (SF2Prim_Prim2SF (B64.of_Z _)), Hm. do 2 f_equal; lia.
Qed.


Lemma base_of_digit (c : ascii) : is_digit c = true -> base_of c = None.
Proof.
  intros Hc. unfold base_of.
  by rewrite !(Ascii.eqb_sym c), !(Ascii.eqb_sym _ c), !(is_digit_neq c).
Qed.

(** A literal that starts with decimal digits and goes on with a digit or a
    comma is not one of another base. *)
Lemma parse_nondecimal_digit (c c' : ascii) (l : list ascii) :
  is_digit c' = true \/ c' = ","%char -> parse_nondecimal (c :: c' :: l) = None.
Proof.
  intros Hc. unfold parse_nondecimal.
  assert (base_of c' = None) as ->
    by (destruct Hc as [Hc | ->]; [by apply base_of_digit|done]).
  by destruct (c =? "0")%char.
Qed.

Section Population.
Context (n : N) (rest : list ascii).

(** Digits, a comma and anything: what is read and what is left. *)
Lemma parse_number_comma :
  parse_number (digits n ++ ","%char :: rest)
  = Some (decimal_to_float false n 0, ","%char :: rest).
Proof.
  pose proof (digits_is_digit n) as Hd. pose proof (digits_length n) as Hlen.
  pose proof (digits_value_digits n) as Hv.
  destruct (digits n) as [|c ds] eqn:E; [simpl in Hlen; lia|].
  apply Forall_cons in Hd as Hc. destruct Hc as [Hc _].
  rewrite <- app_comm_cons, parse_number_unsigned by done.
  rewrite app_comm_cons. unfold parse_decimal.
  rewrite span_app by done. cbn -[digits_value]. by rewrite app_nil_r, Hv.
Qed.

(** [Number] of a number written with a thousands separator is NaN. *)
Lemma StringToNumber_comma :
  StringToNumber (string_of_list_ascii (digits n ++ ","%char :: rest)) = nan.
Proof.
  unfold StringToNumber. rewrite list_ascii_of_string_of_list_ascii.
  pose proof (digits_is_digit n) as Hd. pose proof (digits_length n) as Hlen.
  pose proof parse_number_comma as Hp.
  destruct (digits n) as [|c ds] eqn:E; [simpl in Hlen; lia|].
  apply Forall_cons in Hd as [Hc Hds]. rewrite <- app_comm_cons in *.
  rewrite trim_start_digit, Hp by done.
  by destruct Hds; cbn [app]; rewrite parse_nondecimal_digit by auto.
Qed.

(** [Number] of the decimal digits of [n] is the nearest binary64. *)
Lemma StringToNumber_digits :
  StringToNumber (string_of_list_ascii (digits n)) = decimal_to_float false n 0.
Proof.
  unfold StringToNumber. rewrite list_ascii_of_string_of_list_ascii.
  pose proof (digits_is_digit n) as Hd. pose proof (digits_length n) as Hlen.
  pose proof (parse_number_fixed false 0 n) as Hp. cbn [app] in Hp.
  change (pad_fraction 0 (digits n)) with (digits n) in Hp.
  destruct (digits n) as [|c ds] eqn:E; [simpl in Hlen; lia|].
  apply Forall_cons in Hd as [Hc Hds].
  rewrite trim_start_digit in * by done. rewrite Hp.
  by destruct Hds; rewrite ?parse_nondecimal_digit by auto.
Qed.

(** C35: a population that the file gives as the decimal digits of an
    integer below [2^53] is that integer: [Number] reads the digits to the
    nearest binary64, which is exact, and [|| 0] keeps it (or replaces the
    zero by 0). *)
Theorem population_of_text {G : Type} `{Turf G} (f : RawFeature G float) :
  (n < 2 ^ 53)%N ->
  raw_Total_Population f = Some (JStr (string_of_list_ascii (digits n))) ->
  population (properties (derive StringToNumber f)) = B64.of_Z (Z.of_N n).
Proof.
  intros Hn Hf. cbn [derive properties population]. unfold ToNumber.
  rewrite Hf, StringToNumber_digits. destruct n as [|p]; [done|].
  cbn [decimal_to_float Z.leb Z.compare Z.opp Z.to_nat].
  assert (Hp : (Zpos p < 2 ^ prec)%Z)
    by (change (2 ^ prec)%Z with 9007199254740992%Z; lia).
  rewrite (nearest_decimal_integer false) by done.
  destruct (of_Z_spec false p Hp) as (m & Hm & _).
  unfold or_else, truthy. by rewrite is_nan_Prim2SF, is_zero_Prim2SF, Hm.
Qed.

(** C36: a population that the file gives as text with a thousands
    separator, such as "1,234", counts as 0: [Number] reads the digits
    before the comma, finds the comma where the literal should end, and
    answers NaN, which [|| 0] replaces. *)
Theorem population_separator {G : Type} `{Turf G} (f : RawFeature G float) :
  raw_Total_Population f
  = Some (JStr (string_of_list_ascii (digits n ++ ","%char :: rest))) ->
  population (properties (derive StringToNumber f)) = zero.
Proof.
  intros Hf. apply or_else_zero_falsy. left.
  unfold ToNumber. by rewrite Hf, StringToNumber_comma.
Qed.
End Population.
