(* ===== verification/Controls.v ===== *)
(** * Controls: the legend, the view toggle and the colour-mode control

    [updateLegend] (lines 203-225 of [src/script.js]) and the handlers of the
    toggle button (lines 229-246) and of the colour-mode control (lines
    248-255).  A handler that throws stops where it is: what it did so far
    stays done.  [Outcome] keeps the state in both cases. *)

From S2P Require Import Prelude JsNumber JsObject GeoJson Bands Paint MapLibre.
From S2P Require Import App.

(** How a handler ended, and the state it left. *)
Inductive Outcome (S : Type) : Type :=
  | Returned (s : S)
  | Threw (s : S).
Arguments Returned {S} s.
Arguments Threw {S} s.

Definition state_of {S : Type} (o : Outcome S) : S :=
  match o with Returned s | Threw s => s end.

Definition threw {S : Type} (o : Outcome S) : bool :=
  match o with Returned _ => false | Threw _ => true end.

(** The rows of the legend: [stops.forEach((v, i) => ... colors[i] ... v)] *)
Definition legend_rows_of (stops : list Z) (colors : list string)
  : list (option string * Z) :=
  imap (fun i v => (colors !! i, v)) stops.

(** The legend of a colour mode and a view, [None] when building it throws:
    [stops.forEach] when [stops] is [undefined] (or, for a key such as
    "constructor", an inherited member, which has no [forEach]), or
    [colors[i]] when [colors] is [undefined]. *)
Definition legend_of (colorMode viewMode : string) : option Legend :=
  match get legendStops colorMode with
  | None => None
  | Some stops =>
      match get legendColors colorMode, stops with
      | None, _ :: _ => None
      | colors, _ =>
          Some {| legend_mode := colorMode;
                  legend_rows := legend_rows_of stops (default [] colors);
                  legend_note :=
                    bool_decide (colorMode = "population" /\ viewMode = "band") |}
      end
  end.

Arguments legend_of : simpl never.

Section Controls.
Context {R : Type} `{Number R} {G : Type}.
Implicit Types (s : State R G).

(** [function updateLegend(colorMode, viewMode)] *)
Definition updateLegend (colorMode viewMode : string) s
  : Outcome (State R G) :=
  match legend_of colorMode viewMode with
  | Some l => Returned (with_legend s l)
  | None => Threw s
  end.

(** [btn.addEventListener("click", ...)] *)
Definition toggle_click s : Outcome (State R G) :=
  let s :=
    if decide (mode s = "county") then
      let m := setVisibility (map s) "county-fill" "none" in
      let m := setVisibility m "county-borders" "none" in
      let m := setVisibility m "lonband-fill" "visible" in
      let m := setVisibility m "lonband-borders" "visible" in
      with_mode (with_map s m) "band" "Switch to County Coloring"
    else
      let m := setVisibility (map s) "county-fill" "visible" in
      let m := setVisibility m "county-borders" "visible" in
      let m := setVisibility m "lonband-fill" "none" in
      let m := setVisibility m "lonband-borders" "none" in
      with_mode (with_map s m) "county" "Switch to Longitude Bands" in
  updateLegend (colorMode s) (mode s) s.

(** [select.addEventListener("change", ...)]: [value] is [select.value]. *)
Definition select_change (value : string) s : Outcome (State R G) :=
  let s := with_colorMode s value in
  let m := setPaintProperty (map s) "county-fill" "fill-color"
             (paint_of countyPaints (colorMode s)) in
  let m := setPaintProperty m "lonband-fill" "fill-color"
             (paint_of bandPaints (colorMode s)) in
  let newBands :=
    createLongitudeBands (counties s) (bandWidth s) (colorMode s) in
  let s := with_map s (setData_lonbands m newBands) in
  updateLegend (colorMode s) (mode s) s.

Lemma state_of_updateLegend (colorMode viewMode : string) s :
  state_of (updateLegend colorMode viewMode s)
  = match legend_of colorMode viewMode with
    | Some l => with_legend s l
    | None => s
    end.
Proof. unfold updateLegend. by destruct (legend_of colorMode viewMode). Qed.

(** *** What the two handlers leave alone *)

Lemma toggle_click_mode s :
  mode (state_of (toggle_click s))
  = if decide (mode s = "county") then "band" else "county".
Proof.
  unfold toggle_click. rewrite state_of_updateLegend.
  by case_decide; case_match.
Qed.

(** The text the click writes on the button: the name of the view that is
    now hidden. *)
Lemma toggle_click_button s :
  btn_innerText (state_of (toggle_click s))
  = Some (if decide (mode s = "county") then "Switch to County Coloring"
          else "Switch to Longitude Bands").
Proof.
  unfold toggle_click. rewrite state_of_updateLegend.
  by case_decide; case_match.
Qed.

Lemma toggle_click_frame s :
  let s' := state_of (toggle_click s) in
  counties s' = counties s /\ bandWidth s' = bandWidth s /\
  colorMode s' = colorMode s /\ activePopup s' = activePopup s /\
  frame_callbacks s' = frame_callbacks s /\
  popups (map s') = popups (map s) /\
  source_lonbands (map s') = source_lonbands (map s).
Proof.
  unfold toggle_click. cbn zeta. rewrite state_of_updateLegend.
  case_decide; case_match; simpl; by autorewrite with js.
Qed.

(** What the change handler does to the fields the other handlers read. *)
Lemma select_change_spec (value : string) s :
  let s' := state_of (select_change value s) in
  source_lonbands (map s')
  = Some (createLongitudeBands (counties s) (bandWidth s) value) /\
  colorMode s' = value /\
  counties s' = counties s /\ bandWidth s' = bandWidth s /\
  mode s' = mode s /\ activePopup s' = activePopup s /\
  frame_callbacks s' = frame_callbacks s /\
  popups (map s') = popups (map s).
Proof.
  unfold select_change. cbn zeta. rewrite state_of_updateLegend.
  case_match; simpl; by autorewrite with js.
Qed.

(** Neither handler writes the label of the slider. *)
Lemma toggle_click_label s :
  bandValue_textContent (state_of (toggle_click s)) = bandValue_textContent s.
Proof.
  unfold toggle_click. cbn zeta. rewrite state_of_updateLegend.
  by case_decide; case_match.
Qed.

Lemma select_change_label (value : string) s :
  bandValue_textContent (state_of (select_change value s))
  = bandValue_textContent s /\
  btn_innerText (state_of (select_change value s)) = btn_innerText s.
Proof.
  unfold select_change. cbn zeta. rewrite state_of_updateLegend.
  by case_match.
Qed.

Lemma legend_of_unknown (value viewMode : string) :
  value ∉ color_modes -> legend_of value viewMode = None.
Proof.
  intros Hv. unfold legend_of.
  by rewrite (proj2 (get_None legendStops value)).
Qed.

Lemma legend_of_known (value viewMode : string) :
  value ∈ color_modes -> is_Some (legend_of value viewMode).
Proof.
  intros Hv. repeat (apply elem_of_cons in Hv as [-> | Hv]);
    try (by eexists). by apply elem_of_nil in Hv.
Qed.

(** C39: choosing a colour mode that has no ramp makes the handler throw
    when it comes to the legend: the mode is stored, the fill colour is
    set to a value that is no paint expression, and the legend still shows
    what it showed. *)
Theorem select_change_unknown (value : string) s :
  value ∉ color_modes ->
  let o := select_change value s in
  threw o = true /\
  colorMode (state_of o) = value /\
  legend_innerHTML (state_of o) = legend_innerHTML s /\
  (is_Some (get (layers (map s)) "county-fill") ->
   paint (map (state_of o)) "county-fill" "fill-color" = Some PUndefined).
Proof.
  intros Hv. unfold select_change, updateLegend. simpl.
  rewrite legend_of_unknown by done. simpl. split_and!; [done..|].
  intros Hl. rewrite paint_setData_lonbands, paint_setPaintProperty_ne by done.
  unfold paint_of. rewrite (proj2 (get_None countyPaints value)) by done.
  by apply paint_setPaintProperty_eq.
Qed.

(** C38: choosing one of the three colour modes does not throw: the
    handler stores the mode, rebuilds the bands of all the counties for the
    current width and the new mode, and shows the legend of the new mode
    for the current view. *)
Theorem select_change_known (value : string) s :
  value ∈ color_modes ->
  let o := select_change value s in
  threw o = false /\
  colorMode (state_of o) = value /\
  source_lonbands (map (state_of o))
  = Some (createLongitudeBands (counties s) (bandWidth s) value) /\
  legend_innerHTML (state_of o) = legend_of value (mode s).
Proof.
  intros [l Hl]%(legend_of_known value (mode s)).
  unfold select_change, updateLegend. simpl. rewrite Hl. simpl.
  by split_and!.
Qed.
End Controls.
