(* ===== verification/Interleaving.v ===== *)
(** * Interleaving: the controls during an animation

    The handlers of the colour-mode control and of the slider share the
    [lonbands] source, [bandWidth] and [colorMode].  A change of colour mode
    between two frames of an animation publishes the bands of the width the
    slider asked for, not of the width the animation is at, and the
    animation goes on from there with the new colour mode. *)

From S2P Require Import Prelude JsNumber JsObject GeoJson Bands Paint MapLibre.
From S2P Require Import App Animation Controls.

#[local] Open Scope num_scope.

Section Interleaving.
Context {R : Type} `{Number R} {G : Type}.
Implicit Types (s : State R G).

(** C21: when the colour mode changes [k] frames into an animation that
    started on a page where no other animation was running, the map at once
    shows the bands of the requested width for the new mode, and the
    following frames show the remaining steps of the animation for the new
    mode. *)
Theorem mode_change_during_animation (newWidth : R) (value : string) s k :
  idle s -> (k + 1 < steps)%nat ->
  let s' := state_of (select_change value (frames k (slider_input newWidth s))) in
  source_lonbands (map s')
  = Some (createLongitudeBands (counties s) newWidth value) /\
  forall j, (1 <= j)%nat -> (k + 1 + j <= steps)%nat ->
    source_lonbands (map (frames j s'))
    = Some (createLongitudeBands (counties s)
              (step_width (bandWidth s) newWidth (k + 1 + j)) value).
Proof.
  intros Hidle Hk.
  destruct (animation_step newWidth s k Hidle) as (_ & Hq & Hw & Hc & _);
    [lia|].
  destruct (select_change_spec value (frames k (slider_input newWidth s)))
    as (Hsrc & Hm' & Hc' & Hw' & _ & _ & Hq' & _).
  cbn zeta. rewrite Hsrc, Hw, Hc. split; [done|]. intros j Hj Hle.
  rewrite Hq in Hq'.
  destruct (frames_in_step _ [] _ (k + 1) j Hq' Hj Hle) as (_ & -> & _).
  unfold width_at, step_width. rewrite Hw', Hc', Hm', Hw, Hc.
  by rewrite decide_False by lia.
Qed.
End Interleaving.
