(* ===== verification/Popups.v ===== *)
(** * Popups: clicks on the map

    [showPopup] and the three click handlers (lines 150-193 of
    [src/script.js]), the cursor handlers (lines 134-146), and the one thing
    the widget does by itself: it removes a popup from the map, without
    telling the script, when the user presses the popup's close button or
    clicks on the map (popups close on a click unless created with
    [closeOnClick: false]).  [popup_closed] is that removal; it can come at
    any time, so a click is [popup_closed] for the open popup, if any,
    together with the script's own handlers. *)

From S2P Require Import Prelude JsNumber JsObject GeoJson Bands Paint MapLibre.
From S2P Require Import App.

(** [a || b] on strings that may be absent, the only values
    [GeoJson.RawFeature] gives a name: the empty string is falsy. *)
Definition or_string (a : option string) (b : option string) : option string :=
  match a with
  | Some s => if decide (s = "") then b else Some s
  | None => b
  end.

Section Popups.
Context {R : Type} `{Number R} {G : Type}.
Implicit Types (s : State R G) (lngLat : R * R).

(** [function showPopup(lngLat, html)] *)
Definition showPopup lngLat (html : PopupContent R) s : State R G :=
  let m := match activePopup s with
           | Some p => removePopup (map s) p
           | None => map s
           end in
  let p := Build_Popup (popup_count s) lngLat html in
  with_activePopup (with_map s (addPopup m p)) (Some p) (S (popup_count s)).

(** [map.on("click", "county-fill", ...)]: [p] is the [properties] of the
    first feature under the pointer. *)
Definition county_click lngLat (p : Properties R) s : State R G :=
  let name :=
    default "Unnamed County"
      (or_string (or_string (NAME p) (County p)) (Some "Unnamed County")) in
  showPopup lngLat
    (CountyPopup name (area_sq_miles p) (population p) (density p)) s.

(** [map.on("click", "lonband-fill", ...)] *)
Definition band_click lngLat (p : BandProperties R) s : State R G :=
  showPopup lngLat
    (BandPopup (bandStart p) (bandEnd p) (colorMode s) (avg_value p)) s.

(** [map.on("click", ...)]: [hit] says whether [queryRenderedFeatures] found
    a feature of one of the two fill layers under the pointer. *)
Definition map_click (hit : bool) s : State R G :=
  match activePopup s with
  | Some p =>
      if hit then s
      else with_activePopup (with_map s (removePopup (map s) p)) None
             (popup_count s)
  | None => s
  end.

(** The widget removes popup [p] by itself. *)
Definition popup_closed (p : Popup R (PopupContent R)) s : State R G :=
  with_map s (removePopup (map s) p).

(** [map.on("mouseenter", layer, ...)] and [map.on("mouseleave", ...)] *)
Definition mouse_enter s : State R G := with_map s (setCursor (map s) "pointer").
Definition mouse_leave s : State R G := with_map s (setCursor (map s) "").

(** *** What the handlers of this file leave alone *)

Lemma showPopup_same_page lngLat html s : same_page s (showPopup lngLat html s).
Proof. unfold showPopup, same_page. by case_match. Qed.

Lemma map_click_same_page hit s : same_page s (map_click hit s).
Proof. unfold map_click, same_page. by repeat case_match. Qed.

Lemma popup_closed_same_page p s : same_page s (popup_closed p s).
Proof. done. Qed.

Lemma mouse_enter_same_page s : same_page s (mouse_enter s).
Proof. done. Qed.

Lemma mouse_leave_same_page s : same_page s (mouse_leave s).
Proof. done. Qed.
End Popups.
