(* ===== verification/Load.v ===== *)
(** * Load: the state of the page once the map has loaded

    The [load] handler of [src/script.js] up to where it registers the other
    handlers: it derives the properties of the counties (lines 30-39; the
    body of that loop is the parameter [derive], which [Preprocess.derive]
    implements), gives the map its two sources and four layers (lines
    102-131), and writes the first legend (line 227).  The top-level
    variables have the values of lines 19-23. *)

From S2P Require Import Prelude JsNumber JsObject GeoJson Bands Paint MapLibre.
From S2P Require Import App Controls.

Section Load.
Context {R : Type} `{Number R} {G : Type}.
Context (derive : RawFeature G R -> Feature G R).

(** [let bandWidth = 2] and [let colorMode = "area"] *)
Definition initial_bandWidth : R := num_of_Z 2.
Definition initial_colorMode : string := "area".

Definition county_fill : Layer :=
  {| layer_type := "fill"; layer_source := "counties";
     layer_paint := [("fill-color", paint_of countyPaints initial_colorMode);
                     ("fill-opacity", PNumber 7 1)];
     layer_visibility := "visible" |}.

Definition county_borders : Layer :=
  {| layer_type := "line"; layer_source := "counties";
     layer_paint := [("line-color", PColor "#333");
                     ("line-width", PNumber 4 1)];
     layer_visibility := "visible" |}.

Definition lonband_fill : Layer :=
  {| layer_type := "fill"; layer_source := "lonbands";
     layer_paint := [("fill-color", paint_of bandPaints initial_colorMode);
                     ("fill-opacity", PNumber 6 1)];
     layer_visibility := "none" |}.

Definition lonband_borders : Layer :=
  {| layer_type := "line"; layer_source := "lonbands";
     layer_paint := [("line-color", PColor "#ff6600");
                     ("line-width", PNumber 15 1);
                     ("line-dasharray", PArray [2; 2]%Z)];
     layer_visibility := "none" |}.

(** The map after the [addSource] and [addLayer] calls. *)
Definition loaded_map (counties : FeatureCollection (Feature G R))
    (bands : FeatureCollection (BandFeature R))
  : MapState R G (PopupContent R) :=
  let m := addSource_counties new_map counties in
  let m := addLayer m "county-fill" county_fill in
  let m := addLayer m "county-borders" county_borders in
  let m := setData_lonbands m bands in
  let m := addLayer m "lonband-fill" lonband_fill in
  addLayer m "lonband-borders" lonband_borders.

(** [map.on("load", ...)]: [raw] is the parsed [countypops.geojson]. *)
Definition load (raw : FeatureCollection (RawFeature G R)) : State R G :=
  let counties := Build_FeatureCollection (derive <$> features raw) in
  let bandGeoJSON :=
    createLongitudeBands counties initial_bandWidth initial_colorMode in
  let s :=
    {| counties := counties;
       bandWidth := initial_bandWidth;
       colorMode := initial_colorMode;
       bandGeoJSON := bandGeoJSON;
       activePopup := None;
       mode := "county";
       map := loaded_map counties bandGeoJSON;
       btn_innerText := None;
       bandValue_textContent := None;
       legend_innerHTML := None;
       frame_callbacks := [];
       popup_count := 0 |} in
  state_of (updateLegend (colorMode s) (mode s) s).
End Load.
