(* ===== verification/Page.v ===== *)
(** * Page: the event loop

    After [load] the page only changes when the browser delivers an event to
    one of the script's handlers.  [handle] dispatches an event to its
    handler, [reachable] is the set of states the page can be in, and the
    invariants of this file hold in every one of them, whatever the user
    does and however the events interleave with the animation frames. *)

From S2P Require Import Prelude JsNumber JsObject GeoJson Bands Paint MapLibre.
From S2P Require Import App Animation Controls Popups Load.

Inductive Event (R : Type) : Type :=
  | ToggleClick
  | SelectChange (value : string)
  | SliderInput (newWidth : R)
  | AnimationFrame
  | CountyClick (lngLat : R * R) (p : Properties R)
  | BandClick (lngLat : R * R) (p : BandProperties R)
  | MapClick (hit : bool)
  | PopupClosed (p : Popup R (PopupContent R))
  | MouseEnter
  | MouseLeave.
Arguments ToggleClick {R}.
Arguments SelectChange {R} _.
Arguments SliderInput {R} _.
Arguments AnimationFrame {R}.
Arguments CountyClick {R} _ _.
Arguments BandClick {R} _ _.
Arguments MapClick {R} _.
Arguments PopupClosed {R} _.
Arguments MouseEnter {R}.
Arguments MouseLeave {R}.

Section Page.
Context {R : Type} `{Number R} {G : Type}.
Context (derive : RawFeature G R -> Feature G R).
Implicit Types (s : State R G) (e : Event R)
  (raw : FeatureCollection (RawFeature G R)).

Definition handle e s : State R G :=
  match e with
  | ToggleClick => state_of (toggle_click s)
  | SelectChange value => state_of (select_change value s)
  | SliderInput newWidth => slider_input newWidth s
  | AnimationFrame => frame s
  | CountyClick lngLat p => county_click lngLat p s
  | BandClick lngLat p => band_click lngLat p s
  | MapClick hit => map_click hit s
  | PopupClosed p => popup_closed p s
  | MouseEnter => mouse_enter s
  | MouseLeave => mouse_leave s
  end.

(** The states of the page for the input file [raw]. *)
Inductive reachable raw : State R G -> Prop :=
  | reachable_load : reachable raw (load derive raw)
  | reachable_handle s e : reachable raw s -> reachable raw (handle e s).

(** The state after a list of events, oldest first. *)
Definition run (es : list (Event R)) s : State R G :=
  fold_left (fun s e => handle e s) es s.

Lemma reachable_run raw es s : reachable raw s -> reachable raw (run es s).
Proof.
  revert s. induction es as [|e es IH]; intros s Hs; [done|].
  apply IH. by constructor.
Qed.

(** Proving an invariant: it holds after [load] and every handler keeps
    it. *)
Lemma invariant raw (P : State R G -> Prop) :
  P (load derive raw) -> (forall s e, P s -> P (handle e s)) ->
  forall s, reachable raw s -> P s.
Proof. intros Hload Hstep s Hs. induction Hs; auto. Qed.

(** ** What the handlers leave alone *)

(** The events of the pointer change the popups and the cursor only. *)
Lemma handle_pointer e s :
  match e with
  | CountyClick _ _ | BandClick _ _ | MapClick _ | PopupClosed _
  | MouseEnter | MouseLeave => same_page s (handle e s)
  | _ => True
  end.
Proof.
  destruct e; try done; simpl;
    first [apply showPopup_same_page | apply map_click_same_page
          | apply popup_closed_same_page | apply mouse_enter_same_page
          | apply mouse_leave_same_page].
Qed.

(** A field the handler of the event in the goal leaves alone, from the
    lemma of that handler. *)
Ltac footprint :=
  lazymatch goal with
  | |- context [handle (ToggleClick) ?s] =>
      first [apply (toggle_click_frame s) | apply (toggle_click_label s)]
  | |- context [handle (SelectChange ?v) ?s] =>
      first [apply (select_change_spec v s) | apply (select_change_label v s)]
  | |- context [handle (SliderInput ?w) ?s] =>
      first [apply (slider_input_frame w s) | apply (slider_input_dom w s)]
  | |- context [handle AnimationFrame ?s] =>
      first [apply (frame_frame s) | apply (frame_dom s)
            | apply (frame_label s)]
  | |- context [handle ?e ?s] => apply (handle_pointer e s)
  end.

Lemma handle_counties e s : counties (handle e s) = counties s.
Proof. destruct e; footprint. Qed.

(** ** The view and the paints

    The four layers are always the ones [load] added; their visibility
    follows [mode] and the two fill colours follow [colorMode]. *)

Definition visible_if (b : bool) : string := if b then "visible" else "none".

Definition layers_of (cm : string) (county_view : bool)
  : object string Layer :=
  [("county-fill",
    {| layer_type := "fill"; layer_source := "counties";
       layer_paint := [("fill-color", paint_of countyPaints cm);
                       ("fill-opacity", PNumber 7 1)];
       layer_visibility := visible_if county_view |});
   ("county-borders",
    {| layer_type := "line"; layer_source := "counties";
       layer_paint := [("line-color", PColor "#333");
                       ("line-width", PNumber 4 1)];
       layer_visibility := visible_if county_view |});
   ("lonband-fill",
    {| layer_type := "fill"; layer_source := "lonbands";
       layer_paint := [("fill-color", paint_of bandPaints cm);
                       ("fill-opacity", PNumber 6 1)];
       layer_visibility := visible_if (negb county_view) |});
   ("lonband-borders",
    {| layer_type := "line"; layer_source := "lonbands";
       layer_paint := [("line-color", PColor "#ff6600");
                       ("line-width", PNumber 15 1);
                       ("line-dasharray", PArray [2; 2]%Z)];
       layer_visibility := visible_if (negb county_view) |})].

Definition view_ok s : Prop :=
  (mode s = "county" \/ mode s = "band") /\
  layers (map s) = layers_of (colorMode s) (bool_decide (mode s = "county")).

Lemma view_ok_load raw : view_ok (load derive raw).
Proof. split; [by left | done]. Qed.

Lemma view_ok_ext s s' :
  mode s' = mode s -> colorMode s' = colorMode s ->
  layers (map s') = layers (map s) -> view_ok s -> view_ok s'.
Proof. unfold view_ok. by intros -> -> ->. Qed.

Lemma view_ok_handle e s : view_ok s -> view_ok (handle e s).
Proof.
  intros Hs. destruct e;
    try (apply (view_ok_ext s); [footprint..|done]);
    destruct Hs as [Hmode Hlayers]; unfold handle.
  - unfold toggle_click, setVisibility. rewrite state_of_updateLegend.
    destruct Hmode as [Hm | Hm]; rewrite Hm in *; simpl;
      rewrite Hlayers; simpl; case_match; by split; auto.
  - unfold select_change, setPaintProperty. rewrite state_of_updateLegend.
    simpl. rewrite Hlayers. simpl. case_match; by split.
Qed.

Lemma view_ok_reachable raw s : reachable raw s -> view_ok s.
Proof.
  apply invariant; [apply view_ok_load | intros; by apply view_ok_handle].
Qed.

(** The text of the button: the script writes it at every click, the name
    of the view the next click shows; until the first click it is the text
    of the page, and the view is the counties. *)
Definition button_text (mode : string) : string :=
  if decide (mode = "county") then "Switch to Longitude Bands"
  else "Switch to County Coloring".

Definition button_ok s : Prop :=
  match btn_innerText s with
  | None => mode s = "county"
  | Some text => text = button_text (mode s)
  end.

Lemma button_ok_ext s s' :
  mode s' = mode s -> btn_innerText s' = btn_innerText s ->
  button_ok s -> button_ok s'.
Proof. unfold button_ok. by intros -> ->. Qed.

Lemma button_ok_handle e s : button_ok s -> button_ok (handle e s).
Proof.
  intros Hs. destruct e;
    try (apply (button_ok_ext s); [footprint..|done]).
  unfold button_ok. cbn [handle].
  rewrite toggle_click_button, toggle_click_mode. unfold button_text.
  by repeat case_decide.
Qed.

Lemma button_ok_reachable raw s : reachable raw s -> button_ok s.
Proof.
  apply invariant; [done | intros; by apply button_ok_handle].
Qed.

(** C22: in every state of the page exactly one of the two views is shown,
    and it is the one [mode] names: the two county layers are visible and
    the two band layers hidden, or the other way round; and the button
    names the other view: "Switch to Longitude Bands" (or the text of the
    page, before the first click) over the counties, "Switch to County
    Coloring" over the bands. *)
Theorem one_view_visible raw s :
  reachable raw s ->
  let v id := visibility (map s) id in
  (mode s = "county" /\
   v "county-fill" = Some "visible" /\ v "county-borders" = Some "visible" /\
   v "lonband-fill" = Some "none" /\ v "lonband-borders" = Some "none" /\
   (btn_innerText s = None
    \/ btn_innerText s = Some "Switch to Longitude Bands")) \/
  (mode s = "band" /\
   v "county-fill" = Some "none" /\ v "county-borders" = Some "none" /\
   v "lonband-fill" = Some "visible" /\ v "lonband-borders" = Some "visible" /\
   btn_innerText s = Some "Switch to County Coloring").
Proof.
  intros Hs. pose proof (button_ok_reachable raw s Hs) as Hb.
  apply view_ok_reachable in Hs as [[Hm | Hm] Hl]; unfold visibility;
    unfold button_ok in Hb; rewrite Hl, Hm in *; [left | right];
    destruct (btn_innerText s); simplify_eq/=; split_and!; auto.
Qed.

(** C23: in every state of the page both fill layers are painted with the
    ramp of the current colour mode ([undefined] for a mode that has no
    ramp). *)
Theorem paints_follow_colorMode raw s :
  reachable raw s ->
  paint (map s) "county-fill" "fill-color"
  = Some (paint_of countyPaints (colorMode s)) /\
  paint (map s) "lonband-fill" "fill-color"
  = Some (paint_of bandPaints (colorMode s)).
Proof.
  intros [_ Hl]%view_ok_reachable. unfold paint. by rewrite Hl.
Qed.

(** ** Popups

    At most one popup is on the map, and it is the one [activePopup] holds. *)

Definition popups_ok s : Prop :=
  popups (map s) = [] \/
  exists p, activePopup s = Some p /\ popups (map s) = [p].

Lemma popups_ok_ext s s' :
  activePopup s' = activePopup s -> popups (map s') = popups (map s) ->
  popups_ok s -> popups_ok s'.
Proof. unfold popups_ok. by intros -> ->. Qed.

Lemma popups_removePopup s p :
  popups_ok s ->
  popups (removePopup (map s) p) = [] \/
  popups (removePopup (map s) p) = popups (map s).
Proof.
  intros [Hp | (q & _ & Hp)]; simpl; rewrite Hp; [by left|].
  rewrite filter_cons, filter_nil. case_decide; [by right | by left].
Qed.

Lemma popups_remove_active s p :
  popups_ok s -> activePopup s = Some p ->
  popups (removePopup (map s) p) = [].
Proof.
  intros [Hp | (q & Hq & Hp)] Ha; simpl; rewrite Hp; [done|].
  simplify_eq. rewrite filter_cons, filter_nil. by rewrite decide_False by auto.
Qed.

(** [showPopup] leaves its new popup alone on the map. *)
Lemma popups_showPopup lngLat html s :
  popups_ok s ->
  popups (map (showPopup lngLat html s))
  = [Build_Popup (popup_count s) lngLat html].
Proof.
  intros Hs. unfold showPopup.
  destruct (activePopup s) as [p|] eqn:Ha; simpl.
  - pose proof (popups_remove_active s p Hs Ha) as Hr. simpl in Hr.
    by rewrite Hr.
  - destruct Hs as [-> | (q & ? & _)]; [done | congruence].
Qed.

Lemma popups_ok_showPopup lngLat html s :
  popups_ok s -> popups_ok (showPopup lngLat html s).
Proof.
  intros Hs. right. eexists. split; [done|]. by apply popups_showPopup.
Qed.

Lemma popups_ok_handle e s : popups_ok s -> popups_ok (handle e s).
Proof.
  intros Hs. destruct e;
    try (apply (popups_ok_ext s); [footprint..|done]);
    try (by apply (popups_ok_ext s)).
  - by apply popups_ok_showPopup.
  - by apply popups_ok_showPopup.
  - unfold handle, map_click. destruct (activePopup s) as [p|] eqn:Ha; [|done].
    destruct hit; [done|]. left.
    apply (popups_remove_active s p Hs Ha).
  - unfold handle, popup_closed.
    destruct (popups_removePopup s p Hs) as [Hr | Hr]; [by left|].
    apply (popups_ok_ext s); [done | exact Hr | done].
Qed.

Lemma popups_ok_reachable raw s : reachable raw s -> popups_ok s.
Proof.
  apply invariant; [by left | intros; by apply popups_ok_handle].
Qed.

(** C24: in every state of the page at most one popup is on the map, and
    a popup that is on the map is the one [activePopup] holds. *)
Theorem at_most_one_popup raw s :
  reachable raw s ->
  (length (popups (map s)) <= 1)%nat /\
  forall p, p ∈ popups (map s) -> activePopup s = Some p.
Proof.
  intros [-> | (p & Ha & ->)]%popups_ok_reachable; simpl.
  - split; [lia|]. by intros p ?%elem_of_nil.
  - split; [lia|]. by intros q ->%list_elem_of_singleton.
Qed.

(** ** The band source

    The counties are those of the input file for ever, and the [lonbands]
    source always holds the bands of all of them for one width and for the
    current colour mode. *)

Definition bands_ok raw s : Prop :=
  counties s = Build_FeatureCollection (derive <$> features raw) /\
  exists w, source_lonbands (map s)
            = Some (createLongitudeBands (counties s) w (colorMode s)).

Lemma bands_ok_ext raw s s' :
  counties s' = counties s -> colorMode s' = colorMode s ->
  source_lonbands (map s') = source_lonbands (map s) ->
  bands_ok raw s -> bands_ok raw s'.
Proof. unfold bands_ok. by intros -> -> ->. Qed.

Lemma bands_ok_handle raw e s : bands_ok raw s -> bands_ok raw (handle e s).
Proof.
  intros Hs. destruct e;
    try (apply (bands_ok_ext raw s); [footprint..|done]);
    destruct Hs as [Hc [w Hw]]; (split; [by rewrite handle_counties|]).
  - unfold handle.
    destruct (select_change_spec value s) as (Hsrc & -> & -> & _).
    eexists. exact Hsrc.
  - unfold handle, slider_input. rewrite animateStep_live
      by (unfold live, steps; simpl; lia). by eexists.
  - unfold handle. rewrite source_lonbands_frame.
    destruct (frame_frame s) as (-> & _ & -> & _).
    case_match; [by eexists | by exists w].
Qed.

Lemma bands_ok_invariant raw s : reachable raw s -> bands_ok raw s.
Proof.
  apply invariant; [|intros; by apply bands_ok_handle].
  split; [done|]. by eexists.
Qed.

(** C17: in every state of the page the counties are the derived counties
    of the input file, and the [lonbands] source holds the aggregation of
    all of them for a single width and for the current colour mode: no
    source mixes two widths or two metrics. *)
Theorem bands_ok_reachable raw s : reachable raw s -> bands_ok raw s.
Proof. apply bands_ok_invariant. Qed.

(** ** The animation callbacks *)

Definition callbacks_ok s : Prop :=
  Forall (fun a => 1 <= currentStep a <= steps)%nat (frame_callbacks s).

Lemma callbacks_ok_handle e s : callbacks_ok s -> callbacks_ok (handle e s).
Proof.
  unfold callbacks_ok. intros Hs. destruct e;
    try (replace (frame_callbacks (handle _ s)) with (frame_callbacks s)
           by (symmetry; footprint); done).
  - unfold handle, slider_input. rewrite animateStep_live
      by (unfold live, steps; simpl; lia).
    simpl. apply Forall_app. split; [done|].
    apply Forall_singleton. unfold steps. simpl. lia.
  - unfold handle. rewrite frame_callbacks_frame. unfold advance.
    apply Forall_fmap, Forall_forall.
    intros a [Hl _]%list_elem_of_filter. unfold live in Hl. simpl. lia.
Qed.

Lemma callbacks_ok_reachable raw s : reachable raw s -> callbacks_ok s.
Proof.
  apply invariant; [apply Forall_nil_2 | intros; by apply callbacks_ok_handle].
Qed.

(** C18: from every state of the page, [steps] frames without another
    event end all the animations: no callback is waiting any more. *)
Theorem reachable_settles raw s : reachable raw s -> idle (frames steps s).
Proof.
  intros Hs%callbacks_ok_reachable. apply frames_steps_idle.
  eapply Forall_impl; [exact Hs|]. simpl. lia.
Qed.

(** ** The label of the slider

    The label shows the width the script holds in [bandWidth]: the slider
    handler writes both, and no other handler writes either.  Before the
    first slider event the label is the text of the page and [bandWidth] is
    2. *)

Definition label_ok s : Prop :=
  bandWidth s = default initial_bandWidth (bandValue_textContent s).

Lemma label_ok_ext s s' :
  bandValue_textContent s' = bandValue_textContent s ->
  bandWidth s' = bandWidth s -> label_ok s -> label_ok s'.
Proof. unfold label_ok. by intros -> ->. Qed.

Lemma label_ok_handle e s : label_ok s -> label_ok (handle e s).
Proof.
  intros Hs. destruct e;
    try (apply (label_ok_ext s); [footprint..|done]).
  unfold label_ok. cbn [handle].
  by destruct (slider_input_label newWidth s) as [-> ->].
Qed.

Lemma label_ok_reachable raw s : reachable raw s -> label_ok s.
Proof.
  apply invariant; [done | intros; by apply label_ok_handle].
Qed.

(** C25: in every state of the page the label of the slider shows the width
    the script holds in [bandWidth]: the last width the slider asked for,
    or, when the slider was never moved, no text of the script and the
    width 2. *)
Theorem label_shows_bandWidth raw s :
  reachable raw s ->
  bandWidth s = default initial_bandWidth (bandValue_textContent s).
Proof. apply label_ok_reachable. Qed.

(** ** The legend

    Whenever the legend of the current colour mode and view can be built, it
    is the one the page shows. *)

Definition legend_ok s : Prop :=
  forall l, legend_of (colorMode s) (mode s) = Some l ->
    legend_innerHTML s = Some l.

Lemma legend_ok_ext s s' :
  colorMode s' = colorMode s -> mode s' = mode s ->
  legend_innerHTML s' = legend_innerHTML s -> legend_ok s -> legend_ok s'.
Proof. unfold legend_ok. by intros -> -> ->. Qed.

Lemma legend_ok_updateLegend s :
  legend_ok (state_of (updateLegend (colorMode s) (mode s) s)).
Proof.
  rewrite state_of_updateLegend. intros l.
  destruct (legend_of (colorMode s) (mode s)) eqn:E; simpl.
  - by rewrite E.
  - by rewrite E.
Qed.

Lemma legend_ok_handle e s : legend_ok s -> legend_ok (handle e s).
Proof.
  intros Hs. destruct e;
    try (apply (legend_ok_ext s); [footprint..|done]);
    apply legend_ok_updateLegend.
Qed.

Lemma legend_ok_reachable_aux raw s : reachable raw s -> legend_ok s.
Proof.
  apply invariant; [apply legend_ok_updateLegend | intros; by apply legend_ok_handle].
Qed.

(** C26: in every state of the page, whenever the legend of the current
    colour mode and view can be built, it is the legend the page shows. *)
Theorem legend_ok_reachable raw s l :
  reachable raw s -> legend_of (colorMode s) (mode s) = Some l ->
  legend_innerHTML s = Some l.
Proof. intros Hs. apply (legend_ok_reachable_aux raw s Hs). Qed.

(** C40: a click on a county leaves exactly one popup on the map, the new
    one, at the place of the click; it shows the county's name, or its
    [County] property when the name is missing or empty, or "Unnamed
    County", with the area, the population and the density. *)
Theorem county_click_popup raw s lngLat p :
  reachable raw s ->
  let s' := handle (CountyClick lngLat p) s in
  exists q, popups (map s') = [q] /\ activePopup s' = Some q /\
    popup_lngLat q = lngLat /\
    popup_html q
    = CountyPopup
        (match NAME p, County p with
         | Some n, c => if decide (n = "") then
                          match c with
                          | Some c => if decide (c = "") then "Unnamed County"
                                      else c
                          | None => "Unnamed County"
                          end
                        else n
         | None, Some c => if decide (c = "") then "Unnamed County" else c
         | None, None => "Unnamed County"
         end)
        (area_sq_miles p) (population p) (density p).
Proof.
  intros Hs%popups_ok_reachable. cbn zeta. unfold handle, county_click.
  eexists. split_and!; [by apply popups_showPopup | done..|].
  simpl. f_equal. unfold or_string.
  by destruct (NAME p), (County p); repeat case_decide.
Qed.

(** A click on a band leaves exactly one popup on the map, the new
    one, at the position of the click, with the start, the end and the
    average of the band and the colour mode of the moment of the click. *)
Theorem band_click_popup raw s lngLat (p : BandProperties R) :
  reachable raw s ->
  let s' := handle (BandClick lngLat p) s in
  exists q,
    popups (map s') = [q] /\ activePopup s' = Some q /\
    popup_lngLat q = lngLat /\
    popup_html q
    = BandPopup (bandStart p) (bandEnd p) (colorMode s) (avg_value p).
Proof.
  intros Hs%popups_ok_reachable. cbn zeta. unfold handle, band_click.
  eexists. split_and!; [by apply popups_showPopup | done..].
Qed.

(** A click on the map that hits no county and no band leaves no
    popup on the map and none in [activePopup]; a click that hits one
    changes nothing by itself. *)
Theorem map_click_closes raw s :
  reachable raw s ->
  popups (map (handle (MapClick false) s)) = [] /\
  activePopup (handle (MapClick false) s) = None /\
  handle (MapClick true) s = s.
Proof.
  intros Hs%popups_ok_reachable. unfold handle, map_click.
  destruct (activePopup s) as [a|] eqn:Ha; split_and!; try done.
  - apply (popups_remove_active s a Hs Ha).
  - destruct Hs as [Hp | (q & ? & _)]; [done | congruence].
Qed.

(** Two clicks on the toggle button bring back the view, the layers
    and the legend the page had. *)
Theorem toggle_twice raw s :
  reachable raw s ->
  let s' := handle ToggleClick (handle ToggleClick s) in
  mode s' = mode s /\ layers (map s') = layers (map s) /\
  (is_Some (legend_of (colorMode s) (mode s)) ->
   legend_innerHTML s' = legend_innerHTML s).
Proof.
  intros Hs. pose proof (reachable_handle _ _ ToggleClick
    (reachable_handle _ _ ToggleClick Hs)) as Hs'.
  destruct (view_ok_reachable _ _ Hs) as [Hm Hl].
  destruct (view_ok_reachable _ _ Hs') as [_ Hl'].
  pose proof (legend_ok_handle ToggleClick _ (legend_ok_handle ToggleClick _
    (legend_ok_reachable_aux _ _ Hs))) as Hleg'.
  pose proof (legend_ok_reachable_aux _ _ Hs) as Hleg.
  cbn zeta. rewrite Hl, Hl'. unfold legend_ok in *.
  assert (Hmode : mode (handle ToggleClick (handle ToggleClick s)) = mode s
          /\ colorMode (handle ToggleClick (handle ToggleClick s))
             = colorMode s).
  { cbn [handle]. rewrite !toggle_click_mode.
    destruct (toggle_click_frame s) as (_ & _ & Hc1 & _).
    destruct (toggle_click_frame (state_of (toggle_click s)))
      as (_ & _ & Hc2 & _).
    split; [|by rewrite Hc2, Hc1]. by destruct Hm as [Hm | Hm]; rewrite Hm. }
  destruct Hmode as [Hmode Hcm]. rewrite Hmode, Hcm in *.
  split_and!; [done..|]. intros [l Hl0].
  by rewrite (Hleg' l Hl0), (Hleg l Hl0).
Qed.
End Page.
