(* ===== verification/PageBinary64.v ===== *)
(** * PageBinary64: what the band layer is given, in binary64

    The invariant of [Page] on the band source, joined with the analysis of
    the average in [Binary64Avg]: however the user drives the page, the
    colour of a band is computed from a number, and a county with an
    infinite value makes that number [+Infinity]. *)

From Stdlib Require Import Floats.
From S2P Require Import Prelude JsNumber JsObject GeoJson Bands Paint MapLibre.
From S2P Require Import App Animation Controls Popups Load Page Binary64Avg.

#[local] Open Scope Z_scope.

Section PageBinary64.
Context {G : Type} (derive : RawFeature G float -> Feature G float).

(** C14: in every state of the page, for an input file of fewer than
    [2^32] counties, every band of the band source has an [avg_value] that
    is not NaN and not below zero, whatever the preprocessing stored in the
    counties and whatever widths the animation went through. *)
Theorem page_avg_drawable raw (s : State float G) fc b :
  Z.of_nat (length (features raw)) < 2 ^ 32 ->
  reachable derive raw s ->
  source_lonbands (map s) = Some fc -> b ∈ features fc ->
  is_nan (avg_value (band_properties b)) = false /\
  (avg_value (band_properties b) <? 0)%float = false.
Proof.
  intros Hlen [Hc [w Hsrc]]%bands_ok_invariant Hfc Hb.
  rewrite Hsrc in Hfc. simplify_eq.
  apply nonneg_spec, (band_avg_nonneg (counties s) w (colorMode s)); [|done].
  rewrite Hc. simpl. by rewrite length_fmap.
Qed.
(** C15: in every state of the page, for an input file of fewer than
    [2^32] counties, a county that the preprocessing gave [+Infinity] for
    the metric on display has a band in the band source, and the
    [avg_value] of that band is [+Infinity], whatever the width the bands
    were last built with. *)
Theorem page_avg_infinity raw (s : State float G) fc f :
  Z.of_nat (length (features raw)) < 2 ^ 32 ->
  reachable derive raw s ->
  source_lonbands (map s) = Some fc ->
  f ∈ features raw ->
  metric (colorMode s) (properties (derive f)) = infinity ->
  exists b w, b ∈ features fc /\
    bandStart (band_properties b) = band_key w (derive f) /\
    avg_value (band_properties b) = infinity.
Proof.
  intros Hlen [Hc [w Hsrc]]%bands_ok_invariant Hfc Hf Hv.
  rewrite Hsrc in Hfc. simplify_eq.
  assert (Hin : derive f ∈ features (counties s))
    by (rewrite Hc; by apply list_elem_of_fmap_2).
  destruct (county_in_one_band (counties s) w (colorMode s) _ Hin)
    as (b & Hb & Hk & _).
  exists b, w. split_and!; [done..|].
  apply createLongitudeBands_band in Hb as [_ ->].
  eapply band_of_avg_infinity; [|done..].
  rewrite Hc. simpl. by rewrite length_fmap.
Qed.
End PageBinary64.
