(* ===== verification/PageText.v ===== *)
(** * PageText: the text the page shows

    The script writes three pieces of text: the html of the legend
    ([updateLegend], lines 215-224 of [src/script.js]), the html of a popup
    (lines 162-168 and 176-180) and the label of the slider (line 259).
    The state of [App] keeps what these texts are made from; this file
    renders them, character by character as the template strings do.
    The numbers in them are printed by the runtime: [toFixed], modelled in
    [NumberString], and [toLocaleString], which depends on the locale and
    on the internationalisation library of the browser and is a parameter
    ([NumberFormat]). *)

From Stdlib Require Import Ascii String Floats.
From stdpp Require Import strings.
From S2P Require Import Prelude JsNumber JsObject GeoJson Bands Paint MapLibre.
From S2P Require Import App Controls Popups Load Page Preprocess NumberString.

#[local] Open Scope string_scope.

(** How the runtime prints a number. *)
Class NumberFormat (R : Type) : Type := {
  (** [x.toLocaleString()], and
      [x.toLocaleString(undefined, { maximumFractionDigits: d })] for
      [Some d] *)
  toLocaleString : option nat -> R -> string;
  (** [x.toFixed(d)] *)
  num_toFixed : nat -> R -> string;
}.

(** The double quote and the line feed. *)
Definition quote : string := String (ascii_of_nat 34) EmptyString.
Definition newline : string := String (ascii_of_nat 10) EmptyString.

(** [toUpperCase] on one character (on the letters of ASCII). *)
Definition toUpperCase (c : ascii) : ascii :=
  let n := N_of_ascii c in
  if ((97 <=? n) && (n <=? 122))%N then ascii_of_N (n - 32) else c.

(** [s.charAt(0).toUpperCase() + s.slice(1)] *)
Definition capitalize (s : string) : string :=
  match s with
  | EmptyString => EmptyString
  | String c s' => String (toUpperCase c) s'
  end.

Section Html.
Context {R : Type} `{Number R} `{NumberFormat R} {G : Type}.

(** ** The legend *)

(** The title: the first template string of [updateLegend]. *)
Definition legend_title (colorMode : string) : string :=
  "<div class=" ++ quote ++ "legend-title" ++ quote ++ ">Color by "
  ++ capitalize colorMode ++ "</div>".

(** One row: the template string of the [forEach]; a colour that is
    [undefined] prints as that word. *)
Definition legend_row (color : option string) (v : Z) : string :=
  "<div><span class=" ++ quote ++ "legend-color" ++ quote ++ " style="
  ++ quote ++ "background:" ++ default "undefined" color ++ quote
  ++ "></span>" ++ toLocaleString None (num_of_Z v) ++ "</div>".

Definition legend_note_html : string :=
  "<div class=" ++ quote ++ "legend-note" ++ quote
  ++ ">Note: Longitude bands show <strong>average county population</strong>,"
  ++ " not population density.</div>".

(** [legendDiv.innerHTML] *)
Definition legend_html (l : Legend) : string :=
  let html := legend_title (legend_mode l) in
  let html :=
    fold_left (fun html '(c, v) => html ++ legend_row c v) (legend_rows l)
      html in
  if legend_note l then html ++ legend_note_html else html.

(** ** The popups *)

(** The template string of the county click. *)
Definition county_html (name : string) (area population density : R)
  : string :=
  newline ++ "      <strong>" ++ name ++ "</strong><br>"
  ++ newline ++ "      Area: " ++ toLocaleString None area ++ " sq mi<br>"
  ++ newline ++ "      Population: " ++ toLocaleString None population
  ++ "<br>"
  ++ newline ++ "      Density: " ++ toLocaleString None density
  ++ " /sq mi"
  ++ newline ++ "    ".

(** The template string of the band click. *)
Definition band_html (start stop : R) (colorMode : string) (avg : R)
  : string :=
  newline ++ "      <strong>Longitude Band</strong><br>"
  ++ newline ++ "      " ++ num_toFixed 1 start ++ "° to "
  ++ num_toFixed 1 stop ++ "° W<br>"
  ++ newline ++ "      Average " ++ colorMode ++ ": "
  ++ toLocaleString (Some 1%nat) avg
  ++ newline ++ "    ".

(** The argument of [setHTML] *)
Definition html_of (c : PopupContent R) : string :=
  match c with
  | CountyPopup name area population density =>
      county_html name area population density
  | BandPopup start stop colorMode avg => band_html start stop colorMode avg
  end.

(** ** What the page shows *)

(** [legendDiv.innerHTML], the html of the popups on the map and
    [bandValueDisplay.textContent]; [None] is the text of the page as it
    was served. *)
Definition legend_text (s : State R G) : option string :=
  legend_html <$> legend_innerHTML s.

Definition popup_texts (s : State R G) : list string :=
  (fun p => html_of (popup_html p)) <$> popups (map s).

Definition bandValue_text (s : State R G) : option string :=
  num_toFixed 1 <$> bandValue_textContent s.
End Html.

(** ** Binary64 *)

(** The format of binary64 numbers for a locale: [toFixed] is the one of
    [NumberString]; [locale] is [toLocaleString] and [ToString] is
    [Number::toString], which [toFixed] uses from [10^21] on. *)
Definition binary64_format (locale : option nat -> float -> string)
    (ToString : float -> string) : NumberFormat float :=
  {| toLocaleString := locale; num_toFixed := toFixed ToString |}.

(** ** Properties *)

Lemma string_app_nil_r (s : string) : s ++ EmptyString = s.
Proof.
  induction s as [|c s IH]; [done|].
  change (String c (s ++ EmptyString) = String c s). by rewrite IH.
Qed.

Lemma string_app_assoc (s1 s2 s3 : string) :
  (s1 ++ s2) ++ s3 = s1 ++ s2 ++ s3.
Proof.
  induction s1 as [|c s1 IH]; [done|].
  change (String c ((s1 ++ s2) ++ s3) = String c (s1 ++ s2 ++ s3)).
  by rewrite IH.
Qed.

Lemma bool_decide_eq_iff (P Q : Prop) `{Decision P, Decision Q} :
  bool_decide P = bool_decide Q -> P <-> Q.
Proof.
  intros Heq. split; intros HP.
  - eapply bool_decide_eq_true_1. rewrite <- Heq. by apply bool_decide_eq_true_2.
  - eapply bool_decide_eq_true_1. rewrite Heq. by apply bool_decide_eq_true_2.
Qed.

Example capitalize_modes :
  capitalize <$> color_modes = ["Area"; "Population"; "Density"].
Proof. reflexivity. Qed.

Section Legend.
Context {R : Type} `{Number R} `{NumberFormat R}.

(** The legend of a colour mode, with or without the note. *)
Definition legend_with (colorMode : string) (note : bool) : Legend :=
  {| legend_mode := colorMode;
     legend_rows :=
       legend_rows_of (default [] (get legendStops colorMode))
         (default [] (get legendColors colorMode));
     legend_note := note |}.

(** The legends [updateLegend] can build: one per colour mode, and one
    more with the note for the population. *)
Lemma legend_of_shape (colorMode viewMode : string) (l : Legend) :
  legend_of colorMode viewMode = Some l ->
  colorMode ∈ color_modes /\
  exists note, l = legend_with colorMode note
               /\ (note = true -> colorMode = "population").
Proof.
  intros Hl. destruct (decide (colorMode ∈ color_modes)) as [Hc|Hc];
    [|by rewrite legend_of_unknown in Hl].
  split; [done|]. exists (legend_note l).
  repeat (apply elem_of_cons in Hc as [-> | Hc]); [..|by apply elem_of_nil in Hc];
    injection Hl as <-; (split; [done|]); simpl; by intros ?.
Qed.

Lemma legend_of_fields (colorMode viewMode : string) (l : Legend) :
  legend_of colorMode viewMode = Some l ->
  legend_mode l = colorMode /\
  legend_note l = bool_decide (colorMode = "population" /\ viewMode = "band").
Proof.
  unfold legend_of. intros Hl.
  destruct (get legendStops colorMode) as [stops|]; [|done].
  by destruct (get legendColors colorMode), stops; simplify_eq.
Qed.

Lemma legend_html_note (colorMode : string) :
  legend_html (legend_with colorMode true)
  = legend_html (legend_with colorMode false) ++ legend_note_html.
Proof. done. Qed.

Lemma app_note_neq (html : string) : html ++ legend_note_html <> html.
Proof.
  intros Heq. rewrite <- (string_app_nil_r html) in Heq at 2.
  by apply String.app_inj in Heq.
Qed.

(** Two legends that print alike are the same legend: the title tells the
    colour mode and the note tells the view. *)
Lemma legend_html_with_inj (c1 c2 : string) (n1 n2 : bool) :
  c1 ∈ color_modes -> c2 ∈ color_modes ->
  (n1 = true -> c1 = "population") -> (n2 = true -> c2 = "population") ->
  legend_html (legend_with c1 n1) = legend_html (legend_with c2 n2) ->
  c1 = c2 /\ n1 = n2.
Proof.
  intros Hc1 Hc2 Hn1 Hn2.
  repeat (apply elem_of_cons in Hc1 as [-> | Hc1]);
    [..|by apply elem_of_nil in Hc1];
    repeat (apply elem_of_cons in Hc2 as [-> | Hc2]);
    try (by apply elem_of_nil in Hc2);
    destruct n1; try (by specialize (Hn1 eq_refl));
    destruct n2; try (by specialize (Hn2 eq_refl));
    rewrite ?legend_html_note;
    first [done | by intros ?%app_note_neq | by intros ?%eq_sym%app_note_neq
          | cbn; discriminate].
Qed.

Lemma legend_html_inj (c1 v1 c2 v2 : string) (l1 l2 : Legend) :
  legend_of c1 v1 = Some l1 -> legend_of c2 v2 = Some l2 ->
  legend_html l1 = legend_html l2 -> l1 = l2.
Proof.
  intros (Hc1 & n1 & -> & Hn1)%legend_of_shape
         (Hc2 & n2 & -> & Hn2)%legend_of_shape Heq.
  by destruct (legend_html_with_inj c1 c2 n1 n2) as [-> ->].
Qed.
End Legend.

(** A name goes into the html of a popup as it is in the file: markup in
    it is markup of the page. *)
Example county_html_markup `{NumberFormat R} (area population density : R) :
  county_html "<img src=x onerror=alert(1)>" area population density
  = newline ++ "      <strong><img src=x onerror=alert(1)></strong><br>"
    ++ newline ++ "      Area: " ++ toLocaleString None area ++ " sq mi<br>"
    ++ newline ++ "      Population: " ++ toLocaleString None population
    ++ "<br>"
    ++ newline ++ "      Density: " ++ toLocaleString None density
    ++ " /sq mi" ++ newline ++ "    ".
Proof. reflexivity. Qed.

(** ** The legend of the page *)

Section Page.
Context {R : Type} `{Number R} `{NumberFormat R} {G : Type}.
Context (derive : RawFeature G R -> Feature G R).
Implicit Types (s : State R G).

(** In a state whose colour mode is one of the three, the legend on the
    page is the html of that mode and view. *)
Lemma legend_text_reachable raw s :
  reachable derive raw s -> colorMode s ∈ color_modes ->
  exists l, legend_of (colorMode s) (mode s) = Some l
            /\ legend_text s = Some (legend_html l).
Proof.
  intros Hs [l Hl]%(legend_of_known _ (mode s)). exists l. split; [done|].
  unfold legend_text. by rewrite (legend_ok_reachable_aux derive raw s Hs l Hl).
Qed.

(** The label of the slider reads the width the script holds, with one
    decimal. *)
Lemma label_text_reachable raw s :
  reachable derive raw s ->
  bandValue_text s = None
  \/ bandValue_text s = Some (num_toFixed 1 (bandWidth s)).
Proof.
  intros Hs%label_ok_reachable. unfold label_ok, bandValue_text in *.
  destruct (bandValue_textContent s) as [w|]; [right|by left].
  by rewrite Hs.
Qed.

(** C27: the legend tells what the map shows.  Two states of the page whose
    colour modes are among the three and whose legends read the same have
    the same colour mode, and when that is the population they show the
    same view: no two legends the script can build print alike. *)
Theorem legend_tells_state raw1 raw2 s1 s2 :
  reachable derive raw1 s1 -> reachable derive raw2 s2 ->
  colorMode s1 ∈ color_modes -> colorMode s2 ∈ color_modes ->
  legend_text s1 = legend_text s2 ->
  colorMode s1 = colorMode s2 /\
  (colorMode s1 = "population" -> mode s1 = "band" <-> mode s2 = "band").
Proof.
  intros Hr1 Hr2 Hc1 Hc2.
  destruct (legend_text_reachable raw1 s1 Hr1 Hc1) as (l1 & Hl1 & ->).
  destruct (legend_text_reachable raw2 s2 Hr2 Hc2) as (l2 & Hl2 & ->).
  intros [= Heq]. pose proof (legend_html_inj _ _ _ _ _ _ Hl1 Hl2 Heq) as <-.
  destruct (legend_of_fields _ _ _ Hl1) as [Hm1 Hn1].
  destruct (legend_of_fields _ _ _ Hl2) as [Hm2 Hn2].
  split; [congruence|]. intros Hp. rewrite Hn1, <- Hm2, Hm1, Hp in Hn2.
  apply bool_decide_eq_iff in Hn2. tauto.
Qed.
End Page.
