(* ===== verification/Lifecycle.v ===== *)
(** * Lifecycle: from the script's first statement to the running page

    The top level of [src/script.js] creates the map and its attribution
    control (lines 1-17) and registers the [load] handler (line 25).  That
    handler is asynchronous: it waits for the input file (line 26) and for
    its parsing (line 27) before it does anything else, and every other
    handler of the script is registered by it afterwards.  So the page goes
    through phases: until the handler has run to its end no event reaches
    the script, and when the file cannot be fetched or parsed, or the
    handler throws on what the file holds, the handler is over.  Once it has
    run, the page is the state machine of [Page].

    What the handler can throw on depends on the input file only up to line
    131 (a file without [features], a feature without [properties], a
    geometry the geometry library refuses): that is before the first
    handler is registered, so a failed load leaves a page without handlers.
    The elements of the page that lines 197-201 look up are taken to exist;
    a page without one of them would fail at line 229 or later, with the
    handlers of the map already registered, a case this relation does not
    have.

    The relation is a description of how the browser runs the handler, not
    a translation of statements of the script; the lemmas below link it to
    [Page.reachable]. *)

From stdpp Require Import relations.
From S2P Require Import Prelude JsNumber JsObject GeoJson Bands Paint MapLibre.
From S2P Require Import App Animation Controls Popups Load Page PageText.

(** ** The map and its attribution control *)

(** The options of [new maplibregl.Map]; a number is the decimal literal
    [m / 10^d]. *)
Record MapOptions : Type := {
  container : string;
  style : string;
  center : (Z * nat) * (Z * nat);
  zoom : Z;
  attributionControl : bool;
}.

Definition map_options : MapOptions :=
  {| container := "map";
     style := "https://basemaps.cartocdn.com/gl/positron-gl-style/style.json";
     center := ((-98, 0%nat), (385, 1%nat))%Z;
     zoom := 4%Z;
     attributionControl := false |}.

Record AttributionControl : Type := {
  compact : bool;
  customAttribution : string;
}.

(** [new maplibregl.AttributionControl({ compact: true, ... })]; the html
    is the concatenation of the two string literals. *)
Definition attribution : AttributionControl :=
  {| compact := true;
     customAttribution :=
       ("Map data © <a href=" ++ quote ++ "https://www.openstreetmap.org/"
        ++ quote ++ ">OpenStreetMap</a> contributors | ")
       ++ ("<a href=" ++ quote
           ++ "https://googlemapsmania.blogspot.com/2025/10/county-stripes.html"
           ++ quote ++ " target=" ++ quote ++ "_blank" ++ quote
           ++ ">About this map</a>") |}.

(** ** Phases *)

Section Lifecycle.
Context {R : Type} `{Number R} {G : Type}.
Context (derive : RawFeature G R -> Feature G R).

(** Where the [load] handler is. *)
Inductive Phase : Type :=
  (** the script has run, the map has not fired [load] *)
  | Booted
  (** the handler waits for [fetch] *)
  | Fetching
  (** the handler waits for [response.json()] *)
  | Parsing
  (** the handler has ended by a rejection or a throw *)
  | Failed
  (** the handler has run to its end *)
  | Running (s : State R G).

Record WebPage : Type := {
  page_options : MapOptions;
  page_controls : list AttributionControl;
  page_phase : Phase;
}.

Definition with_phase (pg : WebPage) (p : Phase) : WebPage :=
  {| page_options := page_options pg;
     page_controls := page_controls pg;
     page_phase := p |}.

(** The page after the top level of the script: [map.addControl] has added
    the attribution control. *)
Definition boot : WebPage :=
  {| page_options := map_options;
     page_controls := [attribution];
     page_phase := Booted |}.

(** An event of the user or of the browser: it reaches a handler only once
    the [load] handler has registered them. *)
Definition on_event (e : Event R) (p : Phase) : Phase :=
  match p with
  | Running s => Running (handle e s)
  | _ => p
  end.

(** What can happen next. *)
Inductive step : WebPage -> WebPage -> Prop :=
  (** the map fires [load]: the handler starts and calls [fetch] *)
  | step_load pg :
      page_phase pg = Booted -> step pg (with_phase pg Fetching)
  (** the response arrives *)
  | step_fetched pg :
      page_phase pg = Fetching -> step pg (with_phase pg Parsing)
  (** the request fails *)
  | step_fetch_rejected pg :
      page_phase pg = Fetching -> step pg (with_phase pg Failed)
  (** the body is not JSON, or the handler throws on it (no [features]
      array, a feature without [properties]) *)
  | step_parse_rejected pg :
      page_phase pg = Parsing -> step pg (with_phase pg Failed)
  (** the body is the collection [raw]: the rest of the handler runs *)
  | step_parsed pg raw :
      page_phase pg = Parsing ->
      step pg (with_phase pg (Running (load derive raw)))
  | step_event pg e : step pg (with_phase pg (on_event e (page_phase pg))).

Definition steps_from_boot (pg : WebPage) : Prop := rtc step boot pg.

(** ** What every step keeps *)

Lemma step_static pg pg' :
  step pg pg' ->
  page_options pg' = page_options pg /\ page_controls pg' = page_controls pg.
Proof. by destruct 1. Qed.

Lemma rtc_step_static pg pg' :
  rtc step pg pg' ->
  page_options pg' = page_options pg /\ page_controls pg' = page_controls pg.
Proof.
  induction 1 as [|pg1 pg2 pg3 Hs _ [-> ->]]; [done|]. by apply step_static.
Qed.

(** ** A failed load is final *)

Lemma step_failed pg pg' :
  step pg pg' -> page_phase pg = Failed -> page_phase pg' = Failed.
Proof. destruct 1; simpl; intros Hp; rewrite Hp in *; done. Qed.

(** ** The running page is the page of [Page] *)

Definition phase_ok (p : Phase) : Prop :=
  match p with
  | Running s => exists raw, reachable derive raw s
  | _ => True
  end.

Lemma step_phase_ok pg pg' :
  step pg pg' -> phase_ok (page_phase pg) -> phase_ok (page_phase pg').
Proof.
  destruct 1 as [| | | |pg raw _|pg e]; simpl; try done.
  - intros _. exists raw. constructor.
  - destruct (page_phase pg) as [| | | |s]; simpl; try done.
    intros [raw Hs]. exists raw. by constructor.
Qed.

Lemma rtc_step_phase_ok pg pg' :
  rtc step pg pg' -> phase_ok (page_phase pg) -> phase_ok (page_phase pg').
Proof. induction 1; eauto using step_phase_ok. Qed.

Lemma reachable_steps raw s :
  reachable derive raw s -> steps_from_boot (with_phase boot (Running s)).
Proof.
  unfold steps_from_boot. induction 1 as [|s e _ IH].
  - eapply rtc_l; [by apply step_load|].
    eapply rtc_l; [by apply step_fetched|].
    apply rtc_once. by apply (step_parsed (with_phase boot Parsing) raw).
  - eapply rtc_r; [exact IH|].
    apply (step_event (with_phase boot (Running s)) e).
Qed.

End Lifecycle.
