(* ===== verification/Scenario.v ===== *)
(** * Scenario: the page run on a small input file, in binary64

    The whole script on three counties: the preprocessing of
    [Preprocess], the first aggregation of [Load], then the handlers of
    [Page].  The geometry of a county is reduced to what the geometry library
    returns for it, its area in square metres and the longitude of its
    centroid.  Two of the counties have an area of zero; the file gives one
    population as text and one as text that is not a number, and
    [Number(...)] is [NumberString.StringToNumber]. *)

From Stdlib Require Import Floats.
From S2P Require Import Prelude JsNumber JsObject GeoJson Bands Paint MapLibre.
From S2P Require Import App Animation Preprocess NumberString Controls Popups.
From S2P Require Import Load Page PageText.

#[local] Set Warnings "-inexact-float".
#[local] Open Scope float_scope.

(** A geometry, as (area in square metres, centroid longitude). *)
#[export] Instance pair_turf : Turf (float * float) :=
  {| turf_area g := g.1; turf_centroid g := (g.2, 40) |}.

Definition pair_raw : FeatureCollection (RawFeature (float * float) float) :=
  Build_FeatureCollection
    [{| raw_geometry := (2.5e9, -99.4); raw_NAME := Some "A";
        raw_County := None; raw_Total_Population := Some (JStr "1000") |};
     {| raw_geometry := (0, -98.1); raw_NAME := None;
        raw_County := Some "B"; raw_Total_Population := Some (JStr "N/A") |};
     {| raw_geometry := (0, -97.9); raw_NAME := None;
        raw_County := None; raw_Total_Population := Some (JNum 5) |}].

Definition pair_derive : RawFeature (float * float) float
                         -> Feature (float * float) float :=
  derive StringToNumber.

Definition pair_page : State float (float * float) :=
  load pair_derive pair_raw.

(** What [Number(...)] makes of the text of a population. *)
Example populations_as_text :
  StringToNumber <$> ["1000"; " 42 "; ""; "N/A"; "1,234"; "1e3"; "0x1F";
                      "12 345"; "-7"; "3.5"; "."; "Infinity"]
  = [1000; 42; 0; nan; nan; 1000; 31; nan; -7; 3.5; nan; infinity].
Proof. vm_compute. reflexivity. Qed.

(** What [parseFloat] makes of the value of the slider, and what the label
    then shows. *)
Example slider_values (ToString : float -> string) :
  (fun v => (parseFloat v, toFixed ToString 1 (parseFloat v)))
    <$> ["0.5"; "2"; "2.5"; "10"; ""]
  = [(0.5, "0.5"); (2, "2.0"); (2.5, "2.5"); (10, "10.0"); (nan, "NaN")].
Proof. vm_compute. reflexivity. Qed.

(** The derived properties: area, centroid longitude, population,
    density. *)
Example pair_counties :
  (fun f => let p := properties f in
            (area_sq_miles p, centroid_lon p, population p, density p))
    <$> features (counties pair_page)
  = [(965.3, -99.4, 1000, 1.04); (0, -98.1, 0, nan); (0, -97.9, 5, infinity)].
Proof. vm_compute. reflexivity. Qed.

(** The bands the page shows after the load: the average area leaves the
    zero areas out. *)
Example pair_bands_area :
  (fun b => (bandStart (band_properties b), avg_value (band_properties b)))
    <$> default [] (features <$> source_lonbands (map pair_page))
  = [(-100, 965.3); (-98, 0)].
Proof. vm_compute. reflexivity. Qed.

(** The bands when the page is coloured by density: the infinite density
    of the third county makes the average of its band infinite, and the NaN
    of the second is left out. *)
Example pair_bands_density :
  let s := handle (SelectChange "density") pair_page in
  density <$> (properties <$> features (counties s)) = [1.04; nan; infinity] /\
  (fun b => (bandStart (band_properties b), avg_value (band_properties b)))
    <$> default [] (features <$> source_lonbands (map s))
  = [(-100, 1.04); (-98, infinity)].
Proof. vm_compute. done. Qed.

(** ** The texts of the page *)

Section Texts.
Context (locale : option nat -> float -> string) (ToString : float -> string).

#[local] Instance scenario_format : NumberFormat float :=
  binary64_format locale ToString.

(** The legend after the load, and after choosing the population and the
    bands. *)
Example pair_legends :
  legend_text pair_page = Some (legend_html (legend_with "area" false)) /\
  legend_text (run [SelectChange "population"; ToggleClick] pair_page)
  = Some (legend_html (legend_with "population" true)).
Proof. split; reflexivity. Qed.

(** The label of the slider after it was moved to 2.5. *)
Example pair_label :
  bandValue_text (handle (SliderInput (parseFloat "2.5")) pair_page)
  = Some "2.5".
Proof. vm_compute. reflexivity. Qed.

(** From 2 to 1 the animation ends with a band of width 0; a click on it
    opens a popup that reads NaN to NaN. *)
Example pair_nan_popup :
  let s := frames steps (slider_input 1 pair_page) in
  (fun b => popup_texts (handle (BandClick (0, 0) (band_properties b)) s))
    <$> default [] (features <$> source_lonbands (map s))
  = [[band_html nan nan "area" 965.3]].
Proof. vm_compute. reflexivity. Qed.

Example nan_band_html :
  band_html nan nan "area" 965.3
  = (newline ++ "      <strong>Longitude Band</strong><br>"
     ++ newline ++ "      NaN° to NaN° W<br>"
     ++ newline ++ "      Average area: " ++ locale (Some 1%nat) 965.3
     ++ newline ++ "    ")%string.
Proof. reflexivity. Qed.
End Texts.
