(* ===== verification/Witnesses.v ===== *)
(** * Witnesses: the theorems at concrete inputs

    Each theorem of the development that has hypotheses is applied here to a
    concrete input on which the hypotheses hold, so that none of them is
    true for lack of inputs.  The inputs are a page over the three counties
    of [Binary64.scenario], the page of [Scenario], whose input file goes
    through [Preprocess.derive], and the same counties over the rationals. *)

From Stdlib Require Import Floats QArith Lqa.
From S2P Require Import Prelude JsNumber JsObject GeoJson Bands BandsExact.
From stdpp Require Import relations.
From S2P Require Import Paint MapLibre App Animation AnimationExact Binary64.
From S2P Require Import Binary64Avg Binary64Floor Lifecycle PageBinary64.
From S2P Require Import Interleaving.
From S2P Require Import Preprocess NumberString Controls Popups Load Page.
From S2P Require Import PageText Scenario.

#[local] Set Warnings "-inexact-float".

(** ** Inputs *)

(** A page whose three counties are those of the scenario. *)
Definition unit_raw : FeatureCollection (RawFeature unit float) :=
  Build_FeatureCollection
    [Build_RawFeature unit float tt (Some "A") None None;
     Build_RawFeature unit float tt (Some "B") None None;
     Build_RawFeature unit float tt (Some "C") None None].

Definition unit_derive (f : RawFeature unit float) : Feature unit float :=
  if decide (raw_NAME f = Some "A") then county (-99.4) 900 1000 1.1
  else if decide (raw_NAME f = Some "B") then county (-98.1) 500 0 0
  else county (-97.9) 700 3000 4.3.

Definition unit_page : State float unit := load unit_derive unit_raw.

(** The page after the slider, the colour-mode control and a frame. *)
Definition busy_page : State float (float * float) :=
  run [SliderInput 4%float; SelectChange "density"; AnimationFrame] pair_page.

Lemma busy_page_reachable : reachable pair_derive pair_raw busy_page.
Proof. apply reachable_run, reachable_load. Qed.

(** The scenario over the rationals. *)
Definition q_county (lon : Q) : Feature unit Q :=
  {| geometry := tt;
     properties := {| NAME := None; County := None; area_sq_miles := 1%Q;
                      centroid_lon := lon; population := 2%Q;
                      density := 3%Q |} |}.

Definition q_scenario : FeatureCollection (Feature unit Q) :=
  Build_FeatureCollection
    [q_county (-994 # 10); q_county (-981 # 10); q_county (-979 # 10)].

(** ** Aggregation *)

Lemma createLongitudeBands_avg_witness :
  avg_value (band_properties (band_of scenario 2%float "population" (-100)%float))
  = 1000%float.
Proof.
  rewrite (createLongitudeBands_avg scenario 2%float "population");
    [| vm_compute; left]. vm_compute. reflexivity.
Defined.

Lemma createLongitudeBands_ring_witness :
  coordinates (band_of scenario 2%float "area" (-98)%float)
  = [[(-98, 25); (-96, 25); (-96, 49); (-98, 49); (-98, 25)]]%float.
Proof.
  pose proof (createLongitudeBands_ring scenario 2%float "area"
    (band_of scenario 2%float "area" (-98)%float)) as Hring.
  cbv beta iota in Hring.
  destruct Hring as [_ Hring]; [vm_compute; right; left|].
  etrans; [apply Hring|]. vm_compute. reflexivity.
Defined.

Lemma exact_members_interval_witness :
  q_county (-981 # 10)
    ∈ members (2 # 1) (-100 # 1) (features q_scenario).
Proof.
  apply (exact_members_interval q_scenario (2 # 1) "area"
           (band_of q_scenario (2 # 1) "area" (-100 # 1))).
  - reflexivity.
  - vm_compute. left.
  - right. left.
  - split; vm_compute; congruence.
Defined.

Lemma exact_west_order_witness :
  (fun b => bandStart (band_properties b))
    <$> features (createLongitudeBands q_scenario (2 # 1) "area")
  = [-100 # 1; -98 # 1].
Proof.
  rewrite (exact_west_order q_scenario (2 # 1) "area"); [done|done|].
  repeat constructor.
Defined.

Lemma exact_order_independent_witness :
  exists b',
    b' ∈ features (createLongitudeBands
                     (Build_FeatureCollection (reverse (features q_scenario)))
                     (2 # 1) "area") /\
    bandStart (band_properties b') = (-100 # 1).
Proof.
  destruct (exact_order_independent q_scenario
              (Build_FeatureCollection (reverse (features q_scenario)))
              (2 # 1) "area" (band_of q_scenario (2 # 1) "area" (-100 # 1)))
    as (b' & Hb' & Hstart & _).
  - simpl. by rewrite reverse_Permutation.
  - vm_compute. left.
  - by exists b'.
Defined.

Lemma band_key_floor_witness :
  exists k, has_value k (-319)
            /\ band_key 0.3%float (county (-95.4) 1 1 1)%float
               = B64.canon (k * 0.3)%float.
Proof.
  exact (band_key_floor 0.3%float (county (-95.4) 1 1 1)%float _ eq_refl).
Defined.

Lemma band_avg_drawable_witness :
  is_nan (avg_value (band_properties
            (band_of scenario 2%float "density" (-100)%float))) = false.
Proof.
  apply (band_avg_drawable scenario 2%float "density"); [done|].
  vm_compute. left.
Defined.

Lemma zero_width_collapses_witness :
  members 0%float nan (features scenario) = features scenario.
Proof.
  destruct (zero_width_collapses 0%float "area" scenario
              (nan_band 0%float "area" (features scenario)))
    as (_ & _ & Hm); [reflexivity | done | vm_compute; left |].
  exact Hm.
Defined.

(** ** Animation *)

Lemma animation_trace_witness :
  source_lonbands (map (frames 2 (slider_input 4%float unit_page)))
  = Some (createLongitudeBands (counties unit_page)
            (step_width 2%float 4%float 3) "area").
Proof.
  apply (animation_trace 4%float unit_page 3); [reflexivity|].
  unfold steps. lia.
Defined.

Lemma animation_settles_witness :
  bandWidth (frames 12 (slider_input 4%float unit_page)) = 4%float /\
  idle (frames 12 (slider_input 4%float unit_page)).
Proof.
  destruct (animation_settles 4%float unit_page 12) as (_ & Hw & Hi);
    [reflexivity | unfold steps; lia |]. by split.
Defined.

Lemma newest_animation_wins_witness :
  source_lonbands
    (map (frames 3 (slider_input 1%float (slider_input 4%float unit_page))))
  = Some (createLongitudeBands (counties unit_page)
            (step_width 4%float 1%float 4) "area").
Proof.
  apply (newest_animation_wins 4%float 1%float unit_page 3); [reflexivity|].
  unfold steps. lia.
Defined.

Lemma mode_change_during_animation_witness :
  source_lonbands
    (map (state_of (select_change "density"
                      (frames 3 (slider_input 4%float unit_page)))))
  = Some (createLongitudeBands (counties unit_page) 4%float "density").
Proof.
  apply (mode_change_during_animation 4%float "density" unit_page 3);
    [reflexivity|]. unfold steps. lia.
Defined.

Lemma halving_shows_nan_band_witness :
  source_lonbands (map (frames steps (slider_input 1%float unit_page)))
  = Some (Build_FeatureCollection
            [nan_band 0%float "area" (features (counties unit_page))]).
Proof.
  apply (halving_shows_nan_band unit_page); [reflexivity | | done].
  vm_compute. reflexivity.
Defined.

Lemma exact_overshoot_witness : (4 < step_width 2 4 3)%Q.
Proof.
  apply (exact_overshoot 2 4 3); [unfold steps; lia | reflexivity].
Defined.

Lemma exact_last_step_nonpositive_witness :
  Qle_bool (step_width 2%Q 1%Q steps) 0%Q = true.
Proof.
  apply Qle_bool_iff, (exact_last_step_nonpositive 2 1).
  vm_compute. congruence.
Defined.

(** ** The page *)

Lemma bands_ok_reachable_witness : bands_ok pair_derive pair_raw busy_page.
Proof. apply bands_ok_reachable, busy_page_reachable. Defined.

Lemma reachable_settles_witness : idle (frames steps busy_page).
Proof. apply (reachable_settles pair_derive pair_raw), busy_page_reachable. Defined.

Lemma one_view_visible_witness :
  btn_innerText (handle ToggleClick busy_page)
  = Some "Switch to County Coloring".
Proof.
  destruct (one_view_visible pair_derive pair_raw (handle ToggleClick busy_page)
              (reachable_handle _ _ _ _ busy_page_reachable))
    as [(Hm & _) | (_ & _ & _ & _ & _ & Hb)]; [|exact Hb].
  vm_compute in Hm. discriminate.
Defined.

Lemma paints_follow_colorMode_witness :
  paint (map busy_page) "lonband-fill" "fill-color"
  = Some (paint_of bandPaints (colorMode busy_page)).
Proof.
  apply (paints_follow_colorMode pair_derive pair_raw), busy_page_reachable.
Defined.

Lemma at_most_one_popup_witness :
  (length (popups (map (handle (CountyClick (0, 0)%float
     (properties (county 0 0 0 0))) busy_page))) <= 1)%nat.
Proof.
  apply (at_most_one_popup pair_derive pair_raw).
  apply reachable_handle, busy_page_reachable.
Defined.

Lemma legend_ok_reachable_witness :
  exists l, legend_innerHTML busy_page = Some l /\ legend_mode l = "density".
Proof.
  destruct (legend_of "density" "county") as [l|] eqn:Hl; [|discriminate].
  exists l. split.
  - apply (legend_ok_reachable pair_derive pair_raw), Hl.
    apply busy_page_reachable.
  - vm_compute in Hl. by simplify_eq.
Defined.

Lemma toggle_twice_witness :
  mode (handle ToggleClick (handle ToggleClick busy_page)) = mode busy_page.
Proof.
  apply (toggle_twice pair_derive pair_raw), busy_page_reachable.
Defined.

Lemma county_click_popup_witness :
  exists q,
    popups (map (handle (CountyClick (0, 0)%float
                   (properties (county 0 0 0 0))) busy_page)) = [q].
Proof.
  destruct (county_click_popup pair_derive pair_raw busy_page (0, 0)%float
              (properties (county 0 0 0 0)) busy_page_reachable)
    as (q & Hq & _). by exists q.
Defined.

Lemma band_click_popup_witness :
  exists q,
    popups (map (handle (BandClick (0, 0)%float
                   (Build_BandProperties float 700 (-100) (-98))%float)
                   busy_page)) = [q].
Proof.
  destruct (band_click_popup pair_derive pair_raw busy_page (0, 0)%float
              (Build_BandProperties float 700 (-100) (-98))%float
              busy_page_reachable)
    as (q & Hq & _). by exists q.
Defined.

Lemma map_click_closes_witness :
  popups (map (handle (MapClick false)
                 (handle (CountyClick (0, 0)%float
                            (properties (county 0 0 0 0))) busy_page))) = [].
Proof.
  apply (map_click_closes pair_derive pair_raw).
  apply reachable_handle, busy_page_reachable.
Defined.

Lemma page_avg_drawable_witness :
  Forall (fun b => is_nan (avg_value (band_properties b)) = false)
    (default [] (features <$> source_lonbands (map busy_page))).
Proof.
  destruct (source_lonbands (map busy_page)) as [fc|] eqn:Hfc; [|done].
  apply Forall_forall. intros b Hb.
  by apply (page_avg_drawable pair_derive pair_raw busy_page fc b);
    [| apply busy_page_reachable | |].
Defined.

Lemma band_avg_infinity_witness :
  avg_value (band_properties
    (band_of (counties pair_page) 2%float "density" (-98)%float)) = infinity.
Proof.
  apply (band_avg_infinity (counties pair_page) 2%float "density" _
           (pair_derive
              {| raw_geometry := (0, -97.9)%float; raw_NAME := None;
                 raw_County := None;
                 raw_Total_Population := Some (JNum 5%float) |}));
    [done | vm_compute; right; left | vm_compute; right; right; left
    | reflexivity | reflexivity].
Defined.

Lemma page_avg_infinity_witness :
  exists b, b ∈ default [] (features <$> source_lonbands (map busy_page)) /\
            avg_value (band_properties b) = infinity.
Proof.
  destruct (source_lonbands (map busy_page)) as [fc|] eqn:Hfc; [|done].
  destruct (page_avg_infinity pair_derive pair_raw busy_page fc
              {| raw_geometry := (0, -97.9)%float; raw_NAME := None;
                 raw_County := None;
                 raw_Total_Population := Some (JNum 5%float) |})
    as (b & w & Hb & _ & Ha);
    [done | apply busy_page_reachable | done | vm_compute; right; right; left
    | reflexivity |].
  by exists b.
Defined.

(** ** Controls *)

Lemma select_change_unknown_witness :
  threw (select_change "income" pair_page) = true.
Proof.
  apply (select_change_unknown "income" pair_page).
  intros Hin. repeat (apply elem_of_cons in Hin as [Hin | Hin];
    [discriminate|]). by apply elem_of_nil in Hin.
Defined.

Lemma select_change_known_witness :
  colorMode (state_of (select_change "density" pair_page)) = "density".
Proof.
  apply (select_change_known "density" pair_page). right. right. left.
Defined.

(** ** Derived properties *)

Lemma population_default_witness :
  population (properties (pair_derive
    {| raw_geometry := (0, -98.1)%float; raw_NAME := None;
       raw_County := Some "B"; raw_Total_Population := Some (JStr "N/A") |}))
  = zero.
Proof. apply population_default. left. reflexivity. Defined.

Lemma density_zero_area_witness :
  is_finite (density (properties (pair_derive
    {| raw_geometry := (0, -98.1)%float; raw_NAME := None;
       raw_County := Some "B"; raw_Total_Population := Some (JNum 5%float) |})))
  = false.
Proof. apply density_zero_area. reflexivity. Defined.

Lemma density_infinity_witness :
  density (properties (pair_derive
    {| raw_geometry := (0, -97.9)%float; raw_NAME := None;
       raw_County := None; raw_Total_Population := Some (JNum 5%float) |}))
  = infinity.
Proof. apply density_infinity; reflexivity. Defined.

Lemma population_of_text_witness :
  population (properties (pair_derive
    {| raw_geometry := (0, -98.1)%float; raw_NAME := None;
       raw_County := Some "B"; raw_Total_Population := Some (JStr "12345") |}))
  = B64.of_Z 12345.
Proof. apply (population_of_text 12345); [done|reflexivity]. Defined.

Lemma population_separator_witness :
  population (properties (pair_derive
    {| raw_geometry := (0, -98.1)%float; raw_NAME := None;
       raw_County := Some "B"; raw_Total_Population := Some (JStr "1,234") |}))
  = zero.
Proof.
  apply (population_separator 1 (String.list_ascii_of_string "234")).
  reflexivity.
Defined.

(** ** Numbers as text *)

Lemma parseFloat_toFixed_witness :
  parseFloat (toFixed (fun _ => EmptyString) 2 1234.5678%float)
  = toFixed_parsed 2 1234.5678%float.
Proof. apply parseFloat_toFixed. reflexivity. Defined.

Lemma label_shows_bandWidth_witness :
  bandWidth busy_page
  = default initial_bandWidth (bandValue_textContent busy_page).
Proof.
  apply (label_shows_bandWidth pair_derive pair_raw), busy_page_reachable.
Defined.

Lemma legend_tells_state_witness :
  colorMode pair_page = colorMode (handle (SliderInput 4%float) pair_page) /\
  (colorMode pair_page = "population" ->
   mode pair_page = "band"
   <-> mode (handle (SliderInput 4%float) pair_page) = "band").
Proof.
  apply (legend_tells_state
           (H0:=binary64_format (fun _ _ => EmptyString) (fun _ => EmptyString))
           pair_derive pair_raw pair_raw pair_page
           (handle (SliderInput 4%float) pair_page)).
  - constructor.
  - by repeat constructor.
  - by left.
  - by left.
  - reflexivity.
Defined.

(** ** Paints *)

Lemma paint_stops_ascending_witness :
  ascending (area_ramp.*1) = true.
Proof.
  apply (paint_stops_ascending "area"
           {| input := "avg_value"; stops := area_ramp |}).
  right. reflexivity.
Defined.

Lemma legend_matches_paint_witness :
  get legendStops "population" = Some (population_ramp.*1).
Proof.
  apply (legend_matches_paint "population"
           {| input := "population"; stops := population_ramp |}).
  left. reflexivity.
Defined.
